(** * MyShapes: the Onshape synchronisation tool, embedded and verified

    A shallow embedding of the generator's commands
    ([generator/src/commands/sync.ts], [bulk.ts], [upload.ts]), of the
    listing functions of [packages/onshape-client/src/index.ts] and of
    [generator/src/utils/document-utils.ts].

    Conventions of the embedding.
    - A JavaScript string is a [string]: one [ascii] per UTF-16 code unit, so
      the strings of the model are those whose code units are below 256.
    - A value that went through [JSON.parse] is a [JValue]; [undefined] is
      the [None] of [option JValue].  JSON numbers are integers here: the code
      only tests them for truthiness and identity.
    - An object is its list of own properties in insertion order (the
      re-ordering of integer-like keys is not modelled; lookups do not depend
      on it).
    - A [try]/[catch] is a match on [Try]; [process.exit] ends a run with
      [Exited].
    - The file system is taken not to fail, and [Date] parsing is a
      parameter of the reconciliation.

    The embedding comes first, module by module; the properties follow. *)

From Stdlib Require Import List String Ascii ZArith Bool Lia Arith.
From Stdlib Require Import Numbers.DecimalString.
Import ListNotations.
Open Scope string_scope.
Open Scope list_scope.

(** ** JavaScript values and the operations the code applies to them *)
Module JS.

#[warnings="-register-all"]
Inductive JValue : Type :=
| JNull
| JBool (b : bool)
| JNum (n : Z)
| JStr (s : string)
| JArr (items : list JValue)
| JObj (props : list (string * JValue)).

(** The outcome of an expression or call that may throw. *)
Inductive Try (A : Type) : Type :=
| Ok (a : A)
| Thrown (message : string).
Arguments Ok {A} a.
Arguments Thrown {A} message.

Definition bind {A B} (m : Try A) (k : A -> Try B) : Try B :=
  match m with
  | Ok a => k a
  | Thrown e => Thrown e
  end.

Notation "x <- m ;; k" := (bind m (fun x => k))
  (at level 61, m at next level, right associativity).

(** [Boolean(v)] for a parsed value and for a possibly undefined one. *)
Definition truthy (v : JValue) : bool :=
  match v with
  | JNull => false
  | JBool b => b
  | JNum n => negb (Z.eqb n 0)
  | JStr s => negb (String.eqb s "")
  | JArr _ => true
  | JObj _ => true
  end.

Definition truthy_opt (v : option JValue) : bool :=
  match v with
  | Some v => truthy v
  | None => false
  end.

(** [a || b] on possibly undefined values. *)
Definition or_else (a b : option JValue) : option JValue :=
  if truthy_opt a then a else b.

(** [s || d] where [s] is a string or undefined. *)
Definition str_or (s : option string) (d : string) : string :=
  match s with
  | Some x => if String.eqb x "" then d else x
  | None => d
  end.

(** First own property named [k]. *)
Fixpoint lookup {V : Type} (k : string) (o : list (string * V)) : option V :=
  match o with
  | [] => None
  | (k', v) :: rest => if String.eqb k k' then Some v else lookup k rest
  end.

(** [v.k] for a value [v] that is neither null nor undefined, and a name [k]
    that is not an index and not [length]: only objects own such a
    property. *)
Definition getProp (v : JValue) (k : string) : option JValue :=
  match v with
  | JObj o => lookup k o
  | _ => None
  end.

(** [v.k] for any parsed value: reading a property of [null] throws. *)
Definition getMember (v : JValue) (k : string) : Try (option JValue) :=
  match v with
  | JNull => Thrown "Cannot read properties of null"
  | _ => Ok (getProp v k)
  end.

(** [v?.k] on a possibly undefined value. *)
Definition optChain (v : option JValue) (k : string) : option JValue :=
  match v with
  | None => None
  | Some JNull => None
  | Some v => getProp v k
  end.

(** [o[k] = v] on an ordinary object: an existing key keeps its position. *)
Fixpoint set {V : Type} (k : string) (v : V) (o : list (string * V))
  : list (string * V) :=
  match o with
  | [] => [(k, v)]
  | (k', v') :: rest =>
      if String.eqb k k' then (k, v) :: rest else (k', v') :: set k v rest
  end.

(** [{ ...target, ...src }] continued: the properties of [src] are assigned
    in order. *)
Definition spread {V : Type} (target src : list (string * V))
  : list (string * V) :=
  fold_left (fun o kv => set (fst kv) (snd kv) o) src target.

(** [Object.fromEntries]. *)
Definition fromEntries {V : Type} (es : list (string * V))
  : list (string * V) :=
  spread [] es.

Definition index_key (i : nat) : string :=
  NilZero.string_of_uint (Nat.to_uint i).

Fixpoint indexed {V : Type} (i : nat) (l : list V) : list (string * V) :=
  match l with
  | [] => []
  | x :: rest => (index_key i, x) :: indexed (S i) rest
  end.

Fixpoint chars (s : string) : list JValue :=
  match s with
  | EmptyString => []
  | String c rest => JStr (String c EmptyString) :: chars rest
  end.

(** [Object.entries(v)] for a value that is neither null nor undefined. *)
Definition entries (v : JValue) : list (string * JValue) :=
  match v with
  | JObj o => o
  | JArr l => indexed 0 l
  | JStr s => indexed 0 (chars s)
  | _ => []
  end.

(** [keys.includes(k)] for an array of string literals. *)
Definition includes (keys : list string) (k : string) : bool :=
  existsb (String.eqb k) keys.

(** SameValueZero, the equality of [Set]: primitives by value; two objects
    or arrays met in parsed data are never the same reference. *)
Definition sameValueZero (a b : JValue) : bool :=
  match a, b with
  | JNull, JNull => true
  | JBool x, JBool y => Bool.eqb x y
  | JNum x, JNum y => Z.eqb x y
  | JStr x, JStr y => String.eqb x y
  | _, _ => false
  end.

(** [[...new Set(l)]]: the first occurrence of each value, in order. *)
Fixpoint setInsert (seen : list JValue) (v : JValue) : list JValue :=
  match seen with
  | [] => [v]
  | x :: rest => if sameValueZero x v then seen else x :: setInsert rest v
  end.

Definition uniq (l : list JValue) : list JValue :=
  fold_left setInsert l [].

(** [JSON.stringify] leaves out the properties whose value is undefined. *)
Fixpoint stringifyProps (o : list (string * option JValue))
  : list (string * JValue) :=
  match o with
  | [] => []
  | (k, Some v) :: rest => (k, v) :: stringifyProps rest
  | (_, None) :: rest => stringifyProps rest
  end.

Definition keys {V : Type} (o : list (string * V)) : list string :=
  map fst o.

(** No property name occurs twice, as in every parsed object. *)
Fixpoint distinctKeys {V : Type} (o : list (string * V)) : bool :=
  match o with
  | [] => true
  | (k, _) :: rest =>
      match lookup k rest with
      | Some _ => false
      | None => distinctKeys rest
      end
  end.

(** The last property named [k]: the one that wins when the properties
    are assigned in order. *)
Definition lookupLast {V : Type} (k : string) (o : list (string * V))
  : option V :=
  lookup k (rev o).

End JS.
Import JS.

(** ** [generator/src/utils/document-utils.ts]: the file name of a title *)
Module Slug.

Definition code (c : ascii) : nat := nat_of_ascii c.

Definition between (lo hi n : nat) : bool := Nat.leb lo n && Nat.leb n hi.

(** [String.prototype.toLowerCase] on one code unit below 256: A-Z, and the
    Latin-1 capitals U+00C0-U+00DE except the multiplication sign. *)
Definition lowerChar (c : ascii) : ascii :=
  let n := code c in
  if between 65 90 n || (between 192 222 n && negb (Nat.eqb n 215))
  then ascii_of_nat (n + 32)
  else c.

Fixpoint toLowerCase (s : string) : string :=
  match s with
  | EmptyString => EmptyString
  | String c rest => String (lowerChar c) (toLowerCase rest)
  end.

(** The class [\s] below 256: TAB, LF, VT, FF, CR, space and U+00A0. *)
Definition isSpace (c : ascii) : bool :=
  let n := code c in
  between 9 13 n || Nat.eqb n 32 || Nat.eqb n 160.

(** The class [[a-z0-9-]]. *)
Definition isSlugChar (c : ascii) : bool :=
  let n := code c in
  between 97 122 n || between 48 57 n || Nat.eqb n 45.

(** [s.replace(/\s+/g, '-')]: the scan emits one hyphen where a match of
    [\s+] starts and then consumes the rest of that (greedy) match;
    [inMatch] tells that the previous code unit belonged to a match. *)
Fixpoint replaceSpaces (inMatch : bool) (s : string) : string :=
  match s with
  | EmptyString => EmptyString
  | String c rest =>
      if isSpace c
      then if inMatch then replaceSpaces true rest
           else String "-"%char (replaceSpaces true rest)
      else String c (replaceSpaces false rest)
  end.

(** [s.replace(/[^a-z0-9-]/g, '')]. *)
Fixpoint stripOthers (s : string) : string :=
  match s with
  | EmptyString => EmptyString
  | String c rest =>
      if isSlugChar c then String c (stripOthers rest) else stripOthers rest
  end.

Definition generateFilenameFromTitle (title : string) : string :=
  stripOthers (replaceSpaces false (toLowerCase title)).

(** *** The scan, run by run

    A string is cut into its maximal runs of whitespace and of other
    characters; a whitespace run becomes one hyphen, another run keeps its
    characters of [[a-z0-9-]]. *)
Fixpoint runs (s : string) : list (bool * string) :=
  match s with
  | EmptyString => []
  | String c rest =>
      match runs rest with
      | (b, r) :: tl =>
          if Bool.eqb b (isSpace c) then (b, String c r) :: tl
          else (isSpace c, String c EmptyString) :: (b, r) :: tl
      | [] => [(isSpace c, String c EmptyString)]
      end
  end.

Definition renderRun (r : bool * string) : string :=
  if fst r then "-" else stripOthers (snd r).

Fixpoint concatRuns (l : list (bool * string)) : string :=
  match l with
  | [] => EmptyString
  | r :: tl => renderRun r ++ concatRuns tl
  end.

Fixpoint allChars (p : ascii -> bool) (s : string) : bool :=
  match s with
  | EmptyString => true
  | String c rest => p c && allChars p rest
  end.

Fixpoint joinRuns (l : list (bool * string)) : string :=
  match l with
  | [] => EmptyString
  | r :: tl => snd r ++ joinRuns tl
  end.

(** A run is not empty and all its characters are on one side of [\s]. *)
Definition runOk (r : bool * string) : bool :=
  negb (String.eqb (snd r) "") &&
  allChars (fun c => Bool.eqb (isSpace c) (fst r)) (snd r).

(** Neighbouring runs are of different kinds: the runs are maximal. *)
Fixpoint alternating (l : list (bool * string)) : bool :=
  match l with
  | a :: ((b :: _) as tl) => negb (Bool.eqb (fst a) (fst b)) && alternating tl
  | _ => true
  end.

End Slug.

(** ** [generator/src/commands/sync.ts] *)
Module Sync.

(** What the gateway answers, as the code reads it.  Label data is kept as
    parsed JSON because the code inspects its shape at run time. *)
Record RemoteDocument : Type := {
  doc_name : string;
  doc_description : option string;
  doc_createdAt : option string;
  doc_documentLabels : option JValue
}.

Record Workspace : Type := {
  ws_id : string;
  ws_name : string;
  ws_isMain : bool;
  ws_type : option string
}.

Record RemoteVersion : Type := {
  rv_id : string;
  rv_name : option string;
  rv_description : option string;
  rv_createdAt : option string;
  rv_created_at : option string;
  rv_microversion : option string
}.

(** An element of the list that [getDocumentThumbnails] returns. *)
Record ThumbnailInfo : Type := {
  th_size : string;
  th_url : string;
  th_width : option Z;
  th_height : option Z;
  th_mediaType : option string
}.

(** The mapped version object of lines 85-91. *)
Record DocumentVersion : Type := {
  id : string;
  name : string;
  description : string;
  createdAt : JValue;
  microversion : string
}.

(** The four fetches for one document: the metadata as fetched, the three
    others as they ended. *)
Record Snapshot : Type := {
  snap_document : RemoteDocument;
  snap_workspaces : Try (list Workspace);
  snap_versions : Try (list RemoteVersion);
  snap_thumbnails : Try (list ThumbnailInfo)
}.

(** [process.env]. *)
Record Env : Type := {
  AUTHOR_NAME : option string;
  AUTHOR_EMAIL : option string;
  AUTHOR_WEBSITE : option string
}.

Fixpoint mapTry {A B : Type} (f : A -> Try B) (l : list A) : Try (list B) :=
  match l with
  | [] => Ok []
  | x :: rest => y <- f x ;; ys <- mapTry f rest ;; Ok (y :: ys)
  end.

(** [.filter(Boolean)] on values that may be undefined. *)
Fixpoint filterBoolean (l : list (option JValue)) : list JValue :=
  match l with
  | [] => []
  | Some v :: rest =>
      if truthy v then v :: filterBoolean rest else filterBoolean rest
  | None :: rest => filterBoolean rest
  end.

Definition optStr (s : option string) : option JValue := option_map JStr s.
Definition optNum (n : option Z) : option JValue := option_map JNum n.

Definition strEq (a : option string) (b : string) : bool :=
  match a with
  | Some x => String.eqb x b
  | None => false
  end.

(** [a || b] on strings that may be undefined. *)
Definition strOrOpt (a b : option string) : option string :=
  match a with
  | Some x => if String.eqb x "" then b else a
  | None => b
  end.

Section Reconciliation.

(** [new Date(s)] followed by [toJSON]: the ISO-8601 rendering of the date
    that [s] denotes, [None] for an invalid date. *)
Variable parseDate : string -> option string.

(** [JSON.stringify(new Date(x))], read back. *)
Definition dateJSON (x : option string) : JValue :=
  match x with
  | Some s =>
      match parseDate s with
      | Some iso => JStr iso
      | None => JNull
      end
  | None => JNull
  end.

(** Lines 62-77. *)
Definition isMainWorkspace (w : Workspace) : bool :=
  (String.eqb (ws_name w) "Main" || ws_isMain w) &&
  strEq (ws_type w) "workspace".

Definition mainWorkspaceId (s : Snapshot) : option string :=
  match snap_workspaces s with
  | Ok workspaces => option_map ws_id (find isMainWorkspace workspaces)
  | Thrown _ => None
  end.

(** Lines 81-97. *)
Definition mapVersion (v : RemoteVersion) : DocumentVersion := {|
  id := rv_id v;
  name := str_or (rv_name v) ("Version " ++ rv_id v);
  description := str_or (rv_description v) "";
  createdAt := dateJSON (strOrOpt (rv_createdAt v) (rv_created_at v));
  microversion := str_or (rv_microversion v) ""
|}.

Definition notStart (v : DocumentVersion) : bool :=
  negb (String.eqb (name v) "Start").

Definition versions (s : Snapshot) : list DocumentVersion :=
  match snap_versions s with
  | Ok versionsResponse => filter notStart (map mapVersion versionsResponse)
  | Thrown _ => []
  end.

(** Lines 101-119, the list only. *)
Definition thumbnails (s : Snapshot) : list ThumbnailInfo :=
  match snap_thumbnails s with
  | Ok l => l
  | Thrown _ => []
  end.

(** How [JSON.stringify] writes the two kinds of element. *)
Definition versionJSON (v : DocumentVersion) : JValue :=
  JObj [("id", JStr (id v));
        ("name", JStr (name v));
        ("description", JStr (description v));
        ("createdAt", createdAt v);
        ("microversion", JStr (microversion v))].

Definition thumbnailJSON (t : ThumbnailInfo) : JValue :=
  JObj (stringifyProps
    [("size", Some (JStr (th_size t)));
     ("url", Some (JStr (th_url t)));
     ("width", optNum (th_width t));
     ("height", optNum (th_height t));
     ("mediaType", optStr (th_mediaType t))]).

(** Line 139. *)
Definition apiLabelNames (document : RemoteDocument) : Try (list JValue) :=
  match doc_documentLabels document with
  | None => Ok []
  | Some JNull => Ok []
  | Some (JArr labels) =>
      names <- mapTry (fun label => getMember label "name") labels ;;
      Ok (filterBoolean names)
  | Some _ => Thrown "document.documentLabels.map is not a function"
  end.

(** Lines 142-144. *)
Definition labelName (label : JValue) : Try (option JValue) :=
  match label with
  | JStr _ => Ok (Some label)
  | JNull => Thrown "Cannot read properties of null"
  | _ => Ok (or_else (getProp label "name") (Some label))
  end.

Definition userLabels (existingData : JValue) : Try (list JValue) :=
  ud <- getMember existingData "userData" ;;
  match or_else (optChain ud "labels") (Some (JArr [])) with
  | Some (JArr labels) =>
      names <- mapTry labelName labels ;;
      Ok (filterBoolean names)
  | _ => Thrown "labels.map is not a function"
  end.

(** Line 147. *)
Definition allLabels (api user : list JValue) : list JValue :=
  uniq (api ++ user).

(** Lines 150-160. *)
Definition apiData (document_id : string) (s : Snapshot)
    (labels : list JValue) : list (string * option JValue) :=
  let document := snap_document s in
  [("documentId", Some (JStr document_id));
   ("title", Some (JStr (doc_name document)));
   ("description", Some (JStr (str_or (doc_description document) "")));
   ("onshapeUrl",
      Some (JStr ("https://cad.onshape.com/documents/" ++ document_id)));
   ("mainWorkspaceId", optStr (mainWorkspaceId s));
   ("createdAt", Some (dateJSON (doc_createdAt document)));
   ("versions", Some (JArr (map versionJSON (versions s))));
   ("thumbnails", Some (JArr (map thumbnailJSON (thumbnails s))));
   ("labels", Some (JArr labels))].

Definition userDataKnown : list string :=
  ["workspaceId"; "elementId"; "pdfElementId"; "author"; "labels";
   "description"; "changelog"].

Definition rootKnown : list string :=
  ["documentId"; "title"; "description"; "createdAt"; "versions";
   "thumbnails"; "labels"; "workspaceId"; "elementId"; "changelog";
   "author"; "userData"].

Definition keyNotIn (keys : list string) (kv : string * JValue) : bool :=
  negb (includes keys (fst kv)).

Definition defined (kv : string * JValue) : string * option JValue :=
  (fst kv, Some (snd kv)).

Definition defaultAuthor (env : Env) : JValue :=
  JObj [("name", JStr (str_or (AUTHOR_NAME env) "Unknown"));
        ("email", JStr (str_or (AUTHOR_EMAIL env) ""));
        ("website", JStr (str_or (AUTHOR_WEBSITE env) ""))].

(** [Object.entries(existingData.userData || {})]. *)
Definition userDataEntries (ud : option JValue) : list (string * JValue) :=
  match ud with
  | Some v => if truthy v then entries v else []
  | None => []
  end.

(** Lines 163-174: the properties written out in the object literal, for an
    [existingData] that is not null. *)
Definition userDataLiteral (env : Env) (existingData : JValue)
    (labels : list JValue) : list (string * option JValue) :=
  let ud := getProp existingData "userData" in
  [("workspaceId",
      or_else (or_else (optChain ud "workspaceId")
                       (getProp existingData "workspaceId")) None);
   ("elementId",
      or_else (or_else (optChain ud "elementId")
                       (getProp existingData "elementId")) None);
   ("pdfElementId", or_else (optChain ud "pdfElementId") None);
   ("author",
      or_else (or_else (optChain ud "author")
                       (getProp existingData "author"))
              (Some (defaultAuthor env)));
   ("labels", Some (JArr labels))].

(** Lines 163-187: the literal, then the two spreads. *)
Definition userData (env : Env) (existingData : JValue)
    (labels : list JValue) : list (string * option JValue) :=
  let ud := getProp existingData "userData" in
  let custom :=
    fromEntries (filter (keyNotIn userDataKnown) (userDataEntries ud)) in
  let migrated :=
    fromEntries (filter (keyNotIn rootKnown) (entries existingData)) in
  spread (spread (userDataLiteral env existingData labels)
                 (map defined custom))
         (map defined migrated).

(** Lines 190-195: [documentData] as [JSON.stringify] writes it. *)
Definition writtenRecord (env : Env) (document_id : string) (s : Snapshot)
    (existingData : JValue) (api user : list JValue) : JValue :=
  JObj (stringifyProps
    (apiData document_id s (allLabels api user) ++
     [("userData",
       Some (JObj (stringifyProps (userData env existingData user))))])).

(** Lines 138-195: the record that is written, or the exception that leaves
    the [try] block. *)
Definition documentData (env : Env) (document_id : string) (s : Snapshot)
    (existingData : JValue) : Try JValue :=
  api <- apiLabelNames (snap_document s) ;;
  user <- userLabels existingData ;;
  Ok (writtenRecord env document_id s existingData api user).

(** What the spread of the root-level properties assigns to [k], and what
    the spread of the prior [userData] assigns to it. *)
Definition migratedValue (existingData : JValue) (k : string)
  : option JValue :=
  if includes rootKnown k then None
  else lookupLast k (entries existingData).

Definition customValue (existingData : JValue) (k : string)
  : option JValue :=
  if includes userDataKnown k then None
  else lookupLast k (userDataEntries (getProp existingData "userData")).

(** A file of the documents directory: what [JSON.parse] makes of it. *)
Inductive FileContent : Type :=
| Parsed (v : JValue)
| Unparseable.

(** Lines 127-136. *)
Definition existingData (file : option FileContent) : JValue :=
  match file with
  | Some (Parsed v) => v
  | Some Unparseable => JObj []
  | None => JObj []
  end.

(** Reconciliation of one snapshot with the prior record, if any. *)
Definition reconcile (env : Env) (document_id : string) (s : Snapshot)
    (prior : option JValue) : Try JValue :=
  documentData env document_id s (existingData (option_map Parsed prior)).

(** The gateway ([OnshapeClient]) as [syncDocuments] uses it. *)
Record Client : Type := {
  getDocument : string -> Try RemoteDocument;
  getWorkspaces : string -> Try (list Workspace);
  getDocumentVersions : string -> Try (list RemoteVersion);
  getDocumentThumbnails : string -> Try (list ThumbnailInfo);
  downloadThumbnail : string -> Try unit
}.

(** The warnings and errors printed on the console. *)
Inductive Log : Type :=
| NoMainWorkspace
| WorkspaceFetchingFailed (message : string)
| VersionsProcessingFailed (message : string)
| ThumbnailsProcessingFailed (message : string)
| LargeThumbnailNotFound
| ThumbnailDownloadFailed (url message : string)
| CouldNotParseExisting
| DocumentSynced (outputPath : string)
| ErrorSyncing (message : string)
| Processing (docName : string)
| Completed (docName : string)
| ErrorProcessing (docName message : string)
| NoDocumentsFound
| BulkComplete
| ErrorInBulk (message : string)
| ErrorGenerating (message : string)
| TemplateNotFound (template : string)
| PdfGenerated (output : string).

(** The documents directory: file name and content. *)
Definition Store : Type := list (string * FileContent).

(** How an [async] function of the commands ends. *)
Inductive Completion : Type :=
| Returned
| Threw (message : string)
| Exited (code : Z).

Record Run : Type := {
  run_log : list Log;
  run_store : Store;
  run_end : Completion
}.

Definition fetchSnapshot (client : Client) (document_id : string)
    (document : RemoteDocument) : Snapshot := {|
  snap_document := document;
  snap_workspaces := getWorkspaces client document_id;
  snap_versions := getDocumentVersions client document_id;
  snap_thumbnails := getDocumentThumbnails client document_id
|}.

Definition workspaceLog (s : Snapshot) : list Log :=
  match snap_workspaces s with
  | Ok workspaces =>
      match find isMainWorkspace workspaces with
      | Some _ => []
      | None => [NoMainWorkspace]
      end
  | Thrown e => [WorkspaceFetchingFailed e]
  end.

Definition versionsLog (s : Snapshot) : list Log :=
  match snap_versions s with
  | Ok _ => []
  | Thrown e => [VersionsProcessingFailed e]
  end.

(** Lines 12-41 and 106-115: the download has a [try] of its own. *)
Definition thumbnailsLog (client : Client) (s : Snapshot) : list Log :=
  match snap_thumbnails s with
  | Ok l =>
      match find (fun t => String.eqb (th_size t) "600x340") l with
      | Some largeThumbnail =>
          match downloadThumbnail client (th_url largeThumbnail) with
          | Ok _ => []
          | Thrown e => [ThumbnailDownloadFailed (th_url largeThumbnail) e]
          end
      | None => [LargeThumbnailNotFound]
      end
  | Thrown e => [ThumbnailsProcessingFailed e]
  end.

Definition existingLog (file : option FileContent) : list Log :=
  match file with
  | Some Unparseable => [CouldNotParseExisting]
  | _ => []
  end.

Definition outputPath (document : RemoteDocument) : string :=
  Slug.generateFilenameFromTitle (doc_name document) ++ ".json".

(** [syncDocuments], lines 43-203.  The store is the directory
    [options.outputDir]; the file system itself is taken not to fail. *)
Definition syncDocuments (client : Client) (env : Env) (store : Store)
    (options_document : string) : Run :=
  match getDocument client options_document with
  | Thrown e =>
      {| run_log := [ErrorSyncing e]; run_store := store;
         run_end := Exited 1 |}
  | Ok document =>
      let s := fetchSnapshot client options_document document in
      let file := lookup (outputPath document) store in
      let log := workspaceLog s ++ versionsLog s ++ thumbnailsLog client s
                   ++ existingLog file in
      match documentData env options_document s (existingData file) with
      | Ok record =>
          {| run_log := log ++ [DocumentSynced (outputPath document)];
             run_store := set (outputPath document) (Parsed record) store;
             run_end := Returned |}
      | Thrown e =>
          {| run_log := log ++ [ErrorSyncing e]; run_store := store;
             run_end := Exited 1 |}
      end
  end.

End Reconciliation.

End Sync.

(** ** [packages/onshape-client/src/index.ts]: listing documents *)
Module Listing.

Inductive DocumentFilter : Type :=
| MY_DOCUMENTS | CREATED | SHARED | TRASH | PUBLIC | RECENT
| BY_OWNER | BY_COMPANY | BY_TEAM.

(** An item of a page of [GET /documents], as far as the commands read it. *)
Record ListedDocument : Type := {
  ld_id : string;
  ld_name : string;
  ld_documentLabels : option JValue
}.

(** The query parameters the callers of this repository can set. *)
Record Params : Type := {
  p_filter : DocumentFilter;
  p_offset : nat;
  p_limit : nat;
  p_q : option string;
  p_label : option string
}.

Record DocumentsOptions : Type := {
  o_filter : option DocumentFilter;
  o_q : option string;
  o_label : option string;
  o_offset : option nat;
  o_limit : option nat
}.

(** [response.next], read through [new URL(...).searchParams]. *)
Record NextUrl : Type := {
  next_offset : option nat;
  next_limit : option nat
}.

Record Page : Type := {
  items : option (list ListedDocument);
  next : option NextUrl
}.

(** The remote endpoint. *)
Definition Endpoint : Type := Params -> Try Page.

Definition ifTruthy (s : option string) : option string :=
  match s with
  | Some x => if String.eqb x "" then None else Some x
  | None => None
  end.

Definition orDefault {A : Type} (x : option A) (d : A) : A :=
  match x with
  | Some a => a
  | None => d
  end.

(** [getDocuments], lines 204-231. *)
Definition getDocuments (api : Endpoint) (options : DocumentsOptions)
  : Try Page :=
  api {| p_filter := orDefault (o_filter options) CREATED;
         p_offset := orDefault (o_offset options) 0;
         p_limit := orDefault (o_limit options) 20;
         p_q := ifTruthy (o_q options);
         p_label := ifTruthy (o_label options) |}.

(** Lines 252-254: the options of the next request. *)
Definition nextOptions (options : DocumentsOptions) (url : NextUrl)
  : DocumentsOptions :=
  {| o_filter := o_filter options;
     o_q := o_q options;
     o_label := o_label options;
     o_offset := match next_offset url with
                 | Some n => Some n
                 | None => o_offset options
                 end;
     o_limit := match next_limit url with
                | Some n => Some n
                | None => o_limit options
                end |}.

(** The [while] loop of lines 239-257; [None] when [fuel] iterations did
    not end it. *)
Fixpoint collectPages (api : Endpoint) (options : DocumentsOptions)
    (fuel : nat) (response : Page) (allDocuments : list ListedDocument)
  : option (Try (list ListedDocument)) :=
  match fuel with
  | O => None
  | S fuel' =>
      match items response with
      | None => Some (Ok allDocuments)
      | Some [] => Some (Ok allDocuments)
      | Some its =>
          match next response with
          | None => Some (Ok (allDocuments ++ its))
          | Some url =>
              match getDocuments api (nextOptions options url) with
              | Ok response' =>
                  collectPages api options fuel' response'
                    (allDocuments ++ its)
              | Thrown e => Some (Thrown e)
              end
          end
      end
  end.

(** [getAllDocuments], lines 233-260; its options carry no offset and no
    limit. *)
Definition withoutPaging (options : DocumentsOptions) : DocumentsOptions :=
  {| o_filter := o_filter options; o_q := o_q options;
     o_label := o_label options; o_offset := None; o_limit := None |}.

Definition getAllDocuments (api : Endpoint) (fuel : nat)
    (options : DocumentsOptions) : option (Try (list ListedDocument)) :=
  let options := withoutPaging options in
  match getDocuments api
          {| o_filter := o_filter options; o_q := o_q options;
             o_label := o_label options; o_offset := None;
             o_limit := Some 20 |} with
  | Ok response => collectPages api options fuel response []
  | Thrown e => Some (Thrown e)
  end.

(** Lines 274-284: the client-side test. *)
Definition labelNamed (label : string) (docLabel : JValue) : bool :=
  match docLabel with
  | JObj props =>
      match lookup "name" props with
      | Some (JStr n) => String.eqb n label
      | _ => false
      end
  | _ => false
  end.

Definition hasLabel (label : string) (doc : ListedDocument) : bool :=
  match ld_documentLabels doc with
  | Some (JArr documentLabels) => existsb (labelNamed label) documentLabels
  | _ => false
  end.

(** [getDocumentsByLabel], lines 262-288. *)
Definition getDocumentsByLabel (api : Endpoint) (fuel : nat)
    (label : string) (filter : DocumentFilter)
  : option (Try (list ListedDocument)) :=
  match getAllDocuments api fuel
          {| o_filter := Some filter; o_q := None; o_label := None;
             o_offset := None; o_limit := None |} with
  | Some (Ok allDocuments) =>
      Some (Ok (List.filter (hasLabel label) allDocuments))
  | Some (Thrown e) => Some (Thrown e)
  | None => None
  end.

(** *** The listing as the specification words it: continuation pointers
    are followed until a page has none, and the items of every page are
    concatenated. *)
Definition pageItems (p : Page) : list ListedDocument :=
  orDefault (items p) [].

Fixpoint fullListingFrom (api : Endpoint) (options : DocumentsOptions)
    (fuel : nat) (response : Page) : option (Try (list ListedDocument)) :=
  match fuel with
  | O => None
  | S fuel' =>
      match next response with
      | None => Some (Ok (pageItems response))
      | Some url =>
          match getDocuments api (nextOptions options url) with
          | Ok response' =>
              match fullListingFrom api options fuel' response' with
              | Some (Ok rest) => Some (Ok (pageItems response ++ rest))
              | other => other
              end
          | Thrown e => Some (Thrown e)
          end
      end
  end.

End Listing.

(** ** [generator/src/commands/bulk.ts]: [bulkSync] *)
Module Bulk.
Import Sync Listing.

Record BulkSyncOptions : Type := {
  label : option string;
  filter : option string;
  query : option string;
  generatePdf : bool;
  template : option string
}.

(** What a run of the command talks to. *)
Record World : Type := {
  endpoint : Endpoint;
  client : Client;
  env : Env;
  templateExists : string -> bool;
  typstCompile : string -> string -> Try unit
}.

(** Lines 43-55. *)
Definition parseDocumentFilter (filterStr : option string) : DocumentFilter :=
  match ifTruthy filterStr with
  | None => CREATED
  | Some f =>
      let f := Slug.toLowerCase f in
      if String.eqb f "my-documents" then MY_DOCUMENTS
      else if String.eqb f "created" then CREATED
      else if String.eqb f "shared" then SHARED
      else if String.eqb f "recent" then RECENT
      else if String.eqb f "public" then PUBLIC
      else if String.eqb f "trash" then TRASH
      else CREATED
  end.

(** [generatePDF] of [generate.ts], as far as it decides how the call
    ends: every error reaches the outer [catch], which exits; a missing
    template is only reported. *)
Definition generatePDF (w : World) (document template : string)
  : list Log * Completion :=
  match getDocument (client w) document with
  | Thrown e => ([ErrorGenerating e], Exited 1)
  | Ok doc =>
      if templateExists w template then
        match typstCompile w template
                (Slug.generateFilenameFromTitle (doc_name doc)) with
        | Ok _ => ([PdfGenerated template], Returned)
        | Thrown e => ([ErrorGenerating e], Exited 1)
        end
      else ([TemplateNotFound template], Returned)
  end.

Section BulkSync.

Variable parseDate : string -> option string.

(** The body of the [try] of lines 101-125 for one document. *)
Definition processOne (w : World) (options : BulkSyncOptions)
    (store : Store) (doc : ListedDocument) : Run :=
  let synced := syncDocuments parseDate (client w) (env w) store (ld_id doc) in
  match run_end synced with
  | Returned =>
      if generatePdf options then
        let g := generatePDF w (ld_id doc)
                   (str_or (template options) "technical-documentation") in
        {| run_log := run_log synced ++ fst g ++
                        match snd g with
                        | Returned => [Completed (ld_name doc)]
                        | _ => []
                        end;
           run_store := run_store synced;
           run_end := snd g |}
      else
        {| run_log := run_log synced ++ [Completed (ld_name doc)];
           run_store := run_store synced;
           run_end := Returned |}
  | _ => synced
  end.

(** The loop of lines 98-131: an exception of the body is caught and the
    loop goes on; an exit ends the process. *)
Fixpoint processAll (w : World) (options : BulkSyncOptions) (store : Store)
    (documents : list ListedDocument) : Run :=
  match documents with
  | [] => {| run_log := [BulkComplete]; run_store := store;
             run_end := Returned |}
  | doc :: rest =>
      let one := processOne w options store doc in
      match run_end one with
      | Exited code =>
          {| run_log := Processing (ld_name doc) :: run_log one;
             run_store := run_store one;
             run_end := Exited code |}
      | Returned =>
          let more := processAll w options (run_store one) rest in
          {| run_log := Processing (ld_name doc) :: run_log one
                          ++ run_log more;
             run_store := run_store more;
             run_end := run_end more |}
      | Threw e =>
          let more := processAll w options (run_store one) rest in
          {| run_log := Processing (ld_name doc) :: run_log one
                          ++ ErrorProcessing (ld_name doc) e :: run_log more;
             run_store := run_store more;
             run_end := run_end more |}
      end
  end.

(** Lines 77-88. *)
Definition findDocuments (w : World) (fuel : nat) (options : BulkSyncOptions)
  : option (Try (list ListedDocument)) :=
  let filter := parseDocumentFilter (filter options) in
  match ifTruthy (label options) with
  | Some l => getDocumentsByLabel (endpoint w) fuel l filter
  | None =>
      match getDocuments (endpoint w)
              {| o_filter := Some filter; o_q := query options;
                 o_label := None; o_offset := None; o_limit := None |} with
      | Ok response => Some (Ok (pageItems response))
      | Thrown e => Some (Thrown e)
      end
  end.

(** [bulkSync], lines 57-144; [None] when the listing did not end within
    [fuel] requests. *)
Definition bulkSync (w : World) (fuel : nat) (options : BulkSyncOptions)
    (store : Store) : option Run :=
  match findDocuments w fuel options with
  | None => None
  | Some (Thrown e) =>
      Some {| run_log := [ErrorInBulk e]; run_store := store;
              run_end := Exited 1 |}
  | Some (Ok []) =>
      Some {| run_log := [NoDocumentsFound]; run_store := store;
              run_end := Returned |}
  | Some (Ok documents) => Some (processAll w options store documents)
  end.

(** The documents the loop started on, read off the log. *)
Fixpoint attempted (log : list Log) : list string :=
  match log with
  | [] => []
  | Processing n :: rest => n :: attempted rest
  | _ :: rest => attempted rest
  end.

Fixpoint succeeded (log : list Log) : list string :=
  match log with
  | [] => []
  | Completed n :: rest => n :: succeeded rest
  | _ :: rest => succeeded rest
  end.

Fixpoint failed (log : list Log) : list string :=
  match log with
  | [] => []
  | ErrorProcessing n _ :: rest => n :: failed rest
  | _ :: rest => failed rest
  end.

End BulkSync.

End Bulk.

(** ** [generator/src/commands/upload.ts]: [uploadPDF]

    The line numbers are those of the variant that finds the record next to
    the PDF file; the variant that finds it by document id has the same
    update-or-create branch. *)
Module Upload.
Import Sync.

Record UploadOptions : Type := {
  document : string;
  workspace : option string;
  file : string
}.

(** [response.data] of the two upload requests. *)
Record UploadResult : Type := {
  result_id : option string;
  result_href : option string
}.

(** The requests sent to the gateway. *)
Inductive GatewayCall : Type :=
| UpdatePDF (document : string) (workspaceId elementId : JValue)
| UploadPDF (document : string) (workspaceId : JValue).

Record World : Type := {
  pdfFileExists : bool;
  jsonFile : option FileContent;
  updatePDF : string -> JValue -> JValue -> Try UploadResult;
  uploadPDF_request : string -> JValue -> Try UploadResult
}.

Record Outcome : Type := {
  calls : list GatewayCall;
  written : option JValue;
  finished : Completion
}.

Definition failed (calls : list GatewayCall) : Outcome :=
  {| calls := calls; written := None; finished := Exited 1 |}.

(** Lines 38-52: the record next to the PDF, [null] when there is none or
    it does not parse. *)
Definition documentData (w : World) : option JValue :=
  match jsonFile w with
  | Some (Parsed v) => Some v
  | _ => None
  end.

(** Lines 30 and 43-46. *)
Definition workspaceId (options : UploadOptions) (data : option JValue)
  : option JValue :=
  or_else (optStr (workspace options)) (optChain data "mainWorkspaceId").

(** Line 74. *)
Definition existingElementId (data : option JValue) : option JValue :=
  optChain (optChain data "userData") "pdfElementId".

(** Lines 109-111; [None] when an assignment throws (the property of a
    primitive cannot be set in a module). *)
Definition storeElementId (data : JValue) (new_id : string)
  : option JValue :=
  match data with
  | JObj props =>
      match or_else (lookup "userData" props) (Some (JObj [])) with
      | Some (JObj ud) =>
          Some (JObj (set "userData"
                        (JObj (set "pdfElementId" (JStr new_id) ud)) props))
      | Some (JArr l) => Some (JObj (set "userData" (JArr l) props))
      | _ => None
      end
  | JArr l => Some (JArr l)
  | _ => None
  end.

(** Lines 93-116: a new element is created and its id is written back. *)
Definition createElement (w : World) (options : UploadOptions)
    (ws : JValue) (data : option JValue) : Outcome :=
  match uploadPDF_request w (document options) ws with
  | Ok result =>
      {| calls := [UploadPDF (document options) ws];
         written :=
           match result_id result, data with
           | Some new_id, Some d =>
               if String.eqb new_id "" || negb (truthy d) then None
               else storeElementId d new_id
           | _, _ => None
           end;
         finished := Returned |}
  | Thrown _ => failed [UploadPDF (document options) ws]
  end.

(** Lines 78-91: the existing element is updated. *)
Definition updateElement (w : World) (options : UploadOptions)
    (ws element : JValue) : Outcome :=
  match updatePDF w (document options) ws element with
  | Ok _ =>
      {| calls := [UpdatePDF (document options) ws element];
         written := None; finished := Returned |}
  | Thrown _ => failed [UpdatePDF (document options) ws element]
  end.

(** [uploadPDF], lines 11-142. *)
Definition uploadPDF (w : World) (options : UploadOptions) : Outcome :=
  if negb (pdfFileExists w) then failed []
  else
    let data := documentData w in
    match or_else (workspaceId options data) None with
    | None => failed []
    | Some ws =>
        match or_else (existingElementId data) None with
        | Some element => updateElement w options ws element
        | None => createElement w options ws data
        end
    end.

End Upload.

(** ** [generator/src/commands/bulk.ts]: [bulkUpload] *)
Module BulkUpload.
Import Sync.

Record BulkUploadOptions : Type := {
  label : option string;
  filter : option string;
  query : option string;
  workspace : option string
}.

Record World : Type := {
  contentDirExists : bool;
  pdfDirExists : bool;
  jsonFiles : list (string * FileContent);
  pdfExists : string -> bool;
  runUpload : option JValue -> option string -> Try unit
}.

(** The counters of lines 259-261, and the records for which the upload
    command was run. *)
Record Counters : Type := {
  uploadCount : nat;
  skippedCount : nat;
  processedCount : nat;
  uploads : list JValue
}.

Definition skip (c : Counters) : Counters :=
  {| uploadCount := uploadCount c; skippedCount := S (skippedCount c);
     processedCount := processedCount c; uploads := uploads c |}.

Definition processed (c : Counters) : Counters :=
  {| uploadCount := uploadCount c; skippedCount := skippedCount c;
     processedCount := S (processedCount c); uploads := uploads c |}.

Definition ran (data : JValue) (c : Counters) : Counters :=
  {| uploadCount := uploadCount c; skippedCount := skippedCount c;
     processedCount := processedCount c; uploads := uploads c ++ [data] |}.

Definition uploaded (c : Counters) : Counters :=
  {| uploadCount := S (uploadCount c); skippedCount := skippedCount c;
     processedCount := processedCount c; uploads := uploads c |}.

(** [s.replace(pat, rep)] for a string pattern: the first occurrence. *)
Fixpoint replaceFirst (pat rep s : string) : string :=
  if String.prefix pat s
  then rep ++ String.substring (String.length pat)
                (String.length s - String.length pat) s
  else match s with
       | EmptyString => EmptyString
       | String c rest => String c (replaceFirst pat rep rest)
       end.

(** [s.includes(x)] on strings. *)
Fixpoint contains (x s : string) : bool :=
  String.prefix x s ||
  match s with
  | EmptyString => false
  | String _ rest => contains x rest
  end.

(** [documentData.labels?.includes(label)], line 269. *)
Definition labelsInclude (documentData : JValue) (label : string)
  : Try bool :=
  labels <- getMember documentData "labels" ;;
  match labels with
  | None => Ok false
  | Some JNull => Ok false
  | Some (JArr l) => Ok (existsb (sameValueZero (JStr label)) l)
  | Some (JStr s) => Ok (contains label s)
  | Some _ => Thrown "documentData.labels.includes is not a function"
  end.

(** Whether the file goes past the label filter of lines 268-271. *)
Definition selected (options : BulkUploadOptions) (documentData : JValue)
  : Try bool :=
  match Listing.ifTruthy (label options) with
  | Some l => labelsInclude documentData l
  | None => Ok true
  end.

(** Line 288. *)
Definition skipPdfUpload (documentData : JValue) : bool :=
  match optChain (getProp documentData "userData") "skipPdfUpload" with
  | Some (JBool true) => true
  | _ => false
  end.

(** The body of the loop, lines 264-336. *)
Definition processFile (options : BulkUploadOptions) (w : World)
    (c : Counters) (jsonFile : string * FileContent) : Counters :=
  match snd jsonFile with
  | Unparseable => skip c
  | Parsed documentData =>
      match selected options documentData with
      | Thrown _ => skip c
      | Ok false => c
      | Ok true =>
          let c := processed c in
          match documentData with
          | JNull => skip c
          | _ =>
              if negb (pdfExists w (replaceFirst ".json" ".pdf" (fst jsonFile)))
              then skip c
              else if skipPdfUpload documentData then skip c
              else
                match runUpload w (getProp documentData "documentId")
                        (workspace options) with
                | Ok _ => uploaded (ran documentData c)
                | Thrown _ => skip (ran documentData c)
                end
          end
      end
  end.



Definition start : Counters :=
  {| uploadCount := 0; skippedCount := 0; processedCount := 0;
     uploads := [] |}.

(** [bulkUpload], lines 222-352. *)
Definition bulkUpload (options : BulkUploadOptions) (w : World)
  : Counters * Completion :=
  if negb (contentDirExists w) then (start, Exited 1)
  else if negb (pdfDirExists w) then (start, Exited 1)
  else (fold_left (processFile options w) (jsonFiles w) start, Returned).

End BulkUpload.

(** ** Vocabulary of the properties *)
Module Spec.
Import Sync.

(** The user-owned keys that the specification recognises. *)
Definition userDataRecognized : list string :=
  ["workspaceId"; "elementId"; "pdfElementId"; "author"; "labels"].

(** Unknown-field passthrough as the specification words it: every key of
    the prior [userData] outside the recognised set is in the new
    [userData] with its value. *)
Definition passthrough_as_specified : Prop :=
  forall parseDate env document_id s prior record k v,
    reconcile parseDate env document_id s (Some prior) = Ok record ->
    distinctKeys (userDataEntries (getProp prior "userData")) = true ->
    lookup k (userDataEntries (getProp prior "userData")) = Some v ->
    includes userDataRecognized k = false ->
    optChain (getProp record "userData") k = Some v.

(** The ownership of [pdfElementId] as the specification words it:
    reconciliation copies the prior [userData.pdfElementId] if present and
    leaves it absent otherwise. *)
Definition pdfElementId_as_specified : Prop :=
  forall parseDate env document_id s prior record,
    reconcile parseDate env document_id s (Some prior) = Ok record ->
    optChain (getProp record "userData") "pdfElementId" =
      optChain (getProp prior "userData") "pdfElementId".

(** The first request of [getDocumentsByLabel]. *)
Definition firstRequest (filter : Listing.DocumentFilter)
  : Listing.DocumentsOptions :=
  {| Listing.o_filter := Some filter; Listing.o_q := None;
     Listing.o_label := None; Listing.o_offset := None;
     Listing.o_limit := Some 20 |}.

(** The options the later requests start from. *)
Definition unfiltered (filter : Listing.DocumentFilter)
  : Listing.DocumentsOptions :=
  {| Listing.o_filter := Some filter; Listing.o_q := None;
     Listing.o_label := None; Listing.o_offset := None;
     Listing.o_limit := None |}.

(** Label-based selection as the specification words it: the candidates
    are the items of every page reached by following the continuation
    pointers until none remains. *)
Definition label_selection_as_specified : Prop :=
  forall api fuel label filter first full,
    Listing.getDocuments api (firstRequest filter) = Ok first ->
    Listing.fullListingFrom api (unfiltered filter) fuel first
      = Some (Ok full) ->
    exists fuel',
      Listing.getDocumentsByLabel api fuel' label filter =
        Some (Ok (List.filter (Listing.hasLabel label) full)).

(** The walk the code makes: it ends at a page without items or without a
    continuation pointer, and collects the items of the pages before. *)
Inductive Walk (api : Listing.Endpoint) (options : Listing.DocumentsOptions)
  : Listing.Page -> list Listing.ListedDocument -> Prop :=
| walk_empty (p : Listing.Page) :
    Listing.pageItems p = [] -> Walk api options p []
| walk_last (p : Listing.Page) :
    Listing.pageItems p <> [] -> Listing.next p = None ->
    Walk api options p (Listing.pageItems p)
| walk_next (p p' : Listing.Page) (url : Listing.NextUrl)
    (rest : list Listing.ListedDocument) :
    Listing.pageItems p <> [] -> Listing.next p = Some url ->
    Listing.getDocuments api (Listing.nextOptions options url) = Ok p' ->
    Walk api options p' rest ->
    Walk api options p (Listing.pageItems p ++ rest).

Definition isNull (v : JValue) : bool :=
  match v with
  | JNull => true
  | _ => false
  end.

(** Label data of the shape the code maps over: absent, or an array without
    [null] entries. *)
Definition labelArray (v : option JValue) : bool :=
  match v with
  | None => true
  | Some (JArr l) => forallb (fun x => negb (isNull x)) l
  | Some v => negb (truthy v)
  end.

Definition remoteLabelsShaped (document : RemoteDocument) : bool :=
  match doc_documentLabels document with
  | None => true
  | Some JNull => true
  | Some (JArr l) => forallb (fun x => negb (isNull x)) l
  | Some _ => false
  end.

Definition priorShaped (existing : JValue) : bool :=
  negb (isNull existing) &&
  labelArray (optChain (getProp existing "userData") "labels").








(** The five property names of a persisted version. *)
Definition versionShape : list string :=
  ["id"; "name"; "description"; "createdAt"; "microversion"].

End Spec.

(** ** Concrete inputs *)
Module Examples.
Import Sync.

(** A date parser for inputs that are already in ISO-8601 form. *)
Definition isoDates (s : string) : option string := Some s.

Definition env : Env :=
  {| AUTHOR_NAME := Some "Andy"; AUTHOR_EMAIL := None;
     AUTHOR_WEBSITE := None |}.

Definition widget : RemoteDocument :=
  {| doc_name := "Widget Case";
     doc_description := Some "A case";
     doc_createdAt := Some "2024-01-01T00:00:00.000Z";
     doc_documentLabels := Some (JArr [JObj [("name", JStr "meshtastic")]]) |}.

Definition startVersion : RemoteVersion :=
  {| rv_id := "v0"; rv_name := Some "Start"; rv_description := None;
     rv_createdAt := Some "2024-01-01T00:00:00.000Z"; rv_created_at := None;
     rv_microversion := Some "m0" |}.

Definition v1 : RemoteVersion :=
  {| rv_id := "v1"; rv_name := Some "v1"; rv_description := Some "first";
     rv_createdAt := Some "2024-02-01T00:00:00.000Z"; rv_created_at := None;
     rv_microversion := Some "m1" |}.

Definition mainWorkspace : Workspace :=
  {| ws_id := "w1"; ws_name := "Main"; ws_isMain := true;
     ws_type := Some "workspace" |}.

Definition preview : ThumbnailInfo :=
  {| th_size := "600x340"; th_url := "https://cad.onshape.com/api/t/600";
     th_width := Some 600%Z; th_height := Some 340%Z;
     th_mediaType := Some "image/png" |}.

Definition snapshot : Snapshot :=
  {| snap_document := widget;
     snap_workspaces := Ok [mainWorkspace];
     snap_versions := Ok [startVersion; v1];
     snap_thumbnails := Ok [preview] |}.

(** The same document when only the metadata could be fetched. *)
Definition degraded : Snapshot :=
  {| snap_document := widget;
     snap_workspaces := Thrown "403";
     snap_versions := Thrown "403";
     snap_thumbnails := Thrown "403" |}.

(** A gateway that answers the metadata request only. *)
Definition metadataOnly : Client :=
  {| getDocument := fun _ => Ok widget;
     getWorkspaces := fun _ => Thrown "403";
     getDocumentVersions := fun _ => Thrown "403";
     getDocumentThumbnails := fun _ => Thrown "403";
     downloadThumbnail := fun _ => Thrown "403" |}.

(** A prior record with user labels and two custom fields, one of them
    named [description]. *)
Definition annotated : JValue :=
  JObj [("documentId", JStr "d1");
        ("title", JStr "Widget Case");
        ("userData",
           JObj [("labels", JArr [JStr "favorite"; JStr "meshtastic"]);
                 ("customNote", JStr "x");
                 ("description", JStr "printed in PETG")])].

(** The prior record of the specification's label example. *)
Definition favorite : JValue :=
  JObj [("userData", JObj [("labels", JArr [JStr "favorite"])])].

(** A record in which [pdfElementId] was put at the root. *)
Definition rootElement : JValue :=
  JObj [("pdfElementId", JStr "e1")].

(** A record whose PDF was uploaded before. *)
Definition uploadedBefore : JValue :=
  JObj [("documentId", JStr "d1");
        ("mainWorkspaceId", JStr "w1");
        ("userData", JObj [("pdfElementId", JStr "e1")])].

Definition neverUploaded : JValue :=
  JObj [("documentId", JStr "d1");
        ("mainWorkspaceId", JStr "w1");
        ("userData", JObj [("labels", JArr [])])].

Definition uploadWorld (record : JValue) : Upload.World :=
  {| Upload.pdfFileExists := true;
     Upload.jsonFile := Some (Parsed record);
     Upload.updatePDF := fun _ _ element =>
       Ok {| Upload.result_id := None; Upload.result_href := None |};
     Upload.uploadPDF_request := fun _ _ =>
       Ok {| Upload.result_id := Some "e2"; Upload.result_href := None |} |}.

Definition uploadOptions : Upload.UploadOptions :=
  {| Upload.document := "d1"; Upload.workspace := None;
     Upload.file := "public/pdf/widget-case.pdf" |}.

(** Three listed documents; the metadata of the second cannot be fetched. *)
Definition alpha : Listing.ListedDocument :=
  {| Listing.ld_id := "d1"; Listing.ld_name := "Alpha";
     Listing.ld_documentLabels := None |}.
Definition beta : Listing.ListedDocument :=
  {| Listing.ld_id := "d2"; Listing.ld_name := "Beta";
     Listing.ld_documentLabels := None |}.
Definition gamma : Listing.ListedDocument :=
  {| Listing.ld_id := "d3"; Listing.ld_name := "Gamma";
     Listing.ld_documentLabels := None |}.

Definition secondFails : Client :=
  {| getDocument := fun document_id =>
       if String.eqb document_id "d2"
       then Thrown "Request failed with status code 404"
       else Ok {| doc_name := document_id; doc_description := None;
                  doc_createdAt := Some "2024-01-01T00:00:00.000Z";
                  doc_documentLabels := None |};
     getWorkspaces := fun _ => Ok [mainWorkspace];
     getDocumentVersions := fun _ => Ok [v1];
     getDocumentThumbnails := fun _ => Ok [];
     downloadThumbnail := fun _ => Ok tt |}.

Definition batchWorld : Bulk.World :=
  {| Bulk.endpoint := fun _ =>
       Ok {| Listing.items := Some [alpha; beta; gamma];
             Listing.next := None |};
     Bulk.client := secondFails;
     Bulk.env := env;
     Bulk.templateExists := fun _ => true;
     Bulk.typstCompile := fun _ _ => Ok tt |}.

(** A listing of three pages whose second page has no items. *)
Definition tagged (document_id : string) : Listing.ListedDocument :=
  {| Listing.ld_id := document_id; Listing.ld_name := document_id;
     Listing.ld_documentLabels :=
       Some (JArr [JObj [("name", JStr "meshtastic"); ("id", JStr "l1")]]) |}.

Definition gappedListing : Listing.Endpoint := fun params =>
  if Nat.eqb (Listing.p_offset params) 0 then
    Ok {| Listing.items := Some [tagged "d1"];
          Listing.next := Some {| Listing.next_offset := Some 20;
                                  Listing.next_limit := Some 20 |} |}
  else if Nat.eqb (Listing.p_offset params) 20 then
    Ok {| Listing.items := Some [];
          Listing.next := Some {| Listing.next_offset := Some 40;
                                  Listing.next_limit := Some 20 |} |}
  else
    Ok {| Listing.items := Some [tagged "d2"]; Listing.next := None |}.

(** A listing of two pages. *)
Definition twoPages : Listing.Endpoint := fun params =>
  if Nat.eqb (Listing.p_offset params) 0 then
    Ok {| Listing.items := Some [tagged "d1"; alpha];
          Listing.next := Some {| Listing.next_offset := Some 20;
                                  Listing.next_limit := None |} |}
  else
    Ok {| Listing.items := Some [beta; tagged "d2"]; Listing.next := None |}.

(** A documents directory with an opted-out record and an ordinary one,
    both labelled and both with a generated PDF. *)
Definition optedOut : JValue :=
  JObj [("documentId", JStr "d1");
        ("title", JStr "Widget Case");
        ("labels", JArr [JStr "meshtastic"]);
        ("userData", JObj [("skipPdfUpload", JBool true)])].

Definition ordinary : JValue :=
  JObj [("documentId", JStr "d2");
        ("title", JStr "Antenna Mount");
        ("labels", JArr [JStr "meshtastic"]);
        ("userData", JObj [("skipPdfUpload", JStr "true")])].



Definition batchOptions : Bulk.BulkSyncOptions :=
  {| Bulk.label := None; Bulk.filter := None; Bulk.query := None;
     Bulk.generatePdf := false; Bulk.template := None |}.

End Examples.
(** ** The slug as the specification words it

    The title lowercased, every run of white space replaced by one hyphen,
    every other character outside [[a-z0-9-]] removed.  The letters, the
    digits and the white space are given by tables, independently of the
    arithmetic on code units of [Slug]. *)
Module SlugSpec.

Definition capitals : string := "ABCDEFGHIJKLMNOPQRSTUVWXYZ".
Definition smalls : string := "abcdefghijklmnopqrstuvwxyz".
Definition digits : string := "0123456789".

(** The character that stands in [to] where [c] stands in [from], and [c]
    itself when it does not occur in [from]. *)
Fixpoint translate (from to : string) (c : ascii) : ascii :=
  match from, to with
  | String a from', String b to' =>
      if Ascii.eqb c a then b else translate from' to' c
  | _, _ => c
  end.

(** Each capital letter of the alphabet becomes its small letter.  (The
    other characters that lowercasing changes are outside [[a-z0-9-]] and
    are no white space, before and after; they are removed either way.) *)
Fixpoint lowercased (title : string) : string :=
  match title with
  | EmptyString => EmptyString
  | String c rest => String (translate capitals smalls c) (lowercased rest)
  end.

(** The white space among the code units below 256: TAB, LF, VT, FF, CR,
    space, no-break space. *)
Definition whitespaceCodes : list nat := [9; 10; 11; 12; 13; 32; 160].

Definition whitespace (c : ascii) : bool :=
  existsb (Nat.eqb (nat_of_ascii c)) whitespaceCodes.

Fixpoint occurs (c : ascii) (s : string) : bool :=
  match s with
  | EmptyString => false
  | String a rest => Ascii.eqb c a || occurs c rest
  end.

(** The characters of [[a-z0-9-]]. *)
Definition kept (c : ascii) : bool := occurs c (smalls ++ digits ++ "-").

Fixpoint keepOnly (s : string) : string :=
  match s with
  | EmptyString => EmptyString
  | String c rest =>
      if kept c then String c (keepOnly rest) else keepOnly rest
  end.

(** The string cut into its maximal runs of white space and of other
    characters; the flag tells a run of white space. *)
Fixpoint runs (s : string) : list (bool * string) :=
  match s with
  | EmptyString => []
  | String c rest =>
      match runs rest with
      | (b, r) :: tl =>
          if Bool.eqb b (whitespace c) then (b, String c r) :: tl
          else (whitespace c, String c EmptyString) :: (b, r) :: tl
      | [] => [(whitespace c, String c EmptyString)]
      end
  end.

Definition replaced (r : bool * string) : string :=
  if fst r then "-" else keepOnly (snd r).

Fixpoint joined (l : list string) : string :=
  match l with
  | [] => EmptyString
  | s :: rest => s ++ joined rest
  end.

Definition slug (title : string) : string :=
  joined (map replaced (runs (lowercased title))).

Fixpoint every (p : ascii -> bool) (s : string) : bool :=
  match s with
  | EmptyString => true
  | String c rest => p c && every p rest
  end.

(** A run is not empty and lies on one side of the white space. *)
Definition isRun (r : bool * string) : bool :=
  negb (String.eqb (snd r) "") &&
  every (fun c => Bool.eqb (whitespace c) (fst r)) (snd r).

(** Neighbouring runs are of different kinds. *)
Fixpoint maximal (l : list (bool * string)) : bool :=
  match l with
  | a :: ((b :: _) as tl) => negb (Bool.eqb (fst a) (fst b)) && maximal tl
  | _ => true
  end.

End SlugSpec.

(** ** [generator/src/utils/document-utils.ts] *)
Module DocumentUtils.
Import Sync.

(** [s.endsWith(suffix)]. *)
Definition endsWith (suffix s : string) : bool :=
  Nat.leb (String.length suffix) (String.length s) &&
  String.eqb
    (String.substring (String.length s - String.length suffix)
       (String.length suffix) s)
    suffix.

(** The result of [findDocumentById]; [jsonPath] is the path of the file
    below the documents directory. *)
Record Found : Type := {
  data : JValue;
  jsonPath : string;
  filename : string
}.

(** [v === s] for a string [s]. *)
Definition strictEqualsString (v : option JValue) (s : string) : bool :=
  match v with
  | Some (JStr x) => String.eqb x s
  | _ => false
  end.

(** [generateFilenameFromTitle(data.title)], line 33: [toLowerCase] is
    there on a string only. *)
Definition filenameOf (data : JValue) : Try string :=
  match getProp data "title" with
  | Some (JStr title) => Ok (Slug.generateFilenameFromTitle title)
  | _ => Thrown "title.toLowerCase is not a function"
  end.

(** The loop of lines 28-44: whatever is thrown for a file is caught and
    the scan goes on with the next file. *)
Fixpoint scan (documentId : string) (jsonFiles : list (string * FileContent))
  : option Found :=
  match jsonFiles with
  | [] => None
  | (jsonFile, content) :: rest =>
      match content with
      | Unparseable => scan documentId rest
      | Parsed data =>
          match getMember data "documentId" with
          | Thrown _ => scan documentId rest
          | Ok v =>
              if strictEqualsString v documentId then
                match filenameOf data with
                | Ok filename =>
                    Some {| data := data; jsonPath := jsonFile;
                            filename := filename |}
                | Thrown _ => scan documentId rest
                end
              else scan documentId rest
          end
      end
  end.

(** [findDocumentById], lines 19-47; [dir] is the documents directory as
    [readdirSync] lists it, [dirExists] whether it is there. *)
Definition findDocumentById (dirExists : bool)
    (dir : list (string * FileContent)) (documentId : string)
  : option Found :=
  if negb dirExists then None
  else scan documentId (filter (fun f => endsWith ".json" (fst f)) dir).

(** [getPdfPath], lines 52-54, below the PDF directory. *)
Definition getPdfPath (filename : string) : string := filename ++ ".pdf".

End DocumentUtils.


(** ** [generator/src/commands/upload.ts]: [uploadPDF] by document id

    The version of the command that finds the record and the PDF from the
    document id alone (lines 152-299). *)
Module UploadById.
Import Sync.

Record UploadOptions : Type := {
  document : string;
  workspace : option string
}.

Record World : Type := {
  documentsDirExists : bool;
  dir : list (string * FileContent);
  pdfExists : string -> bool;
  updatePDF : string -> JValue -> JValue -> Try Upload.UploadResult;
  uploadPDF_request : string -> JValue -> Try Upload.UploadResult
}.

Record Outcome : Type := {
  calls : list Upload.GatewayCall;
  written : option (string * JValue);
  finished : Completion
}.

Definition failed (calls : list Upload.GatewayCall) : Outcome :=
  {| calls := calls; written := None; finished := Exited 1 |}.

(** The loop of lines 164-179.  [found] is [documentData] with [jsonPath];
    they are assigned before the file name is computed, so a record whose
    title is no string stays assigned when the scan goes on. *)
Fixpoint scan (document : string) (jsonFiles : list (string * FileContent))
    (found : option (JValue * string))
  : option (JValue * string) * option string :=
  match jsonFiles with
  | [] => (found, None)
  | (jsonFile, content) :: rest =>
      match content with
      | Unparseable => scan document rest found
      | Parsed data =>
          match getMember data "documentId" with
          | Thrown _ => scan document rest found
          | Ok v =>
              if DocumentUtils.strictEqualsString v document then
                match DocumentUtils.filenameOf data with
                | Ok filename => (Some (data, jsonFile), Some filename)
                | Thrown _ => scan document rest (Some (data, jsonFile))
                end
              else scan document rest found
          end
      end
  end.

(** [`${filename}.pdf`], line 186, for a file name that may be unset. *)
Definition pdfFileName (filename : option string) : string :=
  match filename with
  | Some f => f ++ ".pdf"
  | None => "undefined.pdf"
  end.

(** Lines 206-214. *)
Definition workspaceId (options : UploadOptions) (documentData : JValue)
  : option JValue :=
  or_else (optStr (workspace options)) (getProp documentData "mainWorkspaceId").

(** Lines 257-275. *)
Definition createElement (w : World) (options : UploadOptions)
    (ws documentData : JValue) (jsonPath : string) : Outcome :=
  match uploadPDF_request w (document options) ws with
  | Ok result =>
      {| calls := [Upload.UploadPDF (document options) ws];
         written :=
           match Upload.result_id result with
           | Some new_id =>
               if String.eqb new_id "" then None
               else option_map (pair jsonPath)
                      (Upload.storeElementId documentData new_id)
           | None => None
           end;
         finished := Returned |}
  | Thrown _ => failed [Upload.UploadPDF (document options) ws]
  end.

(** Lines 243-256. *)
Definition updateElement (w : World) (options : UploadOptions)
    (ws element : JValue) : Outcome :=
  match updatePDF w (document options) ws element with
  | Ok _ =>
      {| calls := [Upload.UpdatePDF (document options) ws element];
         written := None; finished := Returned |}
  | Thrown _ => failed [Upload.UpdatePDF (document options) ws element]
  end.

(** [uploadPDF], lines 152-299. *)
Definition uploadPDF (w : World) (options : UploadOptions) : Outcome :=
  if negb (documentsDirExists w) then failed []
  else
    match scan (document options)
            (filter (fun f => DocumentUtils.endsWith ".json" (fst f)) (dir w))
            None with
    | (None, _) => failed []
    | (Some (documentData, jsonPath), filename) =>
        if negb (pdfExists w (pdfFileName filename)) then failed []
        else
          match or_else (workspaceId options documentData) None with
          | None => failed []
          | Some ws =>
              match or_else
                      (Upload.existingElementId (Some documentData)) None
              with
              | Some element => updateElement w options ws element
              | None => createElement w options ws documentData jsonPath
              end
          end
    end.

(** [file.split('/').pop()]: what follows the last slash. *)
Fixpoint lastSegment (file : string) : string :=
  match file with
  | EmptyString => EmptyString
  | String c rest =>
      if BulkUpload.contains "/" rest then lastSegment rest
      else if Ascii.eqb c "/" then rest
      else file
  end.

(** Line 35 of the command that is given the PDF file: the name under
    which it looks for the record, [<pdfName>.json]. *)
Definition pdfName (file : string) : string :=
  BulkUpload.replaceFirst ".pdf" "" (lastSegment file).

(** What the command that is given [file], a file of the PDF directory,
    finds in the same directories: the PDF itself (line 25) and the record
    file named after it (lines 35-38). *)
Definition asFileUpload (w : World) (file : string) : Upload.World :=
  {| Upload.pdfFileExists := pdfExists w (lastSegment file);
     Upload.jsonFile := lookup (pdfName file ++ ".json") (dir w);
     Upload.updatePDF := updatePDF w;
     Upload.uploadPDF_request := uploadPDF_request w |}.

Definition asFileOptions (options : UploadOptions) (file : string)
  : Upload.UploadOptions :=
  {| Upload.document := document options;
     Upload.workspace := workspace options;
     Upload.file := file |}.

(** The path of the PDF of a file name, from the project root. *)
Definition pdfFileOf (filename : string) : string :=
  "public/pdf/" ++ DocumentUtils.getPdfPath filename.

End UploadById.

(** ** [generator/src/commands/bulk.ts]: [bulkGenerate] *)
Module BulkGenerate.
Import Sync Listing.

Record BulkGenerateOptions : Type := {
  label : option string;
  filter : option string;
  query : option string;
  template : option string
}.

(** The lines of the command; those of [generatePDF] are carried along. *)
Inductive Line : Type :=
| GeneratingFor (docName : string)
| UsingTemplate (template : string)
| FromGenerate (line : Log)
| ErrorGeneratingFor (docName message : string)
| NoDocumentsFound
| Complete
| ErrorInBulkGeneration (message : string).

(** Lines 164-177, the lookup of [bulkSync] once more. *)
Definition findDocuments (w : Bulk.World) (fuel : nat)
    (options : BulkGenerateOptions)
  : option (Try (list ListedDocument)) :=
  let filter := Bulk.parseDocumentFilter (filter options) in
  match ifTruthy (label options) with
  | Some l => getDocumentsByLabel (Bulk.endpoint w) fuel l filter
  | None =>
      match getDocuments (Bulk.endpoint w)
              {| o_filter := Some filter; o_q := query options;
                 o_label := None; o_offset := None; o_limit := None |} with
      | Ok response => Some (Ok (pageItems response))
      | Thrown e => Some (Thrown e)
      end
  end.

(** The loop of lines 186-206: what [generatePDF] throws would be caught,
    but [generatePDF] catches its own errors and exits the process. *)
Fixpoint generateAll (w : Bulk.World) (options : BulkGenerateOptions)
    (documents : list ListedDocument) : list Line * Completion :=
  match documents with
  | [] => ([Complete], Returned)
  | doc :: rest =>
      let template := str_or (template options) "technical-documentation" in
      let g := Bulk.generatePDF w (ld_id doc) template in
      let head := GeneratingFor (ld_name doc) :: UsingTemplate template
                    :: map FromGenerate (fst g) in
      match snd g with
      | Exited code => (head, Exited code)
      | Returned =>
          let more := generateAll w options rest in
          (head ++ fst more, snd more)
      | Threw e =>
          let more := generateAll w options rest in
          (head ++ ErrorGeneratingFor (ld_name doc) e :: fst more, snd more)
      end
  end.

(** [bulkGenerate], lines 147-219; [None] when the listing did not end
    within [fuel] requests. *)
Definition bulkGenerate (w : Bulk.World) (fuel : nat)
    (options : BulkGenerateOptions) : option (list Line * Completion) :=
  match findDocuments w fuel options with
  | None => None
  | Some (Thrown e) => Some ([ErrorInBulkGeneration e], Exited 1)
  | Some (Ok []) => Some ([NoDocumentsFound], Returned)
  | Some (Ok documents) => Some (generateAll w options documents)
  end.

(** The documents the loop started on, read off the lines. *)
Fixpoint started (lines : list Line) : list string :=
  match lines with
  | [] => []
  | GeneratingFor n :: rest => n :: started rest
  | _ :: rest => started rest
  end.

End BulkGenerate.

(** ** [packages/onshape-client/src/index.ts]: the tab name of a PDF *)
Module ClientForms.

(** [displayName.replace(/\.pdf$/i, '')]: the last four code units are
    removed when they read [.pdf] in any letter case. *)
Definition stripPdfExtension (displayName : string) : string :=
  let n := String.length displayName in
  if Nat.leb 4 n &&
     String.eqb (Slug.toLowerCase (String.substring (n - 4) 4 displayName))
       ".pdf"
  then String.substring 0 (n - 4) displayName
  else displayName.

(** The value of the [encodedFilename] field,
    [`${nameWithoutExt}.pdf`], lines 339-340 and 371-372. *)
Definition encodedFilename (displayName : string) : string :=
  stripPdfExtension displayName ++ ".pdf".

End ClientForms.

(** ** The table of the [list] command *)
Module ListCommand.

(** [Math.min(50, Math.max(20, ...documents.map(d => d.name.length)))]. *)
Definition maxNameLength (names : list string) : nat :=
  Nat.min 50 (fold_right Nat.max 20 (map String.length names)).

Fixpoint spaces (n : nat) : string :=
  match n with
  | O => EmptyString
  | S n' => String " "%char (spaces n')
  end.

(** [s.padEnd(n)]. *)
Definition padEnd (s : string) (n : nat) : string :=
  s ++ spaces (n - String.length s).

(** The name cell of a row. *)
Definition nameCell (maxNameLength : nat) (name : string) : string :=
  if Nat.ltb maxNameLength (String.length name)
  then String.substring 0 (maxNameLength - 3) name ++ "..."
  else padEnd name maxNameLength.

(** The name cell of the header line. *)
Definition nameHeader (maxNameLength : nat) : string :=
  padEnd "Name" maxNameLength.

End ListCommand.

(** ** The colour of a label badge *)
Module Badge.

(** [ToInt32]: the value modulo 2^32, read as a signed 32-bit integer. *)
Definition toInt32 (z : Z) : Z :=
  ((z + 2147483648) mod 4294967296 - 2147483648)%Z.

(** One round of the loop: [hash = ((hash << 5) - hash) + char] and
    [hash = hash & hash]. *)
Definition step (hash char : Z) : Z :=
  let hash := (toInt32 (Z.shiftl (toInt32 hash) 5) - hash + char)%Z in
  Z.land (toInt32 hash) (toInt32 hash).

Fixpoint hashFrom (hash : Z) (str : string) : Z :=
  match str with
  | EmptyString => hash
  | String c rest => hashFrom (step hash (Z.of_nat (nat_of_ascii c))) rest
  end.

Definition hashString (str : string) : Z := Z.abs (hashFrom 0 str).

Definition colorVariants : list string :=
  ["badge-primary"; "badge-secondary"; "badge-accent"; "badge-info";
   "badge-success"; "badge-warning"; "badge-error"].

Definition colorIndex (label : string) : Z :=
  (hashString label mod Z.of_nat (List.length colorVariants))%Z.

(** [colorVariants[colorIndex]]: [None] stands for [undefined]. *)
Definition colorClass (label : string) : option string :=
  nth_error colorVariants (Z.to_nat (colorIndex label)).

(** The hash as arithmetic: the polynomial in 31 of the code units. *)
Fixpoint polynomial (acc : Z) (str : string) : Z :=
  match str with
  | EmptyString => acc
  | String c rest =>
      polynomial (31 * acc + Z.of_nat (nat_of_ascii c))%Z rest
  end.

End Badge.

(** ** Vocabulary of the further properties *)
Module Spec2.
Import Sync.

(** The root-level property names that [documentData] can write. *)
Definition rootWritten : list string :=
  ["documentId"; "title"; "description"; "onshapeUrl"; "mainWorkspaceId";
   "createdAt"; "versions"; "thumbnails"; "labels"; "userData"].











(** The root-level properties of a written record that the next
    reconciliation migrates. *)
Definition migratedFromWritten (document_id : string) (s : Snapshot)
  : list (string * JValue) :=
  ("onshapeUrl", JStr ("https://cad.onshape.com/documents/" ++ document_id))
  :: match mainWorkspaceId s with
     | Some i => [("mainWorkspaceId", JStr i)]
     | None => []
     end.

Definition isString (v : JValue) : bool :=
  match v with
  | JStr _ => true
  | _ => false
  end.

(** Every record file of the directory that parses has the shape
    [userLabels] maps over. *)
Definition storeShaped (store : Store) : bool :=
  forallb (fun f => match snd f with
                    | Parsed v => Spec.priorShaped v
                    | Unparseable => true
                    end) store.

(** A console line that [syncDocuments] or [generatePDF] prints, as opposed
    to the lines of the loop of [bulkSync]. *)
Definition quietLine (l : Log) : bool :=
  match l with
  | Processing _ => false
  | Completed _ => false
  | ErrorProcessing _ _ => false
  | _ => true
  end.

(** A record file that the label filter of [bulkUpload] passes over. *)
Definition filteredOut (options : BulkUpload.BulkUploadOptions)
    (jsonFile : string * FileContent) : bool :=
  match snd jsonFile with
  | Parsed documentData =>
      match BulkUpload.selected options documentData with
      | Ok false => true
      | _ => false
      end
  | Unparseable => false
  end.

(** The same directories with another behaviour of the upload command. *)
Definition withUpload (w : BulkUpload.World)
    (run : option JValue -> option string -> Try unit) : BulkUpload.World :=
  {| BulkUpload.contentDirExists := BulkUpload.contentDirExists w;
     BulkUpload.pdfDirExists := BulkUpload.pdfDirExists w;
     BulkUpload.jsonFiles := BulkUpload.jsonFiles w;
     BulkUpload.pdfExists := BulkUpload.pdfExists w;
     BulkUpload.runUpload := run |}.

(** The document and the workspace a request to the gateway names. *)
Definition callDocument (c : Upload.GatewayCall) : string :=
  match c with
  | Upload.UpdatePDF document _ _ => document
  | Upload.UploadPDF document _ => document
  end.

Definition callWorkspace (c : Upload.GatewayCall) : JValue :=
  match c with
  | Upload.UpdatePDF _ workspaceId _ => workspaceId
  | Upload.UploadPDF _ workspaceId => workspaceId
  end.

(** A record file that [findDocumentById] can return for the id. *)
Definition carriesId (documentId : string) (f : string * FileContent)
  : bool :=
  DocumentUtils.endsWith ".json" (fst f) &&
  match snd f with
  | Parsed d =>
      DocumentUtils.strictEqualsString (getProp d "documentId") documentId
      && match DocumentUtils.filenameOf d with
         | Ok _ => true
         | Thrown _ => false
         end
  | Unparseable => false
  end.

End Spec2.

(** ** Further concrete inputs *)
Module Examples2.
Import Sync.

(** A record written by hand before [userData] existed. *)
Definition legacy : JValue :=
  JObj [("documentId", JStr "d1");
        ("workspaceId", JStr "w0");
        ("notes", JStr "abc")].

(** A gateway that answers every request. *)
Definition healthy : Client :=
  {| getDocument := fun _ => Ok Examples.widget;
     getWorkspaces := fun _ => Ok [Examples.mainWorkspace];
     getDocumentVersions := fun _ => Ok [Examples.startVersion; Examples.v1];
     getDocumentThumbnails := fun _ => Ok [Examples.preview];
     downloadThumbnail := fun _ => Ok tt |}.

(** The same gateway when the preview image cannot be downloaded. *)
Definition noDownload : Client :=
  {| getDocument := fun _ => Ok Examples.widget;
     getWorkspaces := fun _ => Ok [Examples.mainWorkspace];
     getDocumentVersions := fun _ => Ok [Examples.startVersion; Examples.v1];
     getDocumentThumbnails := fun _ => Ok [Examples.preview];
     downloadThumbnail := fun _ => Thrown "timeout" |}.

(** A version that carries no name. *)
Definition unnamed : RemoteVersion :=
  {| rv_id := "v7"; rv_name := None; rv_description := None;
     rv_createdAt := None;
     rv_created_at := Some "2024-03-01T00:00:00.000Z";
     rv_microversion := None |}.

Definition unnamedSnapshot : Snapshot :=
  {| snap_document := Examples.widget;
     snap_workspaces := Ok [];
     snap_versions := Ok [Examples.startVersion; unnamed];
     snap_thumbnails := Ok [] |}.

(** Workspaces of which the first flagged one is not of type workspace. *)
Definition branch : Workspace :=
  {| ws_id := "b1"; ws_name := "Main"; ws_isMain := true;
     ws_type := Some "version" |}.

Definition branched : Snapshot :=
  {| snap_document := Examples.widget;
     snap_workspaces := Ok [branch; Examples.mainWorkspace];
     snap_versions := Ok [];
     snap_thumbnails := Ok [] |}.

(** A gateway that answers every request, for every document. *)
Definition allFine : Client :=
  {| getDocument := fun document_id =>
       Ok {| doc_name := document_id; doc_description := None;
             doc_createdAt := Some "2024-01-01T00:00:00.000Z";
             doc_documentLabels := None |};
     getWorkspaces := fun _ => Ok [Examples.mainWorkspace];
     getDocumentVersions := fun _ => Ok [Examples.v1];
     getDocumentThumbnails := fun _ => Ok [];
     downloadThumbnail := fun _ => Ok tt |}.

Definition fineWorld : Bulk.World :=
  {| Bulk.endpoint := fun _ =>
       Ok {| Listing.items :=
               Some [Examples.alpha; Examples.beta; Examples.gamma];
             Listing.next := None |};
     Bulk.client := allFine;
     Bulk.env := Examples.env;
     Bulk.templateExists := fun _ => true;
     Bulk.typstCompile := fun _ _ => Ok tt |}.

Definition withPdf : Bulk.BulkSyncOptions :=
  {| Bulk.label := None; Bulk.filter := Some "Created"; Bulk.query := None;
     Bulk.generatePdf := true; Bulk.template := None |}.

(** A documents directory in which one file does not parse, one upload
    fails and one PDF is missing. *)
Definition third : JValue :=
  JObj [("documentId", JStr "d3"); ("title", JStr "Hinge")].

Definition mixedDirectory : BulkUpload.World :=
  {| BulkUpload.contentDirExists := true;
     BulkUpload.pdfDirExists := true;
     BulkUpload.jsonFiles :=
       [("broken.json", Unparseable);
        ("widget-case.json", Parsed Examples.optedOut);
        ("antenna-mount.json", Parsed Examples.ordinary);
        ("hinge.json", Parsed third)];
     BulkUpload.pdfExists := fun pdf => negb (String.eqb pdf "hinge.pdf");
     BulkUpload.runUpload := fun _ _ => Thrown "exit status 1" |}.

Definition uploadEverything : BulkUpload.BulkUploadOptions :=
  {| BulkUpload.label := None; BulkUpload.filter := None;
     BulkUpload.query := None; BulkUpload.workspace := None |}.

(** An upload with the workspace given on the command line. *)
Definition explicitWorkspace : Upload.UploadOptions :=
  {| Upload.document := "d1"; Upload.workspace := Some "w9";
     Upload.file := "public/pdf/widget-case.pdf" |}.

(** A directory in which the record of [d3] has a title that is no
    string, and another file carries the same id. *)
Definition untitled : JValue :=
  JObj [("documentId", JStr "d3"); ("title", JNum 7)].

Definition scanned : list (string * FileContent) :=
  [("notes.txt", Parsed third);
   ("broken.json", Unparseable);
   ("null.json", Parsed JNull);
   ("untitled.json", Parsed untitled);
   ("hinge.json", Parsed third)].

Definition generateEverything : BulkGenerate.BulkGenerateOptions :=
  {| BulkGenerate.label := None; BulkGenerate.filter := None;
     BulkGenerate.query := None; BulkGenerate.template := None |}.

(** A record without a title, and a PDF named after an unset file
    name. *)
Definition untitledOnly : UploadById.World :=
  {| UploadById.documentsDirExists := true;
     UploadById.dir :=
       [("untitled.json", Parsed
           (JObj [("documentId", JStr "d3");
                  ("mainWorkspaceId", JStr "w1")]))];
     UploadById.pdfExists := fun pdf => String.eqb pdf "undefined.pdf";
     UploadById.updatePDF := fun _ _ _ =>
       Ok {| Upload.result_id := None; Upload.result_href := None |};
     UploadById.uploadPDF_request := fun _ _ =>
       Ok {| Upload.result_id := Some "e2"; Upload.result_href := None |} |}.

Definition byId : UploadById.UploadOptions :=
  {| UploadById.document := "d3"; UploadById.workspace := None |}.

Definition hingeWorld : UploadById.World :=
  {| UploadById.documentsDirExists := true;
     UploadById.dir :=
       [("untitled.json", Parsed untitled);
        ("hinge.json", Parsed
           (JObj [("documentId", JStr "d3"); ("title", JStr "Hinge");
                  ("mainWorkspaceId", JStr "w1")]))];
     UploadById.pdfExists := fun pdf => String.eqb pdf "hinge.pdf";
     UploadById.updatePDF := fun _ _ _ =>
       Ok {| Upload.result_id := None; Upload.result_href := None |};
     UploadById.uploadPDF_request := fun _ _ =>
       Ok {| Upload.result_id := Some "e2"; Upload.result_href := None |} |}.

(** The record of [hingeWorld] under another file name. *)
Definition renamedWorld : UploadById.World :=
  {| UploadById.documentsDirExists := true;
     UploadById.dir :=
       [("door-hinge.json", Parsed
           (JObj [("documentId", JStr "d3"); ("title", JStr "Hinge");
                  ("mainWorkspaceId", JStr "w1")]))];
     UploadById.pdfExists := fun pdf => String.eqb pdf "hinge.pdf";
     UploadById.updatePDF := fun _ _ _ =>
       Ok {| Upload.result_id := None; Upload.result_href := None |};
     UploadById.uploadPDF_request := fun _ _ =>
       Ok {| Upload.result_id := Some "e2"; Upload.result_href := None |} |}.






End Examples2.

(** * Properties *)

(** ** The slug *)
Module SlugFacts.
Import Slug.

Lemma stripOthers_slug (s : string) :
  allChars isSlugChar (stripOthers s) = true.
Proof.
  induction s as [|c rest IH]; simpl; [reflexivity|].
  destruct (isSlugChar c) eqn:E; simpl; [rewrite E|]; exact IH.
Qed.

Lemma runs_nil (s : string) : runs s = [] -> s = EmptyString.
Proof.
  destruct s as [|c rest]; [reflexivity|]. simpl.
  destruct (runs rest) as [|[b r] tl]; [discriminate|].
  destruct (Bool.eqb b (isSpace c)); discriminate.
Qed.

(** The scan and the cut into runs agree, whether or not the scan is inside
    a match when it reaches [s]. *)
Lemma replaceSpaces_runs (s : string) :
  stripOthers (replaceSpaces false s) = concatRuns (runs s) /\
  stripOthers (replaceSpaces true s) =
    match runs s with
    | (true, _) :: tl => concatRuns tl
    | l => concatRuns l
    end.
Proof.
  induction s as [|c rest [IHf IHt]]; [split; reflexivity|].
  simpl. destruct (runs rest) as [|[b r] tl] eqn:R.
  - destruct (isSpace c) eqn:Sp; simpl; unfold renderRun; simpl.
    + rewrite IHt. split; reflexivity.
    + rewrite IHf. destruct (isSlugChar c); split; reflexivity.
  - destruct (isSpace c) eqn:Sp, b; simpl; unfold renderRun; simpl;
      rewrite ?IHt, ?IHf; simpl; unfold renderRun; simpl;
      try (split; reflexivity);
      destruct (isSlugChar c); split; reflexivity.
Qed.

Lemma joinRuns_runs (s : string) : joinRuns (runs s) = s.
Proof.
  induction s as [|c rest IH]; [reflexivity|]. simpl.
  destruct (runs rest) as [|[b r] tl] eqn:R.
  - simpl. rewrite (runs_nil rest R). reflexivity.
  - destruct (Bool.eqb b (isSpace c)); simpl in *; rewrite IH; reflexivity.
Qed.

Lemma runs_ok (s : string) : forallb runOk (runs s) = true.
Proof.
  induction s as [|c rest IH]; [reflexivity|]. simpl.
  destruct (runs rest) as [|[b r] tl] eqn:R.
  - simpl. unfold runOk. simpl. rewrite Bool.eqb_reflx. reflexivity.
  - simpl in IH. apply andb_true_iff in IH as [Hr Htl].
    unfold runOk in Hr. simpl in Hr. apply andb_true_iff in Hr as [Hne Hall].
    destruct b, (isSpace c) eqn:Sp; simpl; rewrite ?Htl; unfold runOk; simpl;
      rewrite ?Sp, ?Hne, ?Hall; reflexivity.
Qed.

Lemma runs_alternating (s : string) : alternating (runs s) = true.
Proof.
  induction s as [|c rest IH]; [reflexivity|]. simpl.
  destruct (runs rest) as [|[b r] tl] eqn:R; [reflexivity|].
  destruct b, (isSpace c); simpl; try exact IH;
    destruct tl as [|[b' r'] tl']; try reflexivity; exact IH.
Qed.

(** *** The tables of the specification and the code units of the code *)

Lemma whitespace_isSpace c : SlugSpec.whitespace c = isSpace c.
Proof. destruct c as [[] [] [] [] [] [] [] []]; reflexivity. Qed.

Lemma kept_isSlugChar c : SlugSpec.kept c = isSlugChar c.
Proof. destruct c as [[] [] [] [] [] [] [] []]; reflexivity. Qed.

(** Lowercasing by the alphabet and [toLowerCase] agree on what is white
    space and on what is kept, and on the kept characters themselves. *)
Lemma lowercased_char c :
  isSpace (SlugSpec.translate SlugSpec.capitals SlugSpec.smalls c)
    = isSpace (lowerChar c) /\
  isSlugChar (SlugSpec.translate SlugSpec.capitals SlugSpec.smalls c)
    = isSlugChar (lowerChar c) /\
  (isSlugChar (lowerChar c) = true ->
   SlugSpec.translate SlugSpec.capitals SlugSpec.smalls c = lowerChar c).
Proof.
  destruct c as [[] [] [] [] [] [] [] []];
    (split; [reflexivity|]; split; [reflexivity|]);
    vm_compute; intros H; try discriminate H; reflexivity.
Qed.

Lemma scan_lowercased s : forall inMatch,
  stripOthers (replaceSpaces inMatch (toLowerCase s)) =
  stripOthers (replaceSpaces inMatch (SlugSpec.lowercased s)).
Proof.
  induction s as [|c rest IH]; intros inMatch; [reflexivity|].
  cbn [toLowerCase SlugSpec.lowercased replaceSpaces].
  destruct (lowercased_char c) as (Hsp & Hslug & Hsame).
  rewrite Hsp. destruct (isSpace (lowerChar c)).
  - destruct inMatch; cbn [stripOthers]; rewrite ?IH; reflexivity.
  - cbn [stripOthers]. rewrite Hslug.
    destruct (isSlugChar (lowerChar c)) eqn:E; [|apply IH].
    rewrite (Hsame eq_refl), IH. reflexivity.
Qed.

Lemma spec_runs s : SlugSpec.runs s = runs s.
Proof.
  induction s as [|c rest IH]; [reflexivity|].
  cbn [SlugSpec.runs runs]. rewrite IH, whitespace_isSpace. reflexivity.
Qed.

Lemma spec_keepOnly s : SlugSpec.keepOnly s = stripOthers s.
Proof.
  induction s as [|c rest IH]; [reflexivity|].
  cbn [SlugSpec.keepOnly stripOthers]. rewrite IH, kept_isSlugChar.
  reflexivity.
Qed.

Lemma spec_joined_replaced l :
  SlugSpec.joined (map SlugSpec.replaced l) = concatRuns l.
Proof.
  induction l as [|r rest IH]; [reflexivity|].
  cbn [map SlugSpec.joined concatRuns]. rewrite IH.
  unfold SlugSpec.replaced, renderRun. rewrite spec_keepOnly. reflexivity.
Qed.

Lemma spec_joined_snd l : SlugSpec.joined (map snd l) = joinRuns l.
Proof.
  induction l as [|r rest IH]; [reflexivity|].
  cbn [map SlugSpec.joined joinRuns]. rewrite IH. reflexivity.
Qed.

Lemma spec_every p q s :
  (forall c, p c = q c) -> SlugSpec.every p s = allChars q s.
Proof.
  intros H. induction s as [|c rest IH]; [reflexivity|].
  cbn [SlugSpec.every allChars]. rewrite H, IH. reflexivity.
Qed.

Lemma spec_isRun l : forallb SlugSpec.isRun l = forallb runOk l.
Proof.
  induction l as [|r rest IH]; [reflexivity|].
  cbn [forallb]. rewrite IH. unfold SlugSpec.isRun, runOk.
  rewrite (spec_every _ (fun c => Bool.eqb (isSpace c) (fst r)));
    [reflexivity|].
  intros c. rewrite whitespace_isSpace. reflexivity.
Qed.

Lemma spec_maximal l : SlugSpec.maximal l = alternating l.
Proof.
  induction l as [|a rest IH]; [reflexivity|].
  destruct rest as [|b tl]; [reflexivity|].
  change (negb (Bool.eqb (fst a) (fst b)) && SlugSpec.maximal (b :: tl) =
          negb (Bool.eqb (fst a) (fst b)) && alternating (b :: tl)).
  rewrite IH. reflexivity.
Qed.

(** C9. The file name of a title is the title lowercased, with each maximal
    run of white space replaced by one hyphen and the other characters
    outside [[a-z0-9-]] removed; the result holds characters of
    [[a-z0-9-]] only.  The runs are those of the lowercased title: joined
    they give it back, none is empty or mixed, and neighbours differ in
    kind. *)
Theorem generateFilenameFromTitle_spec (title : string) :
  generateFilenameFromTitle title = SlugSpec.slug title /\
  SlugSpec.every SlugSpec.kept (generateFilenameFromTitle title) = true /\
  SlugSpec.joined (map snd (SlugSpec.runs (SlugSpec.lowercased title)))
    = SlugSpec.lowercased title /\
  forallb SlugSpec.isRun (SlugSpec.runs (SlugSpec.lowercased title)) = true /\
  SlugSpec.maximal (SlugSpec.runs (SlugSpec.lowercased title)) = true.
Proof.
  split; [|split; [|split; [|split]]].
  - unfold generateFilenameFromTitle, SlugSpec.slug.
    rewrite scan_lowercased, spec_runs, spec_joined_replaced.
    apply replaceSpaces_runs.
  - rewrite (spec_every _ isSlugChar) by apply kept_isSlugChar.
    apply stripOthers_slug.
  - rewrite spec_runs, spec_joined_snd. apply joinRuns_runs.
  - rewrite spec_runs, spec_isRun. apply runs_ok.
  - rewrite spec_runs, spec_maximal. apply runs_alternating.
Qed.

Lemma generateFilenameFromTitle_spec_witness :
  generateFilenameFromTitle "My  Cool_Part (v2) - Rev-9"
    = "my-coolpart-v2---rev-9"%string /\
  SlugSpec.runs (SlugSpec.lowercased "A  b")
    = [(false, "a"%string); (true, "  "%string); (false, "b"%string)].
Proof.
  destruct (generateFilenameFromTitle_spec "My  Cool_Part (v2) - Rev-9")
    as [Hslug _].
  split; [rewrite Hslug|]; reflexivity.
Defined.

Example slug_example :
  generateFilenameFromTitle "My  Cool_Part (v2)" = "my-coolpart-v2".
Proof. reflexivity. Qed.

End SlugFacts.

(** ** Objects: lookup after assignment, spread and serialisation *)
Module ObjectFacts.

Section Lookup.
Context {V : Type}.
Implicit Types (o target src : list (string * V)) (k : string) (v : V).

Lemma lookup_app k o1 o2 :
  lookup k (o1 ++ o2) =
    match lookup k o1 with
    | Some v => Some v
    | None => lookup k o2
    end.
Proof.
  induction o1 as [|[k1 v1] rest IH]; simpl; [reflexivity|].
  destruct (String.eqb k k1); [reflexivity | exact IH].
Qed.

Lemma lookup_In k v o : lookup k o = Some v -> In (k, v) o.
Proof.
  induction o as [|[k1 v1] rest IH]; simpl; [discriminate|].
  destruct (String.eqb_spec k k1) as [->|_].
  - intros [= ->]. left. reflexivity.
  - intros H. right. exact (IH H).
Qed.

Lemma lookup_None k o : lookup k o = None <-> ~ In k (keys o).
Proof.
  induction o as [|[k1 v1] rest IH]; simpl.
  - split; [intros _ []| reflexivity].
  - destruct (String.eqb_spec k k1) as [->|Hne].
    + split; [discriminate|]. intros H. exfalso. apply H. left. reflexivity.
    + rewrite IH. split.
      * intros H [E|Hin]; [apply Hne; symmetry; exact E | exact (H Hin)].
      * intros H Hin. apply H. right. exact Hin.
Qed.

Lemma distinctKeys_NoDup o : distinctKeys o = true -> NoDup (keys o).
Proof.
  induction o as [|[k1 v1] rest IH]; simpl; [constructor|].
  destruct (lookup k1 rest) eqn:E; [discriminate|].
  intros H. constructor; [apply lookup_None; exact E | exact (IH H)].
Qed.

Lemma In_lookup k v o : NoDup (keys o) -> In (k, v) o -> lookup k o = Some v.
Proof.
  induction o as [|[k1 v1] rest IH]; simpl; [intros _ []|].
  intros Hnd [E|Hin].
  - injection E as -> ->. rewrite String.eqb_refl. reflexivity.
  - inversion Hnd as [|? ? Hnotin Hnd']; subst.
    destruct (String.eqb_spec k k1) as [->|_].
    + exfalso. apply Hnotin. change (In (fst (k1, v)) (map fst rest)).
      apply in_map. exact Hin.
    + exact (IH Hnd' Hin).
Qed.

(** In an object without repeated names the first and the last property of
    a name are the same. *)
Lemma lookupLast_distinct k o :
  NoDup (keys o) -> lookupLast k o = lookup k o.
Proof.
  intros Hnd. unfold lookupLast.
  assert (Hrev : NoDup (keys (rev o))).
  { unfold keys. rewrite map_rev. apply NoDup_rev. exact Hnd. }
  destruct (lookup k o) as [v|] eqn:E.
  - apply In_lookup; [exact Hrev|]. apply in_rev. rewrite rev_involutive.
    apply lookup_In. exact E.
  - apply lookup_None. apply lookup_None in E. intros Hin. apply E.
    unfold keys in *. rewrite map_rev in Hin. apply in_rev in Hin. exact Hin.
Qed.

Lemma lookup_set k k' v o :
  lookup k (set k' v o) = if String.eqb k k' then Some v else lookup k o.
Proof.
  induction o as [|[k1 v1] rest IH]; simpl.
  - reflexivity.
  - destruct (String.eqb_spec k' k1) as [->|Hne]; simpl.
    + destruct (String.eqb k k1); reflexivity.
    + rewrite IH. destruct (String.eqb_spec k k1) as [->|_];
        [|reflexivity].
      destruct (String.eqb_spec k1 k') as [E|_]; [|reflexivity].
      exfalso. apply Hne. symmetry. exact E.
Qed.

Lemma keys_set k v o :
  keys (set k v o) =
    match lookup k o with
    | Some _ => keys o
    | None => keys o ++ [k]
    end.
Proof.
  induction o as [|[k1 v1] rest IH]; simpl; [reflexivity|].
  destruct (String.eqb_spec k k1) as [->|_]; simpl; [reflexivity|].
  rewrite IH. destruct (lookup k rest); reflexivity.
Qed.

Lemma NoDup_set k v o : NoDup (keys o) -> NoDup (keys (set k v o)).
Proof.
  intros Hnd. rewrite keys_set. destruct (lookup k o) eqn:E; [exact Hnd|].
  apply lookup_None in E.
  apply NoDup_rev in Hnd. rewrite <- (rev_involutive (keys o ++ [k])).
  apply NoDup_rev. rewrite rev_app_distr. simpl. constructor; [|exact Hnd].
  rewrite <- in_rev. exact E.
Qed.

Lemma NoDup_spread target src :
  NoDup (keys target) -> NoDup (keys (spread target src)).
Proof.
  unfold spread. revert target.
  induction src as [|[k v] rest IH]; simpl; intros target Hnd; [exact Hnd|].
  apply IH. apply NoDup_set. exact Hnd.
Qed.

(** After a spread, the last assignment of a name wins over the target. *)
Lemma lookup_spread k target src :
  lookup k (spread target src) =
    match lookupLast k src with
    | Some v => Some v
    | None => lookup k target
    end.
Proof.
  unfold spread, lookupLast. revert target.
  induction src as [|[k1 v1] rest IH]; simpl; intros target; [reflexivity|].
  rewrite IH, lookup_app, lookup_set. simpl.
  destruct (lookup k (rev rest)); [reflexivity|].
  destruct (String.eqb k k1); reflexivity.
Qed.

Lemma lookup_fromEntries k (es : list (string * V)) :
  lookup k (fromEntries es) = lookupLast k es.
Proof.
  unfold fromEntries. rewrite lookup_spread.
  destruct (lookupLast k es); reflexivity.
Qed.

Lemma NoDup_fromEntries (es : list (string * V)) :
  NoDup (keys (fromEntries es)).
Proof. apply NoDup_spread. constructor. Qed.

Lemma lookup_filter_key (p : string -> bool) k o :
  lookup k (filter (fun kv => p (fst kv)) o) =
    if p k then lookup k o else None.
Proof.
  induction o as [|[k1 v1] rest IH]; simpl.
  - destruct (p k); reflexivity.
  - destruct (p k1) eqn:P1; simpl.
    + destruct (String.eqb_spec k k1) as [->|_].
      * rewrite P1. reflexivity.
      * exact IH.
    + rewrite IH. destruct (String.eqb_spec k k1) as [->|_]; [|reflexivity].
      rewrite P1. reflexivity.
Qed.

Lemma lookupLast_filter_key (p : string -> bool) k o :
  lookupLast k (filter (fun kv => p (fst kv)) o) =
    if p k then lookupLast k o else None.
Proof.
  unfold lookupLast. rewrite <- filter_rev. apply lookup_filter_key.
Qed.

End Lookup.

Lemma lookup_map {V W : Type} (f : V -> W) k (o : list (string * V)) :
  lookup k (map (fun kv => (fst kv, f (snd kv))) o) =
    option_map f (lookup k o).
Proof.
  induction o as [|[k1 v1] rest IH]; simpl; [reflexivity|].
  destruct (String.eqb k k1); [reflexivity | exact IH].
Qed.

Lemma keys_map {V W : Type} (f : V -> W) (o : list (string * V)) :
  keys (map (fun kv => (fst kv, f (snd kv))) o) = keys o.
Proof.
  unfold keys. rewrite map_map. reflexivity.
Qed.

Lemma keys_stringifyProps k (o : list (string * option JValue)) :
  In k (keys (stringifyProps o)) -> In k (keys o).
Proof.
  induction o as [|[k1 [v1|]] rest IH]; simpl; [intros []| |].
  - intros [E|H]; [left; exact E | right; exact (IH H)].
  - intros H. right. exact (IH H).
Qed.

(** [JSON.stringify] keeps the defined properties of an object. *)
Lemma lookup_stringifyProps k (o : list (string * option JValue)) :
  NoDup (keys o) ->
  lookup k (stringifyProps o) =
    match lookup k o with
    | Some (Some v) => Some v
    | _ => None
    end.
Proof.
  induction o as [|[k1 [v1|]] rest IH]; simpl; intros Hnd; [reflexivity| |];
    inversion Hnd as [|? ? Hnotin Hnd']; subst.
  - destruct (String.eqb k k1); [reflexivity | exact (IH Hnd')].
  - destruct (String.eqb_spec k k1) as [->|_]; [|exact (IH Hnd')].
    apply lookup_None. intros Hin. apply Hnotin.
    apply keys_stringifyProps. exact Hin.
Qed.

End ObjectFacts.

(** ** Reconciliation: the fields of the written record *)
Module SyncFacts.
Import Sync ObjectFacts.

Section Fields.
Variable parseDate : string -> option string.
Variables (env : Env) (document_id : string) (s : Snapshot).

Lemma documentData_Ok existing record :
  documentData parseDate env document_id s existing = Ok record ->
  exists api user,
    apiLabelNames (snap_document s) = Ok api /\
    userLabels existing = Ok user /\
    record = writtenRecord parseDate env document_id s existing api user.
Proof.
  unfold documentData, bind.
  destruct (apiLabelNames (snap_document s)) as [api|]; [|discriminate].
  destruct (userLabels existing) as [user|]; [|discriminate].
  intros [= <-]. exists api, user. repeat split.
Qed.

Lemma userLabels_not_null existing user :
  userLabels existing = Ok user -> existing <> JNull.
Proof. intros H ->. discriminate H. Qed.

Lemma record_title existing api user :
  getProp (writtenRecord parseDate env document_id s existing api user)
    "title" =
    Some (JStr (doc_name (snap_document s))).
Proof. unfold writtenRecord, apiData. simpl. reflexivity. Qed.

Lemma record_description existing api user :
  getProp (writtenRecord parseDate env document_id s existing api user)
    "description" =
    Some (JStr (str_or (doc_description (snap_document s)) "")).
Proof. unfold writtenRecord, apiData. simpl. reflexivity. Qed.

Lemma record_mainWorkspaceId existing api user :
  getProp (writtenRecord parseDate env document_id s existing api user)
    "mainWorkspaceId" =
    optStr (mainWorkspaceId s).
Proof.
  unfold writtenRecord, apiData. simpl.
  destruct (mainWorkspaceId s); reflexivity.
Qed.

Lemma record_versions existing api user :
  getProp (writtenRecord parseDate env document_id s existing api user)
    "versions" =
    Some (JArr (map versionJSON (versions parseDate s))).
Proof.
  unfold writtenRecord, apiData. simpl.
  destruct (mainWorkspaceId s); reflexivity.
Qed.

Lemma record_thumbnails existing api user :
  getProp (writtenRecord parseDate env document_id s existing api user)
    "thumbnails" =
    Some (JArr (map thumbnailJSON (thumbnails s))).
Proof.
  unfold writtenRecord, apiData. simpl.
  destruct (mainWorkspaceId s); reflexivity.
Qed.


Lemma record_userData existing api user :
  getProp (writtenRecord parseDate env document_id s existing api user)
    "userData" =
    Some (JObj (stringifyProps (userData env existing user))).
Proof.
  unfold writtenRecord, apiData. simpl.
  destruct (mainWorkspaceId s); reflexivity.
Qed.

End Fields.

Section UserData.
Variables (env : Env) (existing : JValue) (labels : list JValue).

Lemma lookupLast_defined k (o : list (string * JValue)) :
  lookupLast k (map defined o) = option_map Some (lookupLast k o).
Proof.
  unfold lookupLast. rewrite <- map_rev. apply (lookup_map Some).
Qed.

Lemma lookupLast_fromEntries_filter keys k (es : list (string * JValue)) :
  lookupLast k (fromEntries (filter (keyNotIn keys) es)) =
    if includes keys k then None else lookupLast k es.
Proof.
  rewrite lookupLast_distinct by apply NoDup_fromEntries.
  rewrite lookup_fromEntries.
  unfold keyNotIn.
  rewrite (lookupLast_filter_key (fun k => negb (includes keys k))).
  destruct (includes keys k); reflexivity.
Qed.

Lemma userData_keys_distinct : NoDup (keys (userData env existing labels)).
Proof.
  unfold userData. do 2 apply NoDup_spread.
  apply (distinctKeys_NoDup (userDataLiteral env existing labels)). reflexivity.
Qed.

(** The in-memory [userData]: a migrated root-level property wins over a
    passed-through one, which wins over the literal. *)
Lemma lookup_userData k :
  lookup k (userData env existing labels) =
    match migratedValue existing k with
    | Some v => Some (Some v)
    | None =>
        match customValue existing k with
        | Some v => Some (Some v)
        | None => lookup k (userDataLiteral env existing labels)
        end
    end.
Proof.
  unfold userData, migratedValue, customValue.
  rewrite !lookup_spread, !lookupLast_defined, !lookupLast_fromEntries_filter.
  destruct (includes rootKnown k);
    [|destruct (lookupLast k (entries existing))]; cbn [option_map];
    try reflexivity;
    (destruct (includes userDataKnown k);
      [|destruct (lookupLast k
                   (userDataEntries (getProp existing "userData")))]);
    reflexivity.
Qed.

(** The same after [JSON.stringify]. *)
Lemma lookup_written_userData k :
  lookup k (stringifyProps (userData env existing labels)) =
    match migratedValue existing k with
    | Some v => Some v
    | None =>
        match customValue existing k with
        | Some v => Some v
        | None =>
            match lookup k (userDataLiteral env existing labels) with
            | Some (Some v) => Some v
            | _ => None
            end
        end
    end.
Proof.
  rewrite lookup_stringifyProps by apply userData_keys_distinct.
  rewrite lookup_userData.
  destruct (migratedValue existing k); [reflexivity|].
  destruct (customValue existing k); reflexivity.
Qed.

End UserData.

End SyncFacts.

(** ** Reconciliation: the claims *)
Module ReconcileProps.
Import Sync ObjectFacts SyncFacts Spec.

Lemma reconcile_Ok parseDate env document_id s prior record :
  reconcile parseDate env document_id s prior = Ok record ->
  exists api user,
    apiLabelNames (snap_document s) = Ok api /\
    userLabels (existingData (option_map Parsed prior)) = Ok user /\
    record = writtenRecord parseDate env document_id s
               (existingData (option_map Parsed prior)) api user.
Proof. apply documentData_Ok. Qed.

(** C3, as amended.  A key of the prior [userData] that is not one of
    [workspaceId], [elementId], [pdfElementId], [author], [labels],
    [description], [changelog], and that is not also an unrecognised
    root-level key of the prior record, is in the new [userData] with its
    value unchanged. *)
Theorem unknown_fields_pass_through
    parseDate env document_id s prior record k v :
  reconcile parseDate env document_id s (Some prior) = Ok record ->
  distinctKeys (userDataEntries (getProp prior "userData")) = true ->
  lookup k (userDataEntries (getProp prior "userData")) = Some v ->
  includes userDataKnown k = false ->
  includes rootKnown k = true \/ lookup k (entries prior) = None ->
  optChain (getProp record "userData") k = Some v.
Proof.
  intros Hrec Hdistinct Hk Hknown Hroot.
  apply reconcile_Ok in Hrec as (api & user & _ & _ & ->).
  simpl existingData. rewrite record_userData. simpl optChain.
  rewrite lookup_written_userData.
  assert (Hm : migratedValue prior k = None).
  { unfold migratedValue. destruct Hroot as [-> | Hnone]; [reflexivity|].
    destruct (includes rootKnown k); [reflexivity|].
    unfold lookupLast. apply lookup_None. apply lookup_None in Hnone.
    intros Hin. apply Hnone. unfold keys in *.
    rewrite map_rev in Hin. apply in_rev in Hin. exact Hin. }
  rewrite Hm. unfold customValue. rewrite Hknown.
  rewrite lookupLast_distinct by (apply distinctKeys_NoDup; exact Hdistinct).
  rewrite Hk. reflexivity.
Qed.

Lemma unknown_fields_pass_through_witness :
  exists record,
    reconcile Examples.isoDates Examples.env "d1" Examples.snapshot
      (Some Examples.annotated) = Ok record /\
    optChain (getProp record "userData") "customNote" = Some (JStr "x").
Proof.
  eexists. split; [reflexivity|].
  apply (unknown_fields_pass_through Examples.isoDates Examples.env "d1"
           Examples.snapshot Examples.annotated);
    [reflexivity | reflexivity | reflexivity | reflexivity
    | right; reflexivity].
Defined.

(** C3, as the specification words it, fails: [description] is not one of
    the five recognised keys, the prior [userData] holds it, and the
    reconciled [userData] does not. *)
Lemma passthrough_counterexample :
  (exists record,
     reconcile Examples.isoDates Examples.env "d1" Examples.snapshot
       (Some Examples.annotated) = Ok record /\
     lookup "description"
       (userDataEntries (getProp Examples.annotated "userData"))
       = Some (JStr "printed in PETG") /\
     includes userDataRecognized "description" = false /\
     optChain (getProp record "userData") "description" = None) /\
  ~ passthrough_as_specified.
Proof.
  split.
  - eexists. split; [reflexivity|]. repeat split.
  - intros H.
    specialize (H Examples.isoDates Examples.env "d1" Examples.snapshot
                  Examples.annotated _ "description" (JStr "printed in PETG")
                  eq_refl eq_refl eq_refl eq_refl).
    vm_compute in H. discriminate H.
Qed.

(** *** Versions *)

Lemma versionJSON_name v :
  getProp (versionJSON v) "name" = Some (JStr (name v)).
Proof. reflexivity. Qed.

Lemma versionJSON_keys v : keys (entries (versionJSON v)) = versionShape.
Proof. reflexivity. Qed.

(** C6. Of a fetched version list, the persisted list keeps, in order, the
    entries whose name is not "Start", each written with exactly the
    properties id, name, description, createdAt and microversion; no entry
    named "Start" is persisted. *)
Theorem start_versions_excluded
    parseDate env document_id s prior record versionsResponse :
  reconcile parseDate env document_id s prior = Ok record ->
  snap_versions s = Ok versionsResponse ->
  exists persisted,
    getProp record "versions" = Some (JArr persisted) /\
    persisted =
      map versionJSON
        (filter notStart (map (mapVersion parseDate) versionsResponse)) /\
    (forall entry, In entry persisted ->
       getProp entry "name" <> Some (JStr "Start") /\
       keys (entries entry) = versionShape) /\
    (forall v, In v versionsResponse ->
       name (mapVersion parseDate v) <> "Start" ->
       In (versionJSON (mapVersion parseDate v)) persisted) /\
    (forall v, In v versionsResponse ->
       name (mapVersion parseDate v) = "Start" ->
       forall entry, In entry persisted ->
       getProp entry "name" <>
         getProp (versionJSON (mapVersion parseDate v)) "name").
Proof.
  intros Hrec Hfetch.
  apply reconcile_Ok in Hrec as (api & user & _ & _ & ->).
  rewrite record_versions. unfold versions. rewrite Hfetch.
  eexists. split; [reflexivity|]. split; [reflexivity|].
  assert (Hentry : forall entry,
            In entry
              (map versionJSON
                 (filter notStart
                    (map (mapVersion parseDate) versionsResponse))) ->
            getProp entry "name" <> Some (JStr "Start") /\
            keys (entries entry) = versionShape).
  { intros entry Hin. apply in_map_iff in Hin as (v & <- & Hv).
    apply filter_In in Hv as [_ Hns]. split; [|apply versionJSON_keys].
    rewrite versionJSON_name. intros [= E]. unfold notStart in Hns.
    rewrite E in Hns. discriminate Hns. }
  split; [exact Hentry|]. split.
  - intros v Hin Hname. apply in_map. apply filter_In. split.
    + apply in_map. exact Hin.
    + unfold notStart.
      destruct (String.eqb_spec (name (mapVersion parseDate v)) "Start");
        [contradiction | reflexivity].
  - intros v _ Hname entry Hin. rewrite versionJSON_name, Hname.
    apply Hentry. exact Hin.
Qed.

Lemma start_versions_excluded_witness :
  exists record persisted,
    reconcile Examples.isoDates Examples.env "d1" Examples.snapshot None
      = Ok record /\
    getProp record "versions" = Some (JArr persisted) /\
    persisted =
      [JObj [("id", JStr "v1"); ("name", JStr "v1");
             ("description", JStr "first");
             ("createdAt", JStr "2024-02-01T00:00:00.000Z");
             ("microversion", JStr "m1")]].
Proof.
  destruct (start_versions_excluded Examples.isoDates Examples.env "d1"
              Examples.snapshot None _ [Examples.startVersion; Examples.v1]
              eq_refl eq_refl) as (persisted & Hget & Heq & _).
  eexists. exists persisted.
  split; [reflexivity|]. split; [exact Hget | exact Heq].
Defined.

(** *** Partial failures *)

Lemma mapTry_getMember labels :
  forallb (fun x => negb (isNull x)) labels = true ->
  exists names,
    mapTry (fun label => getMember label "name") labels = Ok names.
Proof.
  induction labels as [|l rest IH]; simpl; [eexists; reflexivity|].
  intros H. apply andb_true_iff in H as [Hl Hrest].
  destruct (IH Hrest) as [names ->].
  destruct l; try discriminate Hl; eexists; reflexivity.
Qed.

Lemma mapTry_labelName labels :
  forallb (fun x => negb (isNull x)) labels = true ->
  exists names, mapTry labelName labels = Ok names.
Proof.
  induction labels as [|l rest IH]; simpl; [eexists; reflexivity|].
  intros H. apply andb_true_iff in H as [Hl Hrest].
  destruct (IH Hrest) as [names ->].
  destruct l; try discriminate Hl; eexists; reflexivity.
Qed.

Lemma apiLabelNames_shaped document :
  remoteLabelsShaped document = true ->
  exists api, apiLabelNames document = Ok api.
Proof.
  unfold remoteLabelsShaped, apiLabelNames.
  destruct (doc_documentLabels document) as [[| | | |l|]|];
    try discriminate; try (eexists; reflexivity).
  intros H. destruct (mapTry_getMember l H) as [names ->].
  eexists. reflexivity.
Qed.

Lemma userLabels_shaped existing :
  priorShaped existing = true -> exists user, userLabels existing = Ok user.
Proof.
  unfold priorShaped, userLabels. intros H.
  apply andb_true_iff in H as [Hnn Hshape].
  assert (Hm : getMember existing "userData" = Ok (getProp existing "userData"))
    by (destruct existing; try reflexivity; discriminate Hnn).
  rewrite Hm. simpl bind.
  destruct (optChain (getProp existing "userData") "labels")
    as [[| b | n | str | l | o]|]; simpl in Hshape |- *;
    try discriminate Hshape; try (eexists; reflexivity).
  - destruct b; [discriminate Hshape | eexists; reflexivity].
  - unfold or_else. simpl.
    destruct (Z.eqb n 0); [eexists; reflexivity | discriminate Hshape].
  - unfold or_else. simpl.
    destruct (String.eqb str ""); [eexists; reflexivity | discriminate Hshape].
  - unfold or_else. simpl.
    destruct (mapTry_labelName l Hshape) as [names ->]. eexists. reflexivity.
Qed.

(** How the command ends does not depend on the workspaces, versions and
    thumbnails requests. *)
Lemma syncDocuments_end_independent
    parseDate client client' env store document_id :
  getDocument client' document_id = getDocument client document_id ->
  run_end (syncDocuments parseDate client' env store document_id) =
    run_end (syncDocuments parseDate client env store document_id).
Proof.
  intros Hsame. unfold syncDocuments. rewrite Hsame.
  destruct (getDocument client document_id) as [document|]; [|reflexivity].
  unfold documentData, fetchSnapshot. cbn [snap_document].
  destruct (apiLabelNames document); [|reflexivity].
  destruct (userLabels _); reflexivity.
Qed.

(** C5. When the metadata of a document is fetched, whether the command
    returns does not depend on the versions, thumbnails and workspaces
    requests; with label data of the shape the code maps over it returns,
    and then a thrown versions, thumbnails or workspaces fetch is caught and
    logged, the field it feeds is written with its empty default (versions
    [[]], thumbnails [[]], no mainWorkspaceId) whatever the prior record
    holds, and the record is written with its title and description. *)
Theorem partial_failure_isolated
    parseDate client env store document_id document :
  getDocument client document_id = Ok document ->
  (forall client',
     getDocument client' document_id = Ok document ->
     run_end (syncDocuments parseDate client' env store document_id) =
       run_end (syncDocuments parseDate client env store document_id)) /\
  (remoteLabelsShaped document = true ->
   priorShaped (existingData (lookup (outputPath document) store)) = true ->
   exists record,
    run_end (syncDocuments parseDate client env store document_id)
      = Returned /\
    lookup (outputPath document)
      (run_store (syncDocuments parseDate client env store document_id))
      = Some (Parsed record) /\
    getProp record "title" = Some (JStr (doc_name document)) /\
    getProp record "description" =
      Some (JStr (str_or (doc_description document) "")) /\
    (forall e, getDocumentVersions client document_id = Thrown e ->
       getProp record "versions" = Some (JArr []) /\
       In (VersionsProcessingFailed e)
         (run_log (syncDocuments parseDate client env store document_id))) /\
    (forall e, getDocumentThumbnails client document_id = Thrown e ->
       getProp record "thumbnails" = Some (JArr []) /\
       In (ThumbnailsProcessingFailed e)
         (run_log (syncDocuments parseDate client env store document_id))) /\
    (forall e, getWorkspaces client document_id = Thrown e ->
       getProp record "mainWorkspaceId" = None /\
       In (WorkspaceFetchingFailed e)
         (run_log (syncDocuments parseDate client env store document_id)))).
Proof.
  intros Hdoc. split.
  { intros client' Hdoc'. apply syncDocuments_end_independent.
    rewrite Hdoc, Hdoc'. reflexivity. }
  intros Hremote Hprior.
  destruct (apiLabelNames_shaped document Hremote) as [api Hapi].
  destruct (userLabels_shaped _ Hprior) as [user Huser].
  unfold syncDocuments. rewrite Hdoc.
  unfold documentData. cbn [snap_document fetchSnapshot].
  rewrite Hapi, Huser. cbn [bind run_end run_store run_log].
  eexists. split; [reflexivity|].
  split; [rewrite lookup_set, String.eqb_refl; reflexivity|].
  split; [apply record_title|]. split; [apply record_description|].
  split; [|split].
  - intros e He. split.
    + rewrite record_versions. unfold versions, fetchSnapshot.
      cbn [snap_versions]. rewrite He. reflexivity.
    + unfold versionsLog, fetchSnapshot. cbn [snap_versions]. rewrite He.
      rewrite !in_app_iff. left. right. left. left. reflexivity.
  - intros e He. split.
    + rewrite record_thumbnails. unfold thumbnails, fetchSnapshot.
      cbn [snap_thumbnails]. rewrite He. reflexivity.
    + unfold thumbnailsLog, fetchSnapshot. cbn [snap_thumbnails]. rewrite He.
      rewrite !in_app_iff. left. right. right. left. left. reflexivity.
  - intros e He. split.
    + rewrite record_mainWorkspaceId. unfold mainWorkspaceId, fetchSnapshot.
      cbn [snap_workspaces]. rewrite He. reflexivity.
    + unfold workspaceLog, fetchSnapshot. cbn [snap_workspaces]. rewrite He.
      rewrite !in_app_iff. left. left. left. reflexivity.
Qed.

Lemma partial_failure_isolated_witness :
  exists record,
    run_end (syncDocuments Examples.isoDates Examples.metadataOnly
               Examples.env [("widget-case.json", Parsed Examples.annotated)]
               "d1") = Returned /\
    getProp record "title" = Some (JStr "Widget Case") /\
    getProp record "versions" = Some (JArr []) /\
    getProp record "thumbnails" = Some (JArr []) /\
    getProp record "mainWorkspaceId" = None.
Proof.
  destruct (partial_failure_isolated Examples.isoDates Examples.metadataOnly
              Examples.env [("widget-case.json", Parsed Examples.annotated)]
              "d1" Examples.widget eq_refl) as [_ Hreturns].
  destruct (Hreturns eq_refl eq_refl)
    as (record & Hend & _ & Htitle & _ & Hv & Ht & Hw).
  exists record. split; [exact Hend|]. split; [exact Htitle|].
  split; [exact (proj1 (Hv "403" eq_refl))|].
  split; [exact (proj1 (Ht "403" eq_refl)) | exact (proj1 (Hw "403" eq_refl))].
Defined.

(** *** Labels *)















Lemma record_userData_labels parseDate env document_id s existing api user :
  optChain
    (getProp (writtenRecord parseDate env document_id s existing api user)
       "userData") "labels" = Some (JArr user).
Proof.
  rewrite record_userData. simpl optChain.
  rewrite lookup_written_userData. reflexivity.
Qed.

(** *** The label union in names *)














(** *** The PDF element id *)

Lemma lookupLast_None {V : Type} k (o : list (string * V)) :
  lookup k o = None -> lookupLast k o = None.
Proof.
  intros H. unfold lookupLast. apply lookup_None. apply lookup_None in H.
  intros Hin. apply H. unfold keys in *.
  rewrite map_rev in Hin. apply in_rev in Hin. exact Hin.
Qed.

Lemma reconciled_pdfElementId parseDate env document_id s prior record :
  reconcile parseDate env document_id s (Some prior) = Ok record ->
  lookup "pdfElementId" (entries prior) = None ->
  optChain (getProp record "userData") "pdfElementId" =
    or_else (optChain (getProp prior "userData") "pdfElementId") None.
Proof.
  intros Hrec Hroot.
  apply reconcile_Ok in Hrec as (api & user & _ & _ & ->).
  simpl existingData. rewrite record_userData. simpl optChain.
  rewrite lookup_written_userData.
  unfold migratedValue. rewrite (lookupLast_None _ _ Hroot).
  simpl.
  destruct (or_else (optChain (getProp prior "userData") "pdfElementId") None);
    reflexivity.
Qed.

Lemma storeElementId_sets props new_id d' :
  Upload.storeElementId (JObj props) new_id = Some d' ->
  (forall l, lookup "userData" props <> Some (JArr l)) ->
  optChain (getProp d' "userData") "pdfElementId" = Some (JStr new_id).
Proof.
  unfold Upload.storeElementId. intros H Harr.
  destruct (or_else (lookup "userData" props) (Some (JObj [])))
    as [[| | | |l|ud]|] eqn:E; try discriminate H.
  - exfalso. unfold or_else in E.
    destruct (truthy_opt (lookup "userData" props));
      [exact (Harr l E) | discriminate E].
  - injection H as <-. simpl. rewrite lookup_set, String.eqb_refl. simpl.
    rewrite lookup_set, String.eqb_refl. reflexivity.
Qed.

(** C7, as amended.  For a prior record without a root-level [pdfElementId]
    key, reconciliation copies the prior [userData.pdfElementId] when it is
    present with a truthy value and leaves it absent otherwise.  The upload
    workflow, when a truthy [pdfElementId] is stored, sends only the update
    request keyed by that element id and writes nothing; otherwise it sends
    only the request that creates a new element, and a record is written
    only with the id that request returned. *)
Theorem pdfElementId_ownership
    parseDate env document_id s prior record w options :
  reconcile parseDate env document_id s (Some prior) = Ok record ->
  lookup "pdfElementId" (entries prior) = None ->
  optChain (getProp record "userData") "pdfElementId" =
    or_else (optChain (getProp prior "userData") "pdfElementId") None /\
  (forall element,
     or_else (Upload.existingElementId (Upload.documentData w)) None
       = Some element ->
     (forall c, In c (Upload.calls (Upload.uploadPDF w options)) ->
        exists ws, c = Upload.UpdatePDF (Upload.document options) ws element) /\
     Upload.written (Upload.uploadPDF w options) = None) /\
  (or_else (Upload.existingElementId (Upload.documentData w)) None = None ->
     (forall c, In c (Upload.calls (Upload.uploadPDF w options)) ->
        exists ws, c = Upload.UploadPDF (Upload.document options) ws) /\
     (forall d', Upload.written (Upload.uploadPDF w options) = Some d' ->
        exists ws result new_id d,
          Upload.uploadPDF_request w (Upload.document options) ws = Ok result /\
          Upload.result_id result = Some new_id /\
          Upload.documentData w = Some d /\
          Upload.storeElementId d new_id = Some d' /\
          (forall props, d = JObj props ->
             (forall l, lookup "userData" props <> Some (JArr l)) ->
             optChain (getProp d' "userData") "pdfElementId"
               = Some (JStr new_id)))).
Proof.
  intros Hrec Hroot.
  split; [exact (reconciled_pdfElementId _ _ _ _ _ _ Hrec Hroot)|].
  split.
  - intros element He. unfold Upload.uploadPDF.
    destruct (Upload.pdfFileExists w); simpl;
      [|split; [intros c []|reflexivity]].
    destruct (or_else (Upload.workspaceId options (Upload.documentData w)) None)
      as [ws|]; [|split; [intros c []|reflexivity]].
    rewrite He. unfold Upload.updateElement.
    destruct (Upload.updatePDF w (Upload.document options) ws element);
      simpl; (split; [|reflexivity]);
      intros c [<-|[]]; exists ws; reflexivity.
  - intros Hnone. unfold Upload.uploadPDF.
    destruct (Upload.pdfFileExists w); simpl;
      [|split; [intros c []|discriminate]].
    destruct (or_else (Upload.workspaceId options (Upload.documentData w)) None)
      as [ws|]; [|split; [intros c []|discriminate]].
    rewrite Hnone. unfold Upload.createElement.
    destruct (Upload.uploadPDF_request w (Upload.document options) ws)
      as [result|] eqn:Ereq; simpl;
      [|split; [intros c [<-|[]]; exists ws; reflexivity | discriminate]].
    split; [intros c [<-|[]]; exists ws; reflexivity|].
    intros d' Hw.
    destruct (Upload.result_id result) as [new_id|] eqn:Eid; [|discriminate Hw].
    destruct (Upload.documentData w) as [d|] eqn:Ed; [|discriminate Hw].
    destruct (String.eqb new_id "" || negb (truthy d)); [discriminate Hw|].
    exists ws, result, new_id, d. repeat split; try assumption.
    intros props -> Harr. exact (storeElementId_sets _ _ _ Hw Harr).
Qed.

Lemma pdfElementId_ownership_witness :
  (exists record,
     reconcile Examples.isoDates Examples.env "d1" Examples.snapshot
       (Some Examples.uploadedBefore) = Ok record /\
     optChain (getProp record "userData") "pdfElementId" = Some (JStr "e1")) /\
  Upload.calls
    (Upload.uploadPDF (Examples.uploadWorld Examples.uploadedBefore)
       Examples.uploadOptions)
    = [Upload.UpdatePDF "d1" (JStr "w1") (JStr "e1")] /\
  Upload.written
    (Upload.uploadPDF (Examples.uploadWorld Examples.uploadedBefore)
       Examples.uploadOptions) = None.
Proof.
  destruct (pdfElementId_ownership Examples.isoDates Examples.env "d1"
              Examples.snapshot Examples.uploadedBefore _
              (Examples.uploadWorld Examples.uploadedBefore)
              Examples.uploadOptions eq_refl eq_refl)
    as (Hcopy & Hupdate & _).
  split; [eexists; split; [reflexivity | exact Hcopy]|].
  split; [reflexivity|].
  exact (proj2 (Hupdate (JStr "e1") eq_refl)).
Defined.

(** C7, as the specification words it, fails: the prior record has no
    [userData.pdfElementId], and reconciliation assigns one, taken from the
    root of the prior record. *)
Lemma pdfElementId_counterexample :
  (exists record,
     reconcile Examples.isoDates Examples.env "d1" Examples.snapshot
       (Some Examples.rootElement) = Ok record /\
     optChain (getProp Examples.rootElement "userData") "pdfElementId"
       = None /\
     optChain (getProp record "userData") "pdfElementId"
       = Some (JStr "e1")) /\
  ~ pdfElementId_as_specified.
Proof.
  split.
  - eexists. split; [reflexivity|]. split; reflexivity.
  - intros H.
    specialize (H Examples.isoDates Examples.env "d1" Examples.snapshot
                  Examples.rootElement _ eq_refl).
    vm_compute in H. discriminate H.
Qed.

(** *** Repeated reconciliation *)

(** Whatever the snapshot, the record of a first reconciliation has no
    [userData.onshapeUrl], and the record reconciled against it has one. *)
Lemma first_round_not_stable parseDate env document_id s first second :
  reconcile parseDate env document_id s None = Ok first ->
  reconcile parseDate env document_id s (Some first) = Ok second ->
  optChain (getProp first "userData") "onshapeUrl" = None /\
  optChain (getProp second "userData") "onshapeUrl" =
    Some (JStr ("https://cad.onshape.com/documents/" ++ document_id)).
Proof.
  intros H1 H2.
  apply reconcile_Ok in H1 as (api & user & _ & _ & ->).
  apply reconcile_Ok in H2 as (api' & user' & _ & _ & ->).
  cbn [existingData option_map]. split.
  - rewrite record_userData. cbn [optChain getProp].
    rewrite lookup_written_userData. reflexivity.
  - rewrite record_userData. cbn [optChain getProp].
    rewrite lookup_written_userData.
    unfold migratedValue, lookupLast, writtenRecord, apiData. simpl.
    destruct (mainWorkspaceId s); reflexivity.
Qed.

(** C1 (the code departs from it).  Reconciling a snapshot against the
    record just produced from it, with no record before, writes a different
    record: the root-level [onshapeUrl] and [mainWorkspaceId] that the first
    round wrote are migrated into [userData] by the second. *)
Theorem reconcile_twice_differs :
  exists first second,
    reconcile Examples.isoDates Examples.env "d1" Examples.snapshot None
      = Ok first /\
    reconcile Examples.isoDates Examples.env "d1" Examples.snapshot
      (Some first) = Ok second /\
    optChain (getProp first "userData") "onshapeUrl" = None /\
    optChain (getProp second "userData") "onshapeUrl" =
      Some (JStr "https://cad.onshape.com/documents/d1") /\
    optChain (getProp second "userData") "mainWorkspaceId" =
      Some (JStr "w1") /\
    second <> first.
Proof.
  eexists. eexists.
  split; [reflexivity|]. split; [vm_compute; reflexivity|].
  split; [reflexivity|]. split; [reflexivity|]. split; [reflexivity|].
  intros E. discriminate E.
Qed.

End ReconcileProps.

(** ** The batch *)
Module BulkProps.
Import Sync Listing Bulk.

(** [syncDocuments] catches every exception itself. *)
Lemma syncDocuments_never_throws parseDate client env store document_id e :
  run_end (syncDocuments parseDate client env store document_id) <> Threw e.
Proof.
  unfold syncDocuments.
  destruct (getDocument client document_id); [|discriminate].
  destruct (documentData _ _ _ _ _); discriminate.
Qed.

(** A failed metadata fetch ends the process inside [syncDocuments]. *)
Lemma syncDocuments_exits parseDate client env store document_id e :
  getDocument client document_id = Thrown e ->
  syncDocuments parseDate client env store document_id =
    {| run_log := [ErrorSyncing e]; run_store := store; run_end := Exited 1 |}.
Proof. unfold syncDocuments. intros ->. reflexivity. Qed.

(** The loop does not go past a document whose metadata fetch fails. *)
Lemma processAll_stops parseDate w options store doc rest e :
  getDocument (client w) (ld_id doc) = Thrown e ->
  processAll parseDate w options store (doc :: rest) =
    {| run_log := [Processing (ld_name doc); ErrorSyncing e];
       run_store := store; run_end := Exited 1 |}.
Proof.
  intros H. simpl. unfold processOne.
  rewrite (syncDocuments_exits _ _ _ _ _ _ H). reflexivity.
Qed.

(** C2 (the code departs from it).  Of three candidates whose second cannot
    be reconciled, the first is completed, the failure of the second ends
    the process with status 1, and the third is never attempted. *)
Theorem bulkSync_exits_at_failed_document :
  exists run,
    bulkSync Examples.isoDates Examples.batchWorld 5 Examples.batchOptions []
      = Some run /\
    run_end run = Exited 1 /\
    attempted (run_log run) = ["Alpha"; "Beta"] /\
    succeeded (run_log run) = ["Alpha"] /\
    failed (run_log run) = [] /\
    In (ErrorSyncing "Request failed with status code 404") (run_log run) /\
    ~ In (Processing "Gamma") (run_log run).
Proof.
  eexists. split; [vm_compute; reflexivity|].
  split; [reflexivity|]. split; [reflexivity|]. split; [reflexivity|].
  split; [reflexivity|]. split.
  - simpl. tauto.
  - simpl. intros H.
    repeat (destruct H as [H|H]; [discriminate H|]). exact H.
Qed.

End BulkProps.

(** ** Label-based selection *)
Module ListingProps.
Import Listing Spec.

Lemma getAllDocuments_unfold api fuel filter :
  getAllDocuments api fuel (unfiltered filter) =
    match getDocuments api (firstRequest filter) with
    | Ok response => collectPages api (unfiltered filter) fuel response []
    | Thrown e => Some (Thrown e)
    end.
Proof. reflexivity. Qed.

Lemma pageItems_cons p :
  pageItems p <> [] -> exists x rest, items p = Some (x :: rest).
Proof.
  unfold pageItems, orDefault. destruct (items p) as [[|x rest]|];
    intros H; try (exfalso; apply H; reflexivity).
  exists x, rest. reflexivity.
Qed.

(** With enough fuel the loop returns what the walk collects. *)
Lemma collectPages_walk api options p rest :
  Walk api options p rest ->
  exists fuel, forall fuel', fuel <= fuel' -> forall acc,
    collectPages api options fuel' p acc = Some (Ok (acc ++ rest)).
Proof.
  induction 1 as [p Hempty | p Hitems Hnext
                 | p p' url rest Hitems Hnext Hget _ [fuel IH]].
  - exists 1. intros [|fuel'] Hle acc; [lia|]. simpl.
    unfold pageItems, orDefault in Hempty. rewrite app_nil_r.
    destruct (items p) as [[|x l]|]; try reflexivity; discriminate Hempty.
  - exists 1. intros [|fuel'] Hle acc; [lia|]. simpl.
    destruct (pageItems_cons p Hitems) as (x & l & E).
    unfold pageItems. rewrite E, Hnext. reflexivity.
  - exists (S fuel). intros [|fuel'] Hle acc; [lia|]. simpl.
    destruct (pageItems_cons p Hitems) as (x & l & E).
    unfold pageItems. rewrite E, Hnext, Hget. simpl.
    rewrite (IH fuel' ltac:(lia)), <- app_assoc. reflexivity.
Qed.

Lemma labelNamed_iff label docLabel :
  labelNamed label docLabel = true <->
  exists props,
    docLabel = JObj props /\ lookup "name" props = Some (JStr label).
Proof.
  unfold labelNamed. split.
  - destruct docLabel as [| | | | |props]; try discriminate.
    destruct (lookup "name" props) as [[| | |n| |]|] eqn:E; try discriminate.
    intros H. apply String.eqb_eq in H as ->. exists props.
    split; [reflexivity | exact E].
  - intros (props & -> & ->). apply String.eqb_refl.
Qed.

(** The client-side test holds for the documents whose embedded labels
    contain an entry named [label]. *)
Lemma hasLabel_iff label doc :
  hasLabel label doc = true <->
  exists labels props,
    ld_documentLabels doc = Some (JArr labels) /\
    In (JObj props) labels /\
    lookup "name" props = Some (JStr label).
Proof.
  unfold hasLabel. split.
  - destruct (ld_documentLabels doc) as [[| | | |labels|]|]; try discriminate.
    intros H. apply existsb_exists in H as (x & Hin & Hx).
    apply labelNamed_iff in Hx as (props & -> & Hname).
    exists labels, props. repeat split; assumption.
  - intros (labels & props & -> & Hin & Hname).
    apply existsb_exists. exists (JObj props). split; [exact Hin|].
    apply labelNamed_iff. exists props. split; [reflexivity | exact Hname].
Qed.

Lemma getDocuments_ext api api' options :
  (forall params, p_label params = None -> api' params = api params) ->
  o_label options = None ->
  getDocuments api' options = getDocuments api options.
Proof.
  intros Hext Hlabel. unfold getDocuments. apply Hext. simpl.
  rewrite Hlabel. reflexivity.
Qed.

(** The loop only sends requests without a label parameter. *)
Lemma collectPages_ext api api' options :
  (forall params, p_label params = None -> api' params = api params) ->
  o_label options = None ->
  forall fuel p acc,
    collectPages api' options fuel p acc = collectPages api options fuel p acc.
Proof.
  intros Hext Hlabel. induction fuel as [|fuel IH]; intros p acc; simpl;
    [reflexivity|].
  destruct (items p) as [[|x l]|]; try reflexivity.
  destruct (next p) as [url|]; [|reflexivity].
  rewrite (getDocuments_ext api api' _ Hext) by exact Hlabel.
  destruct (getDocuments api (nextOptions options url)); [apply IH|reflexivity].
Qed.

(** C8, as amended.  For a label, the selector requests the listing without
    a label parameter, follows the continuation pointers until a page has no
    next pointer or has no items, concatenates the items of the pages it
    went through, and selects exactly the documents whose embedded labels
    contain an entry whose name is the label. *)
Theorem label_selection api label filter first all :
  getDocuments api (firstRequest filter) = Ok first ->
  Walk api (unfiltered filter) first all ->
  exists fuel,
    (forall fuel', fuel <= fuel' ->
       getDocumentsByLabel api fuel' label filter =
         Some (Ok (List.filter (hasLabel label) all))) /\
    (forall doc, In doc (List.filter (hasLabel label) all) <->
       In doc all /\
       exists labels props,
         ld_documentLabels doc = Some (JArr labels) /\
         In (JObj props) labels /\
         lookup "name" props = Some (JStr label)) /\
    (forall api' fuel',
       (forall params, p_label params = None -> api' params = api params) ->
       getDocumentsByLabel api' fuel' label filter =
         getDocumentsByLabel api fuel' label filter).
Proof.
  intros Hfirst Hwalk.
  destruct (collectPages_walk _ _ _ _ Hwalk) as [fuel Hfuel].
  exists fuel. split; [|split].
  - intros fuel' Hle. unfold getDocumentsByLabel.
    change (getAllDocuments api fuel'
              {| o_filter := Some filter; o_q := None; o_label := None;
                 o_offset := None; o_limit := None |})
      with (getAllDocuments api fuel' (unfiltered filter)).
    rewrite getAllDocuments_unfold, Hfirst, (Hfuel fuel' Hle). reflexivity.
  - intros doc. rewrite filter_In, hasLabel_iff. reflexivity.
  - intros api' fuel' Hext. unfold getDocumentsByLabel.
    change (getAllDocuments api' fuel'
              {| o_filter := Some filter; o_q := None; o_label := None;
                 o_offset := None; o_limit := None |})
      with (getAllDocuments api' fuel' (unfiltered filter)).
    change (getAllDocuments api fuel'
              {| o_filter := Some filter; o_q := None; o_label := None;
                 o_offset := None; o_limit := None |})
      with (getAllDocuments api fuel' (unfiltered filter)).
    rewrite !getAllDocuments_unfold.
    rewrite (getDocuments_ext api api' _ Hext) by reflexivity.
    destruct (getDocuments api (firstRequest filter)); [|reflexivity].
    rewrite (collectPages_ext api api' _ Hext) by reflexivity. reflexivity.
Qed.

Lemma label_selection_witness :
  exists fuel,
    getDocumentsByLabel Examples.twoPages fuel "meshtastic" CREATED =
      Some (Ok [Examples.tagged "d1"; Examples.tagged "d2"]).
Proof.
  assert (Hwalk : Walk Examples.twoPages (unfiltered CREATED)
            {| items := Some [Examples.tagged "d1"; Examples.alpha];
               next := Some {| next_offset := Some 20; next_limit := None |} |}
            ([Examples.tagged "d1"; Examples.alpha] ++
             [Examples.beta; Examples.tagged "d2"])).
  { eapply (walk_next _ _
              {| items := Some [Examples.tagged "d1"; Examples.alpha];
                 next := Some {| next_offset := Some 20;
                                 next_limit := None |} |}
              {| items := Some [Examples.beta; Examples.tagged "d2"];
                 next := None |}).
    - discriminate.
    - reflexivity.
    - reflexivity.
    - apply (walk_last _ _
               {| items := Some [Examples.beta; Examples.tagged "d2"];
                  next := None |}); [discriminate | reflexivity]. }
  destruct (label_selection Examples.twoPages "meshtastic" CREATED _ _
              eq_refl Hwalk) as (fuel & Hsel & _).
  exists fuel. exact (Hsel fuel (le_n fuel)).
Defined.

(** C8, as the specification words it, fails: the second page of the
    listing has no items and a continuation pointer; following the pointers
    to the end gives two labelled documents, and the selector returns the
    first only. *)
Lemma label_selection_counterexample :
  (getDocuments Examples.gappedListing (firstRequest CREATED) =
     Ok {| items := Some [Examples.tagged "d1"];
           next := Some {| next_offset := Some 20;
                           next_limit := Some 20 |} |} /\
   fullListingFrom Examples.gappedListing (unfiltered CREATED) 3
     {| items := Some [Examples.tagged "d1"];
        next := Some {| next_offset := Some 20; next_limit := Some 20 |} |}
     = Some (Ok [Examples.tagged "d1"; Examples.tagged "d2"]) /\
   hasLabel "meshtastic" (Examples.tagged "d2") = true /\
   forall fuel,
     getDocumentsByLabel Examples.gappedListing (S (S fuel)) "meshtastic"
       CREATED = Some (Ok [Examples.tagged "d1"])) /\
  ~ label_selection_as_specified.
Proof.
  split.
  - repeat split.
  - intros H.
    destruct (H Examples.gappedListing 3 "meshtastic" CREATED _ _
                eq_refl eq_refl) as [fuel' Hsel].
    destruct fuel' as [|[|[|n]]]; vm_compute in Hsel; discriminate Hsel.
Qed.

End ListingProps.

(** ** The opt-out flag of the bulk upload *)
Module BulkUploadProps.
Import Sync BulkUpload.













End BulkUploadProps.

(** * Further properties *)

(** ** Objects: how assignments and spreads lay out the properties *)
Module ObjectMore.
Import ObjectFacts.

Section Layout.
Context {V : Type}.
Implicit Types (o a b target src : list (string * V)) (k : string) (v : V).

Lemma set_fresh k v o : lookup k o = None -> set k v o = o ++ [(k, v)].
Proof.
  induction o as [|[k1 v1] rest IH]; simpl; [reflexivity|].
  destruct (String.eqb k k1); [discriminate|].
  intros H. rewrite (IH H). reflexivity.
Qed.

Lemma set_app_left k v a b :
  lookup k a = None -> set k v (a ++ b) = a ++ set k v b.
Proof.
  induction a as [|[k1 v1] rest IH]; simpl; [reflexivity|].
  destruct (String.eqb k k1); [discriminate|].
  intros H. rewrite (IH H). reflexivity.
Qed.

Lemma set_same k v o : lookup k o = Some v -> set k v o = o.
Proof.
  induction o as [|[k1 v1] rest IH]; simpl; [discriminate|].
  destruct (String.eqb_spec k k1) as [->|_].
  - intros [= ->]. reflexivity.
  - intros H. rewrite (IH H). reflexivity.
Qed.

(** Properties under new names are appended in order. *)
Lemma spread_fresh src : forall target,
  NoDup (keys src) ->
  (forall k, In k (keys src) -> lookup k target = None) ->
  spread target src = target ++ src.
Proof.
  unfold spread.
  induction src as [|[k v] rest IH]; intros target Hnd Hnew; simpl.
  - rewrite app_nil_r. reflexivity.
  - inversion Hnd as [|? ? Hnotin Hnd']; subst.
    rewrite set_fresh by (apply Hnew; left; reflexivity).
    rewrite IH; [rewrite <- app_assoc; reflexivity | exact Hnd' |].
    intros k' Hin. rewrite lookup_app, (Hnew k' (or_intror Hin)). simpl.
    destruct (String.eqb_spec k' k) as [->|_]; [contradiction|reflexivity].
Qed.

Lemma spread_app_left src : forall a b,
  (forall k, In k (keys src) -> lookup k a = None) ->
  spread (a ++ b) src = a ++ spread b src.
Proof.
  unfold spread.
  induction src as [|[k v] rest IH]; intros a b Hnew; simpl;
    [reflexivity|].
  rewrite set_app_left by (apply Hnew; left; reflexivity).
  apply IH. intros k' Hin. apply Hnew. right. exact Hin.
Qed.

(** Assigning again what an object already holds leaves it as it is. *)
Lemma spread_same src : forall target,
  (forall k v, In (k, v) src -> lookup k target = Some v) ->
  spread target src = target.
Proof.
  unfold spread.
  induction src as [|[k v] rest IH]; intros target Hsame; simpl;
    [reflexivity|].
  rewrite set_same by (apply Hsame; left; reflexivity).
  apply IH. intros k' v' Hin. apply Hsame. right. exact Hin.
Qed.

Lemma fromEntries_distinct (es : list (string * V)) :
  NoDup (keys es) -> fromEntries es = es.
Proof.
  intros Hnd. unfold fromEntries. rewrite spread_fresh; [reflexivity | exact Hnd |].
  reflexivity.
Qed.

Lemma keys_filter_In (f : string * V -> bool) o k :
  In k (keys (filter f o)) -> In k (keys o).
Proof.
  unfold keys. rewrite !in_map_iff. intros (kv & E & Hin).
  apply filter_In in Hin as [Hin _]. exists kv. split; assumption.
Qed.

Lemma NoDup_keys_filter (f : string * V -> bool) o :
  NoDup (keys o) -> NoDup (keys (filter f o)).
Proof.
  induction o as [|[k v] rest IH]; simpl; intros Hnd; [constructor|].
  inversion Hnd as [|? ? Hnotin Hnd']; subst.
  destruct (f (k, v)); simpl; [|exact (IH Hnd')].
  constructor; [|exact (IH Hnd')].
  intros Hin. apply Hnotin. exact (keys_filter_In f rest k Hin).
Qed.

(** After a spread of distinct properties each of them is in the object. *)
Lemma lookup_spread_In target src k v :
  NoDup (keys src) -> In (k, v) src ->
  lookup k (spread target src) = Some v.
Proof.
  intros Hnd Hin. rewrite lookup_spread, (lookupLast_distinct k src Hnd).
  rewrite (In_lookup k v src Hnd Hin). reflexivity.
Qed.

Lemma keys_spread_In target src k :
  In k (keys (spread target src)) -> In k (keys target) \/ In k (keys src).
Proof.
  unfold spread. revert target.
  induction src as [|[k1 v1] rest IH]; simpl; intros target H;
    [left; exact H|].
  destruct (IH _ H) as [Hin|Hin]; [|right; right; exact Hin].
  rewrite keys_set in Hin. destruct (lookup k1 target); [left; exact Hin|].
  apply in_app_or in Hin as [Hin|[<-|[]]];
    [left; exact Hin | right; left; reflexivity].
Qed.

End Layout.

Lemma set_defined k (v : JValue) (o : list (string * JValue)) :
  set k (Some v) (map Sync.defined o) = map Sync.defined (set k v o).
Proof.
  induction o as [|[k1 v1] rest IH]; [reflexivity|].
  cbn [map set Sync.defined fst snd].
  destruct (String.eqb k k1); cbn [map Sync.defined fst snd];
    [reflexivity|].
  rewrite IH. reflexivity.
Qed.

Lemma spread_defined (src : list (string * JValue)) : forall target,
  spread (map Sync.defined target) (map Sync.defined src) =
    map Sync.defined (spread target src).
Proof.
  unfold spread.
  induction src as [|[k v] rest IH]; intros target; simpl; [reflexivity|].
  rewrite set_defined. apply IH.
Qed.

Lemma stringifyProps_defined (o : list (string * JValue)) :
  stringifyProps (map Sync.defined o) = o.
Proof.
  induction o as [|[k v] rest IH]; simpl; [|rewrite IH]; reflexivity.
Qed.

Lemma stringifyProps_app (a b : list (string * option JValue)) :
  stringifyProps (a ++ b) = stringifyProps a ++ stringifyProps b.
Proof.
  induction a as [|[k [v|]] rest IH]; simpl; rewrite ?IH; reflexivity.
Qed.

Lemma NoDup_keys_stringifyProps (o : list (string * option JValue)) :
  NoDup (keys o) -> NoDup (keys (stringifyProps o)).
Proof.
  induction o as [|[k [v|]] rest IH]; simpl; intros Hnd; [constructor| |];
    inversion Hnd as [|? ? Hnotin Hnd']; subst; [|exact (IH Hnd')].
  constructor; [|exact (IH Hnd')].
  intros Hin. apply Hnotin. apply keys_stringifyProps. exact Hin.
Qed.

End ObjectMore.

(** ** Reconciliation *)
Module ReconcileMore.
Import Sync ObjectFacts ObjectMore SyncFacts Spec Spec2.

Lemma includes_false_cons k k' keys :
  includes (k' :: keys) k = false ->
  String.eqb k k' = false /\ includes keys k = false.
Proof.
  unfold includes. simpl. intros H. apply orb_false_elim in H. exact H.
Qed.

Lemma lookupLast_of_distinct {V : Type} k (o : list (string * V)) :
  distinctKeys o = true -> lookupLast k o = lookup k o.
Proof.
  intros H. apply lookupLast_distinct. apply distinctKeys_NoDup. exact H.
Qed.

(** X1. A root-level property of the prior record whose name is not among
    the recognised root names is moved into the new [userData] with its
    value, and the new record has no such property at its root unless its
    name is [onshapeUrl] or [mainWorkspaceId]. *)
Theorem legacy_root_fields_migrate
    parseDate env document_id s prior record k v :
  reconcile parseDate env document_id s (Some prior) = Ok record ->
  distinctKeys (entries prior) = true ->
  lookup k (entries prior) = Some v ->
  includes rootKnown k = false ->
  optChain (getProp record "userData") k = Some v /\
  (includes rootWritten k = false -> getProp record k = None).
Proof.
  intros Hrec Hdistinct Hk Hknown.
  apply documentData_Ok in Hrec as (api & user & _ & _ & ->).
  cbn [existingData option_map]. split.
  - rewrite record_userData. cbn [optChain getProp].
    rewrite lookup_written_userData. unfold migratedValue.
    rewrite Hknown, (lookupLast_of_distinct _ _ Hdistinct), Hk. reflexivity.
  - intros Hw. unfold rootWritten in Hw.
    repeat (apply includes_false_cons in Hw as [? Hw]).
    unfold writtenRecord, apiData. cbn [getProp].
    destruct (mainWorkspaceId s); simpl;
      repeat match goal with
      | H : String.eqb k _ = false |- _ => rewrite H; clear H
      end; reflexivity.
Qed.

Lemma legacy_root_fields_migrate_witness :
  exists record,
    reconcile Examples.isoDates Examples.env "d1" Examples.snapshot
      (Some Examples2.legacy) = Ok record /\
    optChain (getProp record "userData") "notes" = Some (JStr "abc") /\
    getProp record "notes" = None.
Proof.
  eexists. split; [reflexivity|].
  destruct (legacy_root_fields_migrate Examples.isoDates Examples.env "d1"
              Examples.snapshot Examples2.legacy _ "notes" (JStr "abc")
              eq_refl eq_refl eq_refl eq_refl) as [Hmoved Hroot].
  split; [exact Hmoved | exact (Hroot eq_refl)].
Defined.

(** X2. The workspace and element ids of the new [userData] are the prior
    [userData] values when truthy, else the legacy root-level values when
    truthy, else absent; the author is always present: the prior [userData]
    author if truthy, else the root-level author if truthy, else the
    default author of the process environment.  No custom or migrated
    property overrides them. *)
Theorem user_owned_fields_kept parseDate env document_id s prior record :
  reconcile parseDate env document_id s (Some prior) = Ok record ->
  optChain (getProp record "userData") "workspaceId" =
    or_else (or_else (optChain (getProp prior "userData") "workspaceId")
                     (getProp prior "workspaceId")) None /\
  optChain (getProp record "userData") "elementId" =
    or_else (or_else (optChain (getProp prior "userData") "elementId")
                     (getProp prior "elementId")) None /\
  exists author,
    optChain (getProp record "userData") "author" = Some author /\
    truthy author = true /\
    Some author =
      or_else (or_else (optChain (getProp prior "userData") "author")
                       (getProp prior "author"))
              (Some (defaultAuthor env)).
Proof.
  intros Hrec.
  apply documentData_Ok in Hrec as (api & user & _ & _ & ->).
  cbn [existingData option_map].
  rewrite record_userData. cbn [optChain getProp].
  rewrite !lookup_written_userData.
  unfold migratedValue, customValue. cbn [includes existsb].
  simpl String.eqb. simpl orb. cbv iota.
  split; [|split].
  - simpl. destruct (or_else _ None); reflexivity.
  - simpl. destruct (or_else _ None); reflexivity.
  - simpl.
    set (chosen := or_else (optChain (getProp prior "userData") "author")
                           (getProp prior "author")).
    destruct (truthy_opt chosen) eqn:E.
    + assert (Hc : or_else chosen (Some (defaultAuthor env)) = chosen)
        by (unfold or_else at 1; rewrite E; reflexivity).
      rewrite Hc. destruct chosen as [a|]; [|discriminate E].
      exists a. repeat split. exact E.
    + assert (Hc : or_else chosen (Some (defaultAuthor env))
                   = Some (defaultAuthor env))
        by (unfold or_else at 1; rewrite E; reflexivity).
      rewrite Hc. exists (defaultAuthor env). repeat split.
Qed.

Lemma user_owned_fields_kept_witness :
  exists record,
    reconcile Examples.isoDates Examples.env "d1" Examples.snapshot
      (Some Examples2.legacy) = Ok record /\
    optChain (getProp record "userData") "workspaceId" = Some (JStr "w0") /\
    optChain (getProp record "userData") "author" =
      Some (defaultAuthor Examples.env).
Proof.
  eexists. split; [reflexivity|].
  destruct (user_owned_fields_kept Examples.isoDates Examples.env "d1"
              Examples.snapshot Examples2.legacy _ eq_refl)
    as (Hws & _ & author & Hauthor & _ & Hdefault).
  split; [exact Hws|]. rewrite Hauthor. exact Hdefault.
Defined.

(** *** The persisted labels *)





Lemma filterBoolean_truthy l : forallb truthy (filterBoolean l) = true.
Proof.
  induction l as [|[v|] rest IH]; simpl; [reflexivity | | exact IH].
  destruct (truthy v) eqn:E; simpl; [rewrite E|]; exact IH.
Qed.


Lemma userLabels_truthy existing user :
  userLabels existing = Ok user -> forallb truthy user = true.
Proof.
  unfold userLabels, bind.
  destruct (getMember existing "userData") as [ud|]; [|discriminate].
  destruct (or_else (optChain ud "labels") (Some (JArr [])))
    as [[| | | |l|]|]; try discriminate.
  destruct (mapTry labelName l) as [names|]; [|discriminate].
  intros [= <-]. apply filterBoolean_truthy.
Qed.




(** *** Reading back what was written *)

Lemma truthy_not_null l :
  forallb truthy l = true -> forallb (fun x => negb (isNull x)) l = true.
Proof.
  rewrite !forallb_forall. intros H x Hin. specialize (H x Hin).
  destruct x; try reflexivity. discriminate H.
Qed.

(** A written record has the shape the next reconciliation maps over. *)
Lemma written_record_shaped
    parseDate env document_id s existing api user :
  forallb truthy user = true ->
  priorShaped (writtenRecord parseDate env document_id s existing api user)
    = true.
Proof.
  intros Huser. unfold priorShaped.
  rewrite ReconcileProps.record_userData_labels. simpl.
  apply truthy_not_null. exact Huser.
Qed.

(** X4. A record written by a reconciliation is always accepted as the
    prior record of a later one: reconciling any snapshot whose remote
    label data has the expected shape against it does not throw. *)
Theorem reconcile_accepts_own_record
    parseDate env document_id s prior record
    parseDate' env' document_id' s' :
  reconcile parseDate env document_id s prior = Ok record ->
  remoteLabelsShaped (snap_document s') = true ->
  priorShaped record = true /\
  exists record',
    reconcile parseDate' env' document_id' s' (Some record) = Ok record'.
Proof.
  intros Hrec Hremote.
  apply documentData_Ok in Hrec as (api & user & _ & Huser & ->).
  assert (Hshaped := written_record_shaped parseDate env document_id s
                       (existingData (option_map Parsed prior)) api user
                       (userLabels_truthy _ _ Huser)).
  split; [exact Hshaped|].
  destruct (ReconcileProps.apiLabelNames_shaped _ Hremote) as [api' Hapi'].
  destruct (ReconcileProps.userLabels_shaped _ Hshaped) as [user' Huser'].
  unfold reconcile, documentData. cbn [existingData option_map].
  rewrite Hapi', Huser'. eexists. reflexivity.
Qed.

Lemma reconcile_accepts_own_record_witness :
  exists record record',
    reconcile Examples.isoDates Examples.env "d1" Examples.snapshot
      (Some Examples.annotated) = Ok record /\
    reconcile Examples.isoDates Examples.env "d1" Examples.degraded
      (Some record) = Ok record'.
Proof.
  destruct (reconcile_accepts_own_record Examples.isoDates Examples.env "d1"
              Examples.snapshot (Some Examples.annotated) _
              Examples.isoDates Examples.env "d1" Examples.degraded
              eq_refl eq_refl) as (_ & record' & Hnext).
  eexists. exists record'. split; [reflexivity | exact Hnext].
Defined.

(** *** Versions and workspaces *)

(** X5. A fetched version without a name (or with an empty one) is never
    filtered out: it is persisted under the name "Version <id>".  The
    persisted list is never longer than the fetched one. *)
Theorem unnamed_versions_kept
    parseDate env document_id s prior record versionsResponse v :
  reconcile parseDate env document_id s prior = Ok record ->
  snap_versions s = Ok versionsResponse ->
  In v versionsResponse ->
  rv_name v = None \/ rv_name v = Some "" ->
  exists persisted,
    getProp record "versions" = Some (JArr persisted) /\
    In (versionJSON (mapVersion parseDate v)) persisted /\
    getProp (versionJSON (mapVersion parseDate v)) "name" =
      Some (JStr ("Version " ++ rv_id v)%string) /\
    List.length persisted <= List.length versionsResponse.
Proof.
  intros Hrec Hfetch Hin Hname.
  apply documentData_Ok in Hrec as (api & user & _ & _ & ->).
  rewrite record_versions. unfold versions. rewrite Hfetch.
  eexists. split; [reflexivity|].
  assert (Hn : name (mapVersion parseDate v)
               = ("Version " ++ rv_id v)%string).
  { unfold mapVersion. cbn [name].
    destruct Hname as [-> | ->]; reflexivity. }
  split; [|split].
  - apply in_map. apply filter_In. split; [apply in_map; exact Hin|].
    unfold notStart. rewrite Hn. reflexivity.
  - rewrite ReconcileProps.versionJSON_name, Hn. reflexivity.
  - rewrite length_map.
    etransitivity; [apply filter_length_le|]. rewrite length_map.
    apply le_n.
Qed.

Lemma unnamed_versions_kept_witness :
  exists record persisted,
    reconcile Examples.isoDates Examples.env "d1" Examples2.unnamedSnapshot
      None = Ok record /\
    getProp record "versions" = Some (JArr persisted) /\
    In (JObj [("id", JStr "v7"); ("name", JStr "Version v7");
              ("description", JStr "");
              ("createdAt", JStr "2024-03-01T00:00:00.000Z");
              ("microversion", JStr "")]) persisted.
Proof.
  destruct (unnamed_versions_kept Examples.isoDates Examples.env "d1"
              Examples2.unnamedSnapshot None _
              [Examples.startVersion; Examples2.unnamed] Examples2.unnamed
              eq_refl eq_refl (or_intror (or_introl eq_refl))
              (or_introl eq_refl))
    as (persisted & Hget & Hin & _).
  eexists. exists persisted. split; [reflexivity|].
  split; [exact Hget | exact Hin].
Defined.

Lemma find_split {A : Type} (f : A -> bool) l x :
  find f l = Some x ->
  exists before after,
    l = before ++ x :: after /\ f x = true /\
    forallb (fun y => negb (f y)) before = true.
Proof.
  induction l as [|y rest IH]; simpl; [discriminate|].
  destruct (f y) eqn:E.
  - intros [= ->]. exists [], rest. repeat split. exact E.
  - intros H. destruct (IH H) as (before & after & -> & Hx & Hb).
    exists (y :: before), after. repeat split; [exact Hx|].
    simpl. rewrite E. exact Hb.
Qed.

Lemma find_none_forallb {A : Type} (f : A -> bool) l :
  find f l = None <-> forallb (fun y => negb (f y)) l = true.
Proof.
  induction l as [|y rest IH]; simpl; [split; reflexivity|].
  destruct (f y); simpl; [split; discriminate | exact IH].
Qed.

(** X6. The recorded main workspace is the first fetched workspace that is
    of type "workspace" and is named "Main" or flagged as main; an entry
    flagged as main but of another type is never taken, and the property
    is absent exactly when no fetched workspace qualifies. *)
Theorem main_workspace_choice
    parseDate env document_id s prior record workspaces :
  reconcile parseDate env document_id s prior = Ok record ->
  snap_workspaces s = Ok workspaces ->
  (forall i, getProp record "mainWorkspaceId" = Some (JStr i) ->
     exists before w after,
       workspaces = before ++ w :: after /\
       ws_id w = i /\
       ws_type w = Some "workspace" /\
       (ws_name w = "Main" \/ ws_isMain w = true) /\
       forallb (fun w' => negb (isMainWorkspace w')) before = true) /\
  (getProp record "mainWorkspaceId" = None <->
   forallb (fun w => negb (isMainWorkspace w)) workspaces = true).
Proof.
  intros Hrec Hfetch.
  apply documentData_Ok in Hrec as (api & user & _ & _ & ->).
  rewrite record_mainWorkspaceId. unfold mainWorkspaceId. rewrite Hfetch.
  split.
  - intros i Hi.
    destruct (find isMainWorkspace workspaces) as [w|] eqn:E;
      [|discriminate Hi].
    injection Hi as Hi.
    destruct (find_split _ _ _ E) as (before & after & -> & Hw & Hb).
    exists before, w, after. split; [reflexivity|]. split; [exact Hi|].
    unfold isMainWorkspace in Hw. apply andb_true_iff in Hw as [Hmain Hty].
    split; [|split; [|exact Hb]].
    + unfold strEq in Hty. destruct (ws_type w) as [t|]; [|discriminate].
      apply String.eqb_eq in Hty as ->. reflexivity.
    + apply orb_true_iff in Hmain as [Hn|Hm]; [left|right; exact Hm].
      apply String.eqb_eq. exact Hn.
  - rewrite <- find_none_forallb.
    destruct (find isMainWorkspace workspaces); simpl;
      split; (discriminate || reflexivity).
Qed.

Lemma main_workspace_choice_witness :
  exists record,
    reconcile Examples.isoDates Examples.env "d1" Examples2.branched None
      = Ok record /\
    getProp record "mainWorkspaceId" = Some (JStr "w1") /\
    exists before w after,
      [Examples2.branch; Examples.mainWorkspace] = before ++ w :: after /\
      ws_id w = "w1" /\ ws_type w = Some "workspace".
Proof.
  destruct (main_workspace_choice Examples.isoDates Examples.env "d1"
              Examples2.branched None _
              [Examples2.branch; Examples.mainWorkspace] eq_refl eq_refl)
    as [Hsome _].
  destruct (Hsome "w1" eq_refl) as (before & w & after & Hl & Hid & Hty & _).
  eexists. split; [reflexivity|]. split; [reflexivity|].
  exists before, w, after. repeat split; assumption.
Defined.

(** *** The command and the documents directory *)

(** X7. [syncDocuments] touches at most the record file of the document:
    every other file of the directory is left as it was, and a run that
    does not return leaves the whole directory as it was. *)
Theorem syncDocuments_frame parseDate client env store document_id :
  (run_end (syncDocuments parseDate client env store document_id)
     <> Returned ->
   run_store (syncDocuments parseDate client env store document_id)
     = store) /\
  (forall document path,
     getDocument client document_id = Ok document ->
     path <> outputPath document ->
     lookup path
       (run_store (syncDocuments parseDate client env store document_id))
     = lookup path store).
Proof.
  unfold syncDocuments. split.
  - destruct (getDocument client document_id) as [document|];
      [|reflexivity].
    destruct (documentData _ _ _ _ _); simpl; [|reflexivity].
    intros H. exfalso. apply H. reflexivity.
  - intros document path -> Hpath.
    destruct (documentData _ _ _ _ _); simpl; [|reflexivity].
    rewrite lookup_set.
    destruct (String.eqb_spec path (outputPath document)) as [E|_];
      [contradiction | reflexivity].
Qed.

Lemma syncDocuments_frame_witness :
  lookup "notes.txt"
    (run_store (syncDocuments Examples.isoDates Examples2.healthy
                  Examples.env [("notes.txt", Unparseable)] "d1"))
    = Some Unparseable /\
  run_store (syncDocuments Examples.isoDates Examples.secondFails
               Examples.env [("notes.txt", Unparseable)] "d2")
    = [("notes.txt", Unparseable)].
Proof.
  destruct (syncDocuments_frame Examples.isoDates Examples2.healthy
              Examples.env [("notes.txt", Unparseable)] "d1") as [_ Hother].
  destruct (syncDocuments_frame Examples.isoDates Examples.secondFails
              Examples.env [("notes.txt", Unparseable)] "d2") as [Hexit _].
  split.
  - rewrite (Hother Examples.widget "notes.txt" eq_refl);
      [reflexivity | discriminate].
  - apply Hexit. discriminate.
Defined.

(** X8. Whether the preview image can be downloaded changes nothing but
    the log: two gateways that answer the four requests alike lead to the
    same written directory and the same end of the command. *)
Theorem thumbnail_download_isolated
    parseDate client client' env store document_id :
  getDocument client' document_id = getDocument client document_id ->
  getWorkspaces client' document_id = getWorkspaces client document_id ->
  getDocumentVersions client' document_id
    = getDocumentVersions client document_id ->
  getDocumentThumbnails client' document_id
    = getDocumentThumbnails client document_id ->
  run_store (syncDocuments parseDate client' env store document_id) =
    run_store (syncDocuments parseDate client env store document_id) /\
  run_end (syncDocuments parseDate client' env store document_id) =
    run_end (syncDocuments parseDate client env store document_id).
Proof.
  intros Hd Hw Hv Ht. unfold syncDocuments. rewrite Hd.
  destruct (getDocument client document_id) as [document|];
    [|split; reflexivity].
  unfold fetchSnapshot. rewrite Hw, Hv, Ht.
  destruct (documentData _ _ _ _ _); split; reflexivity.
Qed.

Lemma thumbnail_download_isolated_witness :
  run_store (syncDocuments Examples.isoDates Examples2.noDownload
               Examples.env [] "d1") =
    run_store (syncDocuments Examples.isoDates Examples2.healthy
                 Examples.env [] "d1") /\
  run_end (syncDocuments Examples.isoDates Examples2.noDownload
             Examples.env [] "d1") = Returned /\
  In (ThumbnailDownloadFailed "https://cad.onshape.com/api/t/600" "timeout")
    (run_log (syncDocuments Examples.isoDates Examples2.noDownload
                Examples.env [] "d1")).
Proof.
  destruct (thumbnail_download_isolated Examples.isoDates Examples2.healthy
              Examples2.noDownload Examples.env [] "d1"
              eq_refl eq_refl eq_refl eq_refl) as [Hstore Hend].
  split; [exact Hstore|]. split; [reflexivity|].
  simpl. left. reflexivity.
Defined.

(** X9. A record file that does not parse is treated as absent: the run
    ends as it would without the file, the parse failure is logged, and the
    record that a run without the file writes is written over the file. *)
Theorem unparseable_record_is_absent
    parseDate client env store store' document_id document :
  getDocument client document_id = Ok document ->
  lookup (outputPath document) store = Some Unparseable ->
  lookup (outputPath document) store' = None ->
  run_end (syncDocuments parseDate client env store document_id) =
    run_end (syncDocuments parseDate client env store' document_id) /\
  In CouldNotParseExisting
    (run_log (syncDocuments parseDate client env store document_id)) /\
  (forall record,
     lookup (outputPath document)
       (run_store (syncDocuments parseDate client env store' document_id))
       = Some (Parsed record) ->
     lookup (outputPath document)
       (run_store (syncDocuments parseDate client env store document_id))
       = Some (Parsed record)).
Proof.
  intros Hdoc Hbad Hnone. unfold syncDocuments.
  rewrite Hdoc, Hbad, Hnone. cbn [existingData existingLog].
  split; [|split].
  - destruct (documentData _ _ _ _ _); reflexivity.
  - destruct (documentData _ _ _ _ _); cbn [run_log];
      rewrite !in_app_iff; left; right; right; right; left; reflexivity.
  - intros record.
    destruct (documentData _ _ _ _ _); cbn [run_store].
    + rewrite !lookup_set, String.eqb_refl. intros H. exact H.
    + rewrite Hnone. discriminate.
Qed.

Lemma unparseable_record_is_absent_witness :
  run_end (syncDocuments Examples.isoDates Examples2.healthy Examples.env
             [("widget-case.json", Unparseable)] "d1") = Returned /\
  In CouldNotParseExisting
    (run_log (syncDocuments Examples.isoDates Examples2.healthy Examples.env
                [("widget-case.json", Unparseable)] "d1")).
Proof.
  destruct (unparseable_record_is_absent Examples.isoDates Examples2.healthy
              Examples.env [("widget-case.json", Unparseable)] []
              "d1" Examples.widget eq_refl eq_refl eq_refl)
    as (Hend & Hlog & _).
  split; [rewrite Hend; reflexivity | exact Hlog].
Defined.

(** *** From the second round on *)

Section Rounds.
Variable parseDate : string -> option string.
Variables (env : Env) (document_id : string) (s : Snapshot).
Variable api : list JValue.

Lemma migrated_of_written e0 u :
  filter (keyNotIn rootKnown)
    (entries (writtenRecord parseDate env document_id s e0 api u))
  = migratedFromWritten document_id s.
Proof.
  unfold writtenRecord, apiData, migratedFromWritten. cbn [entries].
  destruct (mainWorkspaceId s); reflexivity.
Qed.

Lemma migratedFromWritten_distinct :
  NoDup (keys (migratedFromWritten document_id s)).
Proof.
  apply distinctKeys_NoDup. unfold migratedFromWritten.
  destruct (mainWorkspaceId s); reflexivity.
Qed.

Lemma migratedFromWritten_unknown k :
  In k (keys (migratedFromWritten document_id s)) ->
  includes userDataKnown k = false.
Proof.
  unfold migratedFromWritten.
  destruct (mainWorkspaceId s); simpl;
    intros H; repeat (destruct H as [<-|H]; [reflexivity|]); destruct H.
Qed.

Lemma literal_lookup_unknown existing labels k :
  includes userDataKnown k = false ->
  lookup k (userDataLiteral env existing labels) = None.
Proof.
  intros H. unfold userDataKnown in H.
  repeat (apply includes_false_cons in H as [? H]).
  unfold userDataLiteral. simpl.
  repeat match goal with
  | E : String.eqb k _ = false |- _ => rewrite E; clear E
  end. reflexivity.
Qed.

Lemma keys_filter_keyNotIn known (o : list (string * JValue)) k :
  In k (keys (filter (keyNotIn known) o)) -> includes known k = false.
Proof.
  unfold keys. rewrite in_map_iff. intros ([k' v] & E & Hin).
  simpl in E. subst k'. apply filter_In in Hin as [_ Hf].
  unfold keyNotIn in Hf. simpl in Hf.
  destruct (includes known k); [discriminate Hf | reflexivity].
Qed.

Lemma filter_keep {A : Type} (f : A -> bool) (l : list A) :
  (forall x, In x l -> f x = true) -> filter f l = l.
Proof.
  induction l as [|x rest IH]; simpl; intros H; [reflexivity|].
  rewrite (H x (or_introl eq_refl)), IH; [reflexivity|].
  intros y Hy. apply H. right. exact Hy.
Qed.

Lemma filter_drop {A : Type} (f : A -> bool) (l : list A) :
  (forall x, In x l -> f x = false) -> filter f l = [].
Proof.
  induction l as [|x rest IH]; simpl; intros H; [reflexivity|].
  rewrite (H x (or_introl eq_refl)). apply IH.
  intros y Hy. apply H. right. exact Hy.
Qed.

(** The [userData] written against a written record: the literal, then the
    unknown properties of the prior [userData] with the migrated root-level
    ones assigned over them. *)
Lemma userData_of_written e0 u u' :
  stringifyProps
    (userData env (writtenRecord parseDate env document_id s e0 api u) u')
  = stringifyProps
      (userDataLiteral env
         (writtenRecord parseDate env document_id s e0 api u) u')
    ++ spread
         (filter (keyNotIn userDataKnown)
            (stringifyProps (userData env e0 u)))
         (migratedFromWritten document_id s).
Proof.
  unfold userData at 1.
  rewrite migrated_of_written, record_userData.
  cbn [userDataEntries truthy entries].
  rewrite (fromEntries_distinct (migratedFromWritten document_id s))
    by apply migratedFromWritten_distinct.
  assert (Hnd : NoDup (keys (filter (keyNotIn userDataKnown)
                               (stringifyProps (userData env e0 u))))).
  { apply NoDup_keys_filter, NoDup_keys_stringifyProps,
      userData_keys_distinct. }
  rewrite (fromEntries_distinct _ Hnd).
  set (X := filter (keyNotIn userDataKnown)
              (stringifyProps (userData env e0 u))) in *.
  set (L := userDataLiteral env
              (writtenRecord parseDate env document_id s e0 api u) u').
  assert (Hfresh : spread L (map defined X) = L ++ map defined X).
  { apply spread_fresh.
    - unfold keys in *. rewrite map_map. exact Hnd.
    - intros k Hin. apply literal_lookup_unknown.
      apply (keys_filter_keyNotIn userDataKnown
               (stringifyProps (userData env e0 u))).
      unfold keys in *. rewrite map_map in Hin. exact Hin. }
  rewrite Hfresh, spread_app_left.
  - rewrite spread_defined, stringifyProps_app, stringifyProps_defined.
    reflexivity.
  - intros k Hin. apply literal_lookup_unknown.
    apply migratedFromWritten_unknown.
    unfold keys in *. rewrite map_map in Hin. exact Hin.
Qed.

Lemma literal_known existing labels kv :
  In kv (stringifyProps (userDataLiteral env existing labels)) ->
  keyNotIn userDataKnown kv = false.
Proof.
  intros Hin.
  assert (Hk : In (fst kv)
                 (keys (userDataLiteral env existing labels))).
  { apply keys_stringifyProps. unfold keys. apply in_map. exact Hin. }
  unfold keyNotIn. simpl in Hk.
  repeat (destruct Hk as [<-|Hk]; [reflexivity|]). destruct Hk.
Qed.

(** Its unknown properties. *)
Lemma unknown_of_written e0 u u' :
  filter (keyNotIn userDataKnown)
    (stringifyProps
       (userData env (writtenRecord parseDate env document_id s e0 api u)
          u'))
  = spread
      (filter (keyNotIn userDataKnown) (stringifyProps (userData env e0 u)))
      (migratedFromWritten document_id s).
Proof.
  rewrite userData_of_written, filter_app.
  rewrite filter_drop by apply literal_known.
  apply filter_keep. intros [k v] Hin. unfold keyNotIn. cbn [fst].
  assert (Hk : In k (keys (spread
                  (filter (keyNotIn userDataKnown)
                     (stringifyProps (userData env e0 u)))
                  (migratedFromWritten document_id s)))).
  { unfold keys. change k with (fst (k, v)). apply in_map. exact Hin. }
  apply keys_spread_In in Hk as [Hk|Hk].
  - rewrite (keys_filter_keyNotIn _ _ _ Hk). reflexivity.
  - rewrite (migratedFromWritten_unknown _ Hk). reflexivity.
Qed.

Lemma written_root_legacy e0 u k :
  includes rootWritten k = false ->
  getProp (writtenRecord parseDate env document_id s e0 api u) k = None.
Proof.
  intros Hw. unfold rootWritten in Hw.
  repeat (apply includes_false_cons in Hw as [? Hw]).
  unfold writtenRecord, apiData. cbn [getProp].
  destruct (mainWorkspaceId s); simpl;
    repeat match goal with
    | H : String.eqb k _ = false |- _ => rewrite H; clear H
    end; reflexivity.
Qed.

Lemma or_else_None_idem x :
  or_else (or_else x None) None = or_else x None.
Proof. unfold or_else. destruct (truthy_opt x) eqn:E; rewrite ?E; reflexivity. Qed.

Lemma flatten_or_else x :
  match Some (or_else x None) with
  | Some (Some v) => Some v
  | _ => None
  end = or_else x None.
Proof. destruct (or_else x None); reflexivity. Qed.

Lemma defaultAuthor_truthy x :
  truthy_opt (or_else (or_else x None) (Some (defaultAuthor env))) = true.
Proof.
  unfold or_else. destruct (truthy_opt x) eqn:E; rewrite ?E; simpl;
    rewrite ?E; reflexivity.
Qed.

(** The literal written against a written record keeps what the record's
    [userData] holds. *)
Lemma literal_of_written e0 u u' :
  userDataLiteral env (writtenRecord parseDate env document_id s e0 api u) u'
  = [("workspaceId",
        or_else (lookup "workspaceId"
                   (stringifyProps (userData env e0 u))) None);
     ("elementId",
        or_else (lookup "elementId"
                   (stringifyProps (userData env e0 u))) None);
     ("pdfElementId",
        or_else (lookup "pdfElementId"
                   (stringifyProps (userData env e0 u))) None);
     ("author",
        or_else (or_else (lookup "author"
                            (stringifyProps (userData env e0 u))) None)
                (Some (defaultAuthor env)));
     ("labels", Some (JArr u'))].
Proof.
  unfold userDataLiteral.
  rewrite record_userData, !written_root_legacy by reflexivity.
  cbn [optChain getProp]. rewrite !or_else_None_idem. reflexivity.
Qed.

Lemma lookup_written_known e0 u u' k :
  includes userDataKnown k = true ->
  (k = "pdfElementId" \/ includes rootKnown k = true) ->
  lookup k
    (stringifyProps
       (userData env (writtenRecord parseDate env document_id s e0 api u)
          u'))
  = match lookup k
            (userDataLiteral env
               (writtenRecord parseDate env document_id s e0 api u) u') with
    | Some (Some v) => Some v
    | _ => None
    end.
Proof.
  intros Hknown Hroot. rewrite lookup_written_userData.
  unfold customValue. rewrite Hknown.
  unfold migratedValue.
  destruct Hroot as [-> | ->]; [|reflexivity].
  cbn [includes existsb]. simpl.
  unfold lookupLast, writtenRecord, apiData. cbn [entries].
  destruct (mainWorkspaceId s); reflexivity.
Qed.

(** The literal is the same from the second round on. *)
Lemma literal_stable e0 u u' u'' :
  userDataLiteral env
    (writtenRecord parseDate env document_id s
       (writtenRecord parseDate env document_id s e0 api u) api u') u''
  = userDataLiteral env
      (writtenRecord parseDate env document_id s e0 api u) u''.
Proof.
  rewrite (literal_of_written
             (writtenRecord parseDate env document_id s e0 api u) u' u'').
  rewrite !lookup_written_known
    by (try reflexivity; (left; reflexivity) || (right; reflexivity)).
  rewrite !literal_of_written. cbn [lookup String.eqb].
  simpl. rewrite !flatten_or_else, !or_else_None_idem.
  f_equal. f_equal. f_equal. f_equal.
  set (x := lookup "author" (stringifyProps (userData env e0 u))).
  assert (Ht := defaultAuthor_truthy x).
  destruct (or_else (or_else x None) (Some (defaultAuthor env)))
    as [a|] eqn:E; [|discriminate Ht].
  simpl in Ht. unfold or_else. simpl. rewrite Ht. simpl. rewrite Ht.
  reflexivity.
Qed.

(** The written [userData] is the same from the second round on. *)
Lemma userData_stable e0 u u' u'' :
  stringifyProps
    (userData env
       (writtenRecord parseDate env document_id s
          (writtenRecord parseDate env document_id s e0 api u) api u') u'')
  = stringifyProps
      (userData env (writtenRecord parseDate env document_id s e0 api u)
         u'').
Proof.
  rewrite (userData_of_written
             (writtenRecord parseDate env document_id s e0 api u) u' u'').
  rewrite unknown_of_written, literal_stable, userData_of_written.
  f_equal. apply spread_same. intros k v Hin.
  apply lookup_spread_In; [apply migratedFromWritten_distinct | exact Hin].
Qed.

Lemma mapTry_labelName_strings u :
  forallb isString u = true -> mapTry labelName u = Ok (map Some u).
Proof.
  induction u as [|x rest IH]; simpl; [reflexivity|].
  intros H. apply andb_true_iff in H as [Hx Hrest].
  rewrite (IH Hrest). destruct x; try discriminate Hx. reflexivity.
Qed.

Lemma filterBoolean_Some u :
  forallb truthy u = true -> filterBoolean (map Some u) = u.
Proof.
  induction u as [|x rest IH]; simpl; [reflexivity|].
  intros H. apply andb_true_iff in H as [Hx Hrest].
  rewrite Hx, (IH Hrest). reflexivity.
Qed.

(** Plain user labels are read back from a written record as they are. *)
Lemma userLabels_written e0 u :
  forallb isString u = true -> forallb truthy u = true ->
  userLabels (writtenRecord parseDate env document_id s e0 api u) = Ok u.
Proof.
  intros Hstr Htruthy. unfold userLabels.
  change (getMember (writtenRecord parseDate env document_id s e0 api u)
            "userData")
    with (Ok (getProp (writtenRecord parseDate env document_id s e0 api u)
                "userData")).
  cbn [bind]. rewrite ReconcileProps.record_userData_labels.
  unfold or_else. cbn [truthy_opt truthy].
  rewrite (mapTry_labelName_strings u Hstr). cbn [bind].
  rewrite (filterBoolean_Some u Htruthy). reflexivity.
Qed.

End Rounds.

(** X10. From the second round on, reconciliation of an unchanged snapshot
    is stable: when the prior user labels are plain strings, the record
    reconciled against a written record is reproduced exactly when the
    same snapshot is reconciled against it again (property order is the
    insertion order of the model). *)
Theorem second_round_stable
    parseDate env document_id s prior first user :
  reconcile parseDate env document_id s prior = Ok first ->
  userLabels (existingData (option_map Parsed prior)) = Ok user ->
  forallb isString user = true ->
  exists second,
    reconcile parseDate env document_id s (Some first) = Ok second /\
    reconcile parseDate env document_id s (Some second) = Ok second.
Proof.
  intros Hfirst Huser Hstr.
  apply documentData_Ok in Hfirst as (api & user' & Hapi & Huser' & ->).
  rewrite Huser in Huser'. injection Huser' as <-.
  assert (Htruthy := userLabels_truthy _ _ Huser).
  set (e0 := existingData (option_map Parsed prior)).
  exists (writtenRecord parseDate env document_id s
            (writtenRecord parseDate env document_id s e0 api user)
            api user).
  unfold reconcile, documentData. cbn [existingData option_map].
  rewrite Hapi, !userLabels_written by assumption.
  cbn [bind]. split; [reflexivity|].
  unfold writtenRecord at 1 4.
  rewrite userData_stable. reflexivity.
Qed.

Lemma second_round_stable_witness :
  exists first second,
    reconcile Examples.isoDates Examples.env "d1" Examples.snapshot
      (Some Examples2.legacy) = Ok first /\
    reconcile Examples.isoDates Examples.env "d1" Examples.snapshot
      (Some first) = Ok second /\
    reconcile Examples.isoDates Examples.env "d1" Examples.snapshot
      (Some second) = Ok second.
Proof.
  destruct (second_round_stable Examples.isoDates Examples.env "d1"
              Examples.snapshot (Some Examples2.legacy) _ [] eq_refl eq_refl
              eq_refl) as (second & H2 & H3).
  eexists. exists second. split; [reflexivity|]. split; assumption.
Defined.

End ReconcileMore.

(** ** The batch commands *)
Module BulkMore.
Import Sync Listing Bulk ObjectFacts Spec Spec2.

Lemma toLowerCase_empty f :
  String.eqb (Slug.toLowerCase f) "" = String.eqb f "".
Proof. destruct f; reflexivity. Qed.

(** X11. The filter option is read without regard to case; whatever is not
    one of my-documents, created, shared, recent, public or trash, and a
    missing or empty option, means CREATED; the owner, company and team
    filters are never chosen. *)
Theorem parseDocumentFilter_cases :
  (forall f g,
     Slug.toLowerCase f = Slug.toLowerCase g ->
     parseDocumentFilter (Some f) = parseDocumentFilter (Some g)) /\
  (forall x,
     In (parseDocumentFilter x)
        [MY_DOCUMENTS; CREATED; SHARED; RECENT; PUBLIC; TRASH]) /\
  (forall f,
     ~ In (Slug.toLowerCase f)
          ["my-documents"; "shared"; "recent"; "public"; "trash"] ->
     parseDocumentFilter (Some f) = CREATED) /\
  parseDocumentFilter None = CREATED.
Proof.
  split; [|split; [|split]].
  - intros f g Hfg. unfold parseDocumentFilter, ifTruthy.
    rewrite <- (toLowerCase_empty f), <- (toLowerCase_empty g), Hfg.
    destruct (String.eqb (Slug.toLowerCase g) ""); [reflexivity|].
    rewrite Hfg. reflexivity.
  - intros x. unfold parseDocumentFilter.
    destruct (ifTruthy x) as [f|]; [|simpl; tauto].
    repeat match goal with
    | |- context [if ?b then _ else _] => destruct b
    end; simpl; tauto.
  - intros f Hnot. unfold parseDocumentFilter.
    destruct (ifTruthy (Some f)) as [f'|] eqn:E; [|reflexivity].
    assert (f' = f) as ->.
    { unfold ifTruthy in E. destruct (String.eqb f ""); congruence. }
    repeat match goal with
    | |- context [if String.eqb ?a ?b then _ else _] =>
        destruct (String.eqb_spec a b) as [Heq|_];
          [try reflexivity; exfalso; apply Hnot; rewrite Heq; simpl; tauto|]
    end. reflexivity.
  - reflexivity.
Qed.

Lemma parseDocumentFilter_cases_witness :
  parseDocumentFilter (Some "My-Documents") = MY_DOCUMENTS /\
  parseDocumentFilter (Some "owner") = CREATED.
Proof.
  destruct parseDocumentFilter_cases as (Hcase & _ & Hother & _).
  split.
  - rewrite (Hcase "My-Documents" "my-documents" eq_refl). reflexivity.
  - apply Hother. simpl. intros H.
    repeat (destruct H as [H|H]; [discriminate H|]). exact H.
Defined.

(** *** A batch in which every document can be reconciled *)

Lemma attempted_app l1 l2 :
  attempted (l1 ++ l2) = attempted l1 ++ attempted l2.
Proof.
  induction l1 as [|x rest IH]; simpl; [reflexivity|].
  destruct x; simpl; rewrite ?IH; reflexivity.
Qed.

Lemma succeeded_app l1 l2 :
  succeeded (l1 ++ l2) = succeeded l1 ++ succeeded l2.
Proof.
  induction l1 as [|x rest IH]; simpl; [reflexivity|].
  destruct x; simpl; rewrite ?IH; reflexivity.
Qed.

Lemma failed_app l1 l2 : failed (l1 ++ l2) = failed l1 ++ failed l2.
Proof.
  induction l1 as [|x rest IH]; simpl; [reflexivity|].
  destruct x; simpl; rewrite ?IH; reflexivity.
Qed.

Lemma quiet_log l :
  forallb quietLine l = true ->
  attempted l = [] /\ succeeded l = [] /\ failed l = [].
Proof.
  induction l as [|x rest IH]; simpl; [repeat split|].
  intros H. apply andb_true_iff in H as [Hx Hrest].
  destruct (IH Hrest) as (Ha & Hs & Hf).
  destruct x; try discriminate Hx; simpl; repeat split; assumption.
Qed.

Lemma syncDocuments_quiet parseDate client env store document_id :
  forallb quietLine
    (run_log (syncDocuments parseDate client env store document_id)) = true.
Proof.
  unfold syncDocuments.
  destruct (getDocument client document_id) as [document|]; [|reflexivity].
  set (s := fetchSnapshot client document_id document).
  assert (Hlog : forallb quietLine
            (workspaceLog s ++ versionsLog s ++ thumbnailsLog client s ++
             existingLog (lookup (outputPath document) store)) = true).
  { rewrite !forallb_app. unfold workspaceLog, versionsLog, thumbnailsLog,
      existingLog.
    destruct (snap_workspaces s) as [ws|]; [destruct (find _ ws)|];
      destruct (snap_versions s);
      (destruct (snap_thumbnails s) as [ts|];
        [destruct (find _ ts) as [t|];
          [destruct (downloadThumbnail client (th_url t))|]|]);
      destruct (lookup (outputPath document) store) as [[|]|];
      reflexivity. }
  destruct (documentData _ _ _ _ _); cbn [run_log];
    rewrite forallb_app, Hlog; reflexivity.
Qed.

Lemma storeShaped_lookup store path :
  storeShaped store = true -> priorShaped (existingData (lookup path store)) = true.
Proof.
  intros H. destruct (lookup path store) as [[v|]|] eqn:E; try reflexivity.
  apply lookup_In in E. unfold storeShaped in H.
  rewrite forallb_forall in H. exact (H _ E).
Qed.

Lemma storeShaped_set store path v :
  storeShaped store = true -> priorShaped v = true ->
  storeShaped (set path (Parsed v) store) = true.
Proof.
  intros Hs Hv. induction store as [|[k c] rest IH]; simpl.
  - rewrite Hv. reflexivity.
  - simpl in Hs. apply andb_true_iff in Hs as [Hc Hrest].
    destruct (String.eqb path k); simpl.
    + rewrite Hv. exact Hrest.
    + rewrite Hc. exact (IH Hrest).
Qed.

(** With a fetched document and well-shaped label data the command returns
    and leaves a directory of well-shaped records. *)
Lemma syncDocuments_returns
    parseDate client env store document_id document :
  getDocument client document_id = Ok document ->
  remoteLabelsShaped document = true ->
  storeShaped store = true ->
  run_end (syncDocuments parseDate client env store document_id)
    = Returned /\
  storeShaped
    (run_store (syncDocuments parseDate client env store document_id))
    = true.
Proof.
  intros Hdoc Hremote Hstore.
  destruct (ReconcileProps.apiLabelNames_shaped document Hremote)
    as [api Hapi].
  destruct (ReconcileProps.userLabels_shaped _
              (storeShaped_lookup store (outputPath document) Hstore))
    as [user Huser].
  unfold syncDocuments. rewrite Hdoc. unfold documentData.
  cbn [snap_document fetchSnapshot]. rewrite Hapi, Huser.
  cbn [bind run_end run_store]. split; [reflexivity|].
  apply storeShaped_set; [exact Hstore|].
  apply ReconcileMore.written_record_shaped.
  exact (ReconcileMore.userLabels_truthy _ _ Huser).
Qed.

Lemma generatePDF_returns w document_id document template :
  getDocument (client w) document_id = Ok document ->
  (forall t f, exists u, typstCompile w t f = Ok u) ->
  snd (generatePDF w document_id template) = Returned /\
  forallb quietLine (fst (generatePDF w document_id template)) = true.
Proof.
  intros Hdoc Htypst. unfold generatePDF. rewrite Hdoc.
  destruct (templateExists w template); [|split; reflexivity].
  destruct (Htypst template
              (Slug.generateFilenameFromTitle (doc_name document)))
    as [u ->].
  split; reflexivity.
Qed.

Lemma processAll_all_return parseDate w options documents : forall store,
  (forall doc, In doc documents ->
     exists document,
       getDocument (client w) (ld_id doc) = Ok document /\
       remoteLabelsShaped document = true) ->
  (generatePdf options = true ->
   forall t f, exists u, typstCompile w t f = Ok u) ->
  storeShaped store = true ->
  run_end (processAll parseDate w options store documents) = Returned /\
  attempted (run_log (processAll parseDate w options store documents))
    = map ld_name documents /\
  succeeded (run_log (processAll parseDate w options store documents))
    = map ld_name documents /\
  failed (run_log (processAll parseDate w options store documents)) = [] /\
  storeShaped (run_store (processAll parseDate w options store documents))
    = true.
Proof.
  induction documents as [|doc rest IH]; intros store Hdocs Htypst Hstore.
  - simpl. repeat split. exact Hstore.
  - destruct (Hdocs doc (or_introl eq_refl)) as (document & Hdoc & Hremote).
    destruct (syncDocuments_returns parseDate (client w) (env w) store
                (ld_id doc) document Hdoc Hremote Hstore) as [Hend Hshaped].
    destruct (quiet_log _ (syncDocuments_quiet parseDate (client w) (env w)
                             store (ld_id doc))) as (Ha & Hs & Hf).
    assert (Hone :
      run_end (processOne parseDate w options store doc) = Returned /\
      run_store (processOne parseDate w options store doc) =
        run_store (syncDocuments parseDate (client w) (env w) store
                     (ld_id doc)) /\
      attempted (run_log (processOne parseDate w options store doc)) = [] /\
      succeeded (run_log (processOne parseDate w options store doc))
        = [ld_name doc] /\
      failed (run_log (processOne parseDate w options store doc)) = []).
    { unfold processOne. rewrite Hend.
      destruct (generatePdf options) eqn:Eg; cbn [run_end run_store run_log].
      - destruct (generatePDF_returns w (ld_id doc) document
                    (str_or (template options) "technical-documentation")
                    Hdoc (Htypst eq_refl)) as [Hg Hq].
        destruct (quiet_log _ Hq) as (Hga & Hgs & Hgf).
        rewrite Hg.
        rewrite !attempted_app, !succeeded_app, !failed_app.
        rewrite Ha, Hs, Hf, Hga, Hgs, Hgf. repeat split.
      - rewrite attempted_app, succeeded_app, failed_app, Ha, Hs, Hf.
        repeat split. }
    destruct Hone as (Hoe & Hos & Hoa & Hosu & Hof).
    assert (Hrest : storeShaped
                      (run_store (processOne parseDate w options store doc))
                    = true) by (rewrite Hos; exact Hshaped).
    destruct (IH _ (fun d Hin => Hdocs d (or_intror Hin)) Htypst Hrest)
      as (He & Hat & Hsu & Hfa & Hsh).
    cbn [processAll]. rewrite Hoe. cbn [run_end run_log run_store].
    split; [exact He|].
    cbn [attempted succeeded failed].
    rewrite attempted_app, succeeded_app, failed_app.
    rewrite Hoa, Hosu, Hof, Hat, Hsu, Hfa.
    repeat split. exact Hsh.
Qed.

(** X12. When the metadata of every listed document can be fetched and the
    label data is well shaped (and, with PDF generation on, the compiler
    succeeds), [bulkSync] returns after attempting and completing every
    listed document in listing order and reports no failure; a directory of
    well-shaped records stays one. *)
Theorem bulkSync_completes_all
    parseDate w fuel options store documents :
  findDocuments w fuel options = Some (Ok documents) ->
  (forall doc, In doc documents ->
     exists document,
       getDocument (client w) (ld_id doc) = Ok document /\
       remoteLabelsShaped document = true) ->
  (generatePdf options = true ->
   forall t f, exists u, typstCompile w t f = Ok u) ->
  storeShaped store = true ->
  exists run,
    bulkSync parseDate w fuel options store = Some run /\
    run_end run = Returned /\
    attempted (run_log run) = map ld_name documents /\
    succeeded (run_log run) = map ld_name documents /\
    failed (run_log run) = [] /\
    storeShaped (run_store run) = true.
Proof.
  intros Hfind Hdocs Htypst Hstore. unfold bulkSync. rewrite Hfind.
  destruct documents as [|doc rest].
  - eexists. split; [reflexivity|]. repeat split. exact Hstore.
  - eexists. split; [reflexivity|].
    apply processAll_all_return; assumption.
Qed.

Lemma bulkSync_completes_all_witness :
  exists run,
    bulkSync Examples.isoDates Examples2.fineWorld 5 Examples2.withPdf []
      = Some run /\
    run_end run = Returned /\
    succeeded (run_log run) = ["Alpha"; "Beta"; "Gamma"].
Proof.
  destruct (bulkSync_completes_all Examples.isoDates Examples2.fineWorld 5
              Examples2.withPdf []
              [Examples.alpha; Examples.beta; Examples.gamma] eq_refl)
    as (run & Hrun & Hend & _ & Hsucc & _).
  - intros doc _. eexists. split; reflexivity.
  - intros _ t f. exists tt. reflexivity.
  - reflexivity.
  - exists run. split; [exact Hrun|]. split; [exact Hend | exact Hsucc].
Defined.

End BulkMore.

(** ** Further properties of [bulkUpload] *)
Module BulkUploadMore.
Import Sync BulkUpload Spec2.

Ltac processFile_cases :=
  unfold processFile, filteredOut;
  repeat match goal with
         | |- context [match ?x with _ => _ end] => destruct x eqn:?
         | |- context [if ?x then _ else _] => destruct x eqn:?
         end.

Lemma processFile_counts options w c jsonFile :
  uploadCount (processFile options w c jsonFile) +
  skippedCount (processFile options w c jsonFile) +
  List.length (List.filter (filteredOut options) [jsonFile])
    = S (uploadCount c + skippedCount c).
Proof.
  unfold List.filter.
  processFile_cases; simpl; try discriminate; try congruence; lia.
Qed.

Lemma processFile_bounds options w c jsonFile :
  uploadCount c <= List.length (uploads c) <= processedCount c ->
  uploadCount (processFile options w c jsonFile)
    <= List.length (uploads (processFile options w c jsonFile))
    <= processedCount (processFile options w c jsonFile) /\
  processedCount (processFile options w c jsonFile) +
  List.length (List.filter (filteredOut options) [jsonFile])
    <= S (processedCount c).
Proof.
  intros H. unfold List.filter.
  processFile_cases; simpl; rewrite ?length_app; simpl;
    try discriminate; try congruence; lia.
Qed.

Lemma filter_length_cons {A} (f : A -> bool) x l :
  List.length (List.filter f (x :: l))
    = List.length (List.filter f [x]) + List.length (List.filter f l).
Proof. simpl. destruct (f x); reflexivity. Qed.

Lemma fold_counts options w files : forall c,
  uploadCount (fold_left (processFile options w) files c) +
  skippedCount (fold_left (processFile options w) files c) +
  List.length (List.filter (filteredOut options) files)
    = List.length files + (uploadCount c + skippedCount c).
Proof.
  induction files as [|f rest IH]; intros c; [simpl; lia|].
  cbn [fold_left]. rewrite filter_length_cons.
  pose proof (IH (processFile options w c f)) as Hrest.
  pose proof (processFile_counts options w c f) as Hone.
  cbn [List.length]. lia.
Qed.

Lemma fold_bounds options w files : forall c,
  uploadCount c <= List.length (uploads c) <= processedCount c ->
  uploadCount (fold_left (processFile options w) files c)
    <= List.length (uploads (fold_left (processFile options w) files c))
    <= processedCount (fold_left (processFile options w) files c) /\
  processedCount (fold_left (processFile options w) files c) +
  List.length (List.filter (filteredOut options) files)
    <= List.length files + processedCount c.
Proof.
  induction files as [|f rest IH]; intros c H; [simpl; lia|].
  cbn [fold_left]. rewrite filter_length_cons.
  destruct (processFile_bounds options w c f H) as [Hone Hp].
  destruct (IH _ Hone) as [Hrest Hq].
  cbn [List.length]. lia.
Qed.

(** X13. When both directories exist, [bulkUpload] counts every record file
    exactly once: as uploaded, as skipped, or as passed over by the label
    filter; an unreadable file counts as skipped.  The uploaded count never
    exceeds the number of upload commands run, which never exceeds the
    number of documents announced. *)
Theorem bulkUpload_counts_every_file options w :
  contentDirExists w = true ->
  pdfDirExists w = true ->
  uploadCount (fst (bulkUpload options w)) +
  skippedCount (fst (bulkUpload options w)) +
  List.length (List.filter (filteredOut options) (jsonFiles w))
    = List.length (jsonFiles w) /\
  uploadCount (fst (bulkUpload options w))
    <= List.length (uploads (fst (bulkUpload options w)))
    <= processedCount (fst (bulkUpload options w)) /\
  processedCount (fst (bulkUpload options w)) +
  List.length (List.filter (filteredOut options) (jsonFiles w))
    <= List.length (jsonFiles w).
Proof.
  intros Hcontent Hpdf. unfold bulkUpload. rewrite Hcontent, Hpdf.
  cbn [negb fst].
  pose proof (fold_counts options w (jsonFiles w) start) as Hc.
  destruct (fold_bounds options w (jsonFiles w) start) as [Hb Hp];
    [simpl; lia|].
  cbn [start uploadCount skippedCount processedCount] in Hc, Hp.
  split; [lia|]. split; [exact Hb | lia].
Qed.

Lemma bulkUpload_counts_every_file_witness :
  uploadCount
    (fst (bulkUpload Examples2.uploadEverything Examples2.mixedDirectory)) = 0
  /\
  skippedCount
    (fst (bulkUpload Examples2.uploadEverything Examples2.mixedDirectory)) = 4.
Proof.
  pose proof (bulkUpload_counts_every_file Examples2.uploadEverything
                Examples2.mixedDirectory eq_refl eq_refl) as (Hc & Hb & _).
  split; [reflexivity|].
  vm_compute in Hc. vm_compute. lia.
Defined.

(** The loop body runs the upload command for at most the record of the
    file, and only if it passes the label filter and its PDF is there. *)
Lemma processFile_uploads_selected options w c jsonFile :
  uploads (processFile options w c jsonFile) = uploads c \/
  exists data,
    snd jsonFile = Parsed data /\
    selected options data = Ok true /\
    pdfExists w (replaceFirst ".json" ".pdf" (fst jsonFile)) = true /\
    uploads (processFile options w c jsonFile) = uploads c ++ [data].
Proof.
  unfold processFile.
  destruct (snd jsonFile) as [data|]; [|left; reflexivity].
  destruct (selected options data) as [[|]|] eqn:Hsel;
    try (left; reflexivity).
  destruct (pdfExists w (replaceFirst ".json" ".pdf" (fst jsonFile)))
    eqn:Hpdf; simpl; [|left; destruct data; reflexivity].
  destruct (skipPdfUpload data); [left; destruct data; reflexivity|].
  destruct (runUpload w (getProp data "documentId") (workspace options));
    (destruct data;
     [left; reflexivity
     | right; eexists; split; [reflexivity|]; split; [exact Hsel|];
       split; reflexivity ..]).
Qed.

Lemma fold_uploads_selected options w files : forall c data,
  In data (uploads (fold_left (processFile options w) files c)) ->
  In data (uploads c) \/
  exists file_name,
    In (file_name, Parsed data) files /\
    selected options data = Ok true /\
    pdfExists w (replaceFirst ".json" ".pdf" file_name) = true.
Proof.
  induction files as [|f rest IH]; intros c data Hin; [left; exact Hin|].
  cbn [fold_left] in Hin.
  destruct (IH _ _ Hin) as [Hold | (file_name & Hf & Hs & Hp)].
  - destruct (processFile_uploads_selected options w c f)
      as [E | (d & Hd & Hs & Hp & E)]; rewrite E in Hold.
    + left. exact Hold.
    + apply in_app_iff in Hold as [Hold|[<-|[]]]; [left; exact Hold|].
      right. exists (fst f). split; [|split; assumption].
      left. destruct f as [n v]. simpl in *. rewrite Hd. reflexivity.
  - right. exists file_name. split; [right; exact Hf | split; assumption].
Qed.

(** X14. [bulkUpload] runs the upload command only for a record file of the
    documents directory that parses, passes the label filter and has its
    PDF in the PDF directory; when either directory is missing it runs no
    upload at all and exits with status 1. *)
Theorem bulkUpload_runs_only_with_pdf options w data :
  In data (uploads (fst (bulkUpload options w))) ->
  contentDirExists w = true /\
  pdfDirExists w = true /\
  exists file_name,
    In (file_name, Parsed data) (jsonFiles w) /\
    selected options data = Ok true /\
    pdfExists w (replaceFirst ".json" ".pdf" file_name) = true.
Proof.
  unfold bulkUpload.
  destruct (contentDirExists w); [|intros []].
  destruct (pdfDirExists w); [|intros []].
  cbn [negb fst]. intros Hin. split; [reflexivity|]. split; [reflexivity|].
  destruct (fold_uploads_selected options w (jsonFiles w) start data Hin)
    as [[]|H]. exact H.
Qed.

Lemma bulkUpload_runs_only_with_pdf_witness :
  exists file_name,
    In (file_name, Parsed Examples.ordinary)
      (jsonFiles Examples2.mixedDirectory) /\
    pdfExists Examples2.mixedDirectory
      (replaceFirst ".json" ".pdf" file_name) = true.
Proof.
  destruct (bulkUpload_runs_only_with_pdf Examples2.uploadEverything
              Examples2.mixedDirectory Examples.ordinary)
    as (_ & _ & file_name & Hin & _ & Hpdf).
  - vm_compute. left. reflexivity.
  - exists file_name. split; assumption.
Defined.

Lemma processFile_withUpload options w run c c' jsonFile :
  uploads c' = uploads c ->
  processedCount c' = processedCount c ->
  uploadCount c' + skippedCount c' = uploadCount c + skippedCount c ->
  uploads (processFile options (withUpload w run) c' jsonFile)
    = uploads (processFile options w c jsonFile) /\
  processedCount (processFile options (withUpload w run) c' jsonFile)
    = processedCount (processFile options w c jsonFile) /\
  uploadCount (processFile options (withUpload w run) c' jsonFile) +
  skippedCount (processFile options (withUpload w run) c' jsonFile)
    = uploadCount (processFile options w c jsonFile) +
      skippedCount (processFile options w c jsonFile).
Proof.
  intros Hu Hp Hc. unfold processFile.
  cbn [withUpload pdfExists runUpload].
  destruct (snd jsonFile) as [data|]; [|simpl; repeat split; auto; lia].
  destruct (selected options data) as [[|]|];
    [|repeat split; auto; lia | simpl; repeat split; auto; lia].
  destruct (pdfExists w (replaceFirst ".json" ".pdf" (fst jsonFile)));
    cbn [negb];
    [|destruct data; simpl; repeat split; auto; lia].
  destruct (skipPdfUpload data);
    [destruct data; simpl; repeat split; auto; lia|].
  destruct (run (getProp data "documentId") (workspace options)),
    (runUpload w (getProp data "documentId") (workspace options));
    destruct data; simpl; rewrite ?Hu; repeat split; auto; lia.
Qed.

Lemma fold_withUpload options w run files : forall c c',
  uploads c' = uploads c ->
  processedCount c' = processedCount c ->
  uploadCount c' + skippedCount c' = uploadCount c + skippedCount c ->
  uploads (fold_left (processFile options (withUpload w run)) files c')
    = uploads (fold_left (processFile options w) files c) /\
  processedCount
    (fold_left (processFile options (withUpload w run)) files c')
    = processedCount (fold_left (processFile options w) files c) /\
  uploadCount (fold_left (processFile options (withUpload w run)) files c') +
  skippedCount (fold_left (processFile options (withUpload w run)) files c')
    = uploadCount (fold_left (processFile options w) files c) +
      skippedCount (fold_left (processFile options w) files c).
Proof.
  induction files as [|f rest IH]; intros c c' Hu Hp Hc;
    [simpl; repeat split; assumption|].
  cbn [fold_left].
  destruct (processFile_withUpload options w run c c' f Hu Hp Hc)
    as (Hu' & Hp' & Hc').
  exact (IH _ _ Hu' Hp' Hc').
Qed.

(** X15. Whether single upload commands succeed or fail changes neither
    for which records, and in which order, [bulkUpload] runs the command,
    nor the number of documents it announces, nor how it ends: a failed
    upload only moves one count from uploaded to skipped. *)
Theorem bulkUpload_failure_isolated options w run :
  uploads (fst (bulkUpload options (withUpload w run)))
    = uploads (fst (bulkUpload options w)) /\
  processedCount (fst (bulkUpload options (withUpload w run)))
    = processedCount (fst (bulkUpload options w)) /\
  uploadCount (fst (bulkUpload options (withUpload w run))) +
  skippedCount (fst (bulkUpload options (withUpload w run)))
    = uploadCount (fst (bulkUpload options w)) +
      skippedCount (fst (bulkUpload options w)) /\
  snd (bulkUpload options (withUpload w run)) = snd (bulkUpload options w).
Proof.
  unfold bulkUpload.
  cbn [withUpload contentDirExists pdfDirExists jsonFiles].
  destruct (contentDirExists w); [|repeat split].
  destruct (pdfDirExists w); [|repeat split].
  cbn [negb fst snd].
  destruct (fold_withUpload options w run (jsonFiles w) start start
              eq_refl eq_refl eq_refl) as (Hu & Hp & Hc).
  repeat split; assumption.
Qed.

End BulkUploadMore.

(** ** Further properties of [uploadPDF] *)
Module UploadMore.
Import Sync Upload ObjectFacts Spec2.

(** X16. [uploadPDF] sends at most one request to the gateway, for the
    document of its options, and ends by returning or by exiting with
    status 1, never by throwing.  It returns only after a request that
    succeeded; a run that exits writes no record; without the PDF file no
    request is sent at all. *)
Theorem uploadPDF_single_request w options :
  List.length (calls (uploadPDF w options)) <= 1 /\
  (forall c, In c (calls (uploadPDF w options)) ->
     callDocument c = document options) /\
  (finished (uploadPDF w options) = Returned \/
   finished (uploadPDF w options) = Exited 1) /\
  (finished (uploadPDF w options) = Returned ->
   List.length (calls (uploadPDF w options)) = 1) /\
  (finished (uploadPDF w options) = Exited 1 ->
   written (uploadPDF w options) = None) /\
  (pdfFileExists w = false ->
   calls (uploadPDF w options) = [] /\
   finished (uploadPDF w options) = Exited 1).
Proof.
  unfold uploadPDF, updateElement, createElement, failed.
  destruct (pdfFileExists w); cbn [negb];
    [|simpl; repeat split; auto; try discriminate; intros c []].
  destruct (or_else (workspaceId options (documentData w)) None) as [ws|];
    [|simpl; repeat split; auto; try discriminate; intros c []].
  destruct (or_else (existingElementId (documentData w)) None)
    as [element|].
  - destruct (updatePDF w (document options) ws element); simpl;
      repeat split; auto; try discriminate;
      intros c [<-|[]]; reflexivity.
  - destruct (uploadPDF_request w (document options) ws); simpl;
      repeat split; auto; try discriminate;
      intros c [<-|[]]; reflexivity.
Qed.

Lemma uploadPDF_workspace w options ws :
  pdfFileExists w = true ->
  or_else (workspaceId options (documentData w)) None = Some ws ->
  map callWorkspace (calls (uploadPDF w options)) = [ws].
Proof.
  intros Hpdf Hws. unfold uploadPDF, updateElement, createElement, failed.
  rewrite Hpdf, Hws. cbn [negb].
  destruct (or_else (existingElementId (documentData w)) None)
    as [element|];
    [destruct (updatePDF w (document options) ws element)
    |destruct (uploadPDF_request w (document options) ws)]; reflexivity.
Qed.

(** X17. With the PDF file present, the one request of [uploadPDF] names
    the workspace given in the options whenever that is a non-empty string,
    whatever the record says; without it the truthy [mainWorkspaceId] of
    the record is used; and when neither is there no request is sent and
    the command exits with status 1. *)
Theorem upload_workspace_precedence w options :
  pdfFileExists w = true ->
  (forall ws, workspace options = Some ws -> ws <> "" ->
     map callWorkspace (calls (uploadPDF w options)) = [JStr ws]) /\
  (forall main,
     workspace options = None \/ workspace options = Some "" ->
     optChain (documentData w) "mainWorkspaceId" = Some main ->
     truthy main = true ->
     map callWorkspace (calls (uploadPDF w options)) = [main]) /\
  (workspace options = None \/ workspace options = Some "" ->
   truthy_opt (optChain (documentData w) "mainWorkspaceId") = false ->
   calls (uploadPDF w options) = [] /\
   finished (uploadPDF w options) = Exited 1).
Proof.
  intros Hpdf. split; [|split].
  - intros ws Hws Hne. apply uploadPDF_workspace; [exact Hpdf|].
    unfold workspaceId. rewrite Hws. unfold or_else. simpl.
    destruct (String.eqb_spec ws "") as [E|_]; [contradiction|].
    simpl. destruct (String.eqb_spec ws "") as [E|_]; [contradiction|].
    reflexivity.
  - intros main Hopt Hmain Htruthy.
    apply uploadPDF_workspace; [exact Hpdf|].
    unfold workspaceId. rewrite Hmain.
    destruct Hopt as [-> | ->]; unfold or_else; simpl;
      rewrite !Htruthy; simpl; rewrite ?Htruthy; reflexivity.
  - intros Hopt Hmain. unfold uploadPDF. rewrite Hpdf. cbn [negb].
    unfold workspaceId.
    destruct Hopt as [-> | ->]; unfold or_else; simpl;
      rewrite !Hmain; simpl; rewrite ?Hmain; split; reflexivity.
Qed.

Lemma upload_workspace_precedence_witness :
  calls (uploadPDF (Examples.uploadWorld Examples.uploadedBefore)
           Examples2.explicitWorkspace)
    = [UpdatePDF "d1" (JStr "w9") (JStr "e1")] /\
  map callWorkspace
    (calls (uploadPDF (Examples.uploadWorld Examples.uploadedBefore)
              Examples.uploadOptions)) = [JStr "w1"].
Proof.
  destruct (upload_workspace_precedence
              (Examples.uploadWorld Examples.uploadedBefore)
              Examples.uploadOptions eq_refl) as (_ & Hmain & _).
  split; [reflexivity|].
  apply Hmain; [left; reflexivity | reflexivity | reflexivity].
Defined.

(** What a run of [uploadPDF] that writes the record has done. *)
Lemma uploadPDF_written w options d' :
  written (uploadPDF w options) = Some d' ->
  exists ws result new_id d,
    pdfFileExists w = true /\
    or_else (workspaceId options (documentData w)) None = Some ws /\
    or_else (existingElementId (documentData w)) None = None /\
    uploadPDF_request w (document options) ws = Ok result /\
    result_id result = Some new_id /\ new_id <> "" /\
    documentData w = Some d /\
    storeElementId d new_id = Some d' /\
    calls (uploadPDF w options) = [UploadPDF (document options) ws].
Proof.
  unfold uploadPDF, updateElement, createElement, failed.
  destruct (pdfFileExists w); cbn [negb]; [|discriminate].
  destruct (or_else (workspaceId options (documentData w)) None) as [ws|];
    [|discriminate].
  destruct (or_else (existingElementId (documentData w)) None)
    as [element|].
  { destruct (updatePDF w (document options) ws element); discriminate. }
  destruct (uploadPDF_request w (document options) ws) as [result|] eqn:Er;
    [|discriminate].
  cbn [written calls].
  destruct (result_id result) as [new_id|] eqn:Eid; [|discriminate].
  destruct (documentData w) as [d|] eqn:Ed; [|discriminate].
  destruct (String.eqb_spec new_id "") as [->|Hne]; [discriminate|].
  cbn [orb]. destruct (truthy d); cbn [negb]; [|discriminate].
  intros Hstore. exists ws, result, new_id, d.
  repeat split; try assumption; reflexivity.
Qed.

(** The record [storeElementId] writes differs from the one it read in
    [userData] only, and there in [pdfElementId] only. *)
Lemma storeElementId_frame props new_id d' :
  storeElementId (JObj props) new_id = Some d' ->
  (forall l, lookup "userData" props <> Some (JArr l)) ->
  exists ud,
    d' = JObj (set "userData"
                 (JObj (set "pdfElementId" (JStr new_id) ud)) props) /\
    or_else (lookup "userData" props) (Some (JObj [])) = Some (JObj ud).
Proof.
  unfold storeElementId. intros H Harr.
  destruct (or_else (lookup "userData" props) (Some (JObj [])))
    as [[| | | |l|ud]|] eqn:E; try discriminate H.
  - exfalso. unfold or_else in E.
    destruct (truthy_opt (lookup "userData" props));
      [exact (Harr l E) | discriminate E].
  - injection H as <-. exists ud. split; reflexivity.
Qed.

(** X18. When [storeElementId] writes the record, every root property
    other than [userData] and every property of [userData] other than
    [pdfElementId] reads as before, in the same place; [pdfElementId] reads
    as the new id; and no root property is added besides [userData]. *)
Theorem storeElementId_changes_one_field props new_id d' :
  storeElementId (JObj props) new_id = Some d' ->
  (forall l, lookup "userData" props <> Some (JArr l)) ->
  (forall k, k <> "userData" -> getProp d' k = lookup k props) /\
  (forall k, k <> "pdfElementId" ->
     optChain (getProp d' "userData") k =
     optChain (or_else (lookup "userData" props) (Some (JObj []))) k) /\
  optChain (getProp d' "userData") "pdfElementId" = Some (JStr new_id) /\
  (forall k, In k (keys (entries d')) ->
     k = "userData" \/ In k (keys props)).
Proof.
  intros H Harr.
  destruct (storeElementId_frame props new_id d' H Harr) as (ud & -> & Hud).
  rewrite Hud. cbn [getProp entries].
  split; [|split; [|split]].
  - intros k Hk. rewrite lookup_set.
    destruct (String.eqb_spec k "userData") as [E|_];
      [contradiction | reflexivity].
  - intros k Hk. rewrite lookup_set, String.eqb_refl. cbn [optChain getProp].
    rewrite lookup_set.
    destruct (String.eqb_spec k "pdfElementId") as [E|_];
      [contradiction | reflexivity].
  - rewrite lookup_set, String.eqb_refl. cbn [optChain getProp].
    rewrite lookup_set, String.eqb_refl. reflexivity.
  - intros k. rewrite keys_set.
    destruct (lookup "userData" props); [right; assumption|].
    rewrite in_app_iff. intros [Hin|[<-|[]]];
      [right; exact Hin | left; reflexivity].
Qed.

Lemma storeElementId_changes_one_field_witness :
  exists d',
    storeElementId Examples.neverUploaded "e2" = Some d' /\
    getProp d' "mainWorkspaceId" = Some (JStr "w1") /\
    optChain (getProp d' "userData") "labels" = Some (JArr []) /\
    optChain (getProp d' "userData") "pdfElementId" = Some (JStr "e2").
Proof.
  eexists. split; [reflexivity|].
  destruct (storeElementId_changes_one_field
              [("documentId", JStr "d1");
               ("mainWorkspaceId", JStr "w1");
               ("userData", JObj [("labels", JArr [])])] "e2" _ eq_refl)
    as (Hroot & Huser & Hid & _).
  - intros l. discriminate.
  - split; [|split].
    + rewrite Hroot; [reflexivity | discriminate].
    + rewrite Huser; [reflexivity | discriminate].
    + exact Hid.
Defined.

(** A run that finds a stored element id. *)
Lemma uploadPDF_update w options ws element :
  pdfFileExists w = true ->
  or_else (workspaceId options (documentData w)) None = Some ws ->
  or_else (existingElementId (documentData w)) None = Some element ->
  calls (uploadPDF w options)
    = [UpdatePDF (document options) ws element] /\
  written (uploadPDF w options) = None.
Proof.
  intros Hpdf Hws Hel. unfold uploadPDF, updateElement, failed.
  rewrite Hpdf, Hws, Hel. cbn [negb].
  destruct (updatePDF w (document options) ws element); split; reflexivity.
Qed.

(** X19. After an upload that created an element and wrote its id into an
    object record, the next upload of the same document with the same
    options, reading that record, sends no creating request: it updates the
    element with the id the gateway returned, in the same workspace, and
    leaves the record alone. *)
Theorem second_upload_updates w options props d' w' :
  documentData w = Some (JObj props) ->
  (forall l, lookup "userData" props <> Some (JArr l)) ->
  written (uploadPDF w options) = Some d' ->
  pdfFileExists w' = true ->
  jsonFile w' = Some (Parsed d') ->
  exists ws result new_id,
    calls (uploadPDF w options) = [UploadPDF (document options) ws] /\
    uploadPDF_request w (document options) ws = Ok result /\
    result_id result = Some new_id /\
    calls (uploadPDF w' options)
      = [UpdatePDF (document options) ws (JStr new_id)] /\
    written (uploadPDF w' options) = None.
Proof.
  intros Hdata Harr Hw Hpdf' Hjson'.
  destruct (uploadPDF_written w options d' Hw)
    as (ws & result & new_id & d & _ & Hws & _ & Hreq & Hid & Hne & Hd
        & Hstore & Hcalls).
  rewrite Hdata in Hd. injection Hd as <-.
  destruct (storeElementId_frame props new_id d' Hstore Harr)
    as (ud & -> & _).
  exists ws, result, new_id.
  split; [exact Hcalls|]. split; [exact Hreq|]. split; [exact Hid|].
  assert (Hdata' :
    documentData w' =
    Some (JObj (set "userData"
                  (JObj (set "pdfElementId" (JStr new_id) ud)) props))).
  { unfold documentData. rewrite Hjson'. reflexivity. }
  apply uploadPDF_update; [exact Hpdf' | |]; rewrite Hdata'.
  - rewrite <- Hws, Hdata. unfold workspaceId. cbn [optChain getProp].
    rewrite lookup_set. reflexivity.
  - unfold existingElementId. cbn [optChain getProp].
    rewrite lookup_set, String.eqb_refl. cbn [optChain getProp].
    rewrite lookup_set, String.eqb_refl. unfold or_else. simpl.
    destruct (String.eqb_spec new_id "") as [E|_]; [contradiction|].
    reflexivity.
Qed.

Lemma second_upload_updates_witness :
  exists d',
    written (uploadPDF (Examples.uploadWorld Examples.neverUploaded)
               Examples.uploadOptions) = Some d' /\
    calls (uploadPDF (Examples.uploadWorld d') Examples.uploadOptions)
      = [UpdatePDF "d1" (JStr "w1") (JStr "e2")].
Proof.
  eexists. split; [reflexivity|].
  destruct (second_upload_updates
              (Examples.uploadWorld Examples.neverUploaded)
              Examples.uploadOptions
              [("documentId", JStr "d1");
               ("mainWorkspaceId", JStr "w1");
               ("userData", JObj [("labels", JArr [])])]
              (JObj [("documentId", JStr "d1");
                     ("mainWorkspaceId", JStr "w1");
                     ("userData",
                      JObj [("labels", JArr []);
                            ("pdfElementId", JStr "e2")])])
              (Examples.uploadWorld
                 (JObj [("documentId", JStr "d1");
                        ("mainWorkspaceId", JStr "w1");
                        ("userData",
                         JObj [("labels", JArr []);
                               ("pdfElementId", JStr "e2")])]))
              eq_refl)
    as (ws & result & new_id & Hfirst & Hreq & Hid & Hsecond & _).
  - intros l. discriminate.
  - reflexivity.
  - reflexivity.
  - reflexivity.
  - injection Hfirst as <-. injection Hreq as <-. injection Hid as <-.
    exact Hsecond.
Defined.

Lemma optChain_Some v k : optChain (Some v) k = getProp v k.
Proof. destruct v; reflexivity. Qed.

(** X20. An element id stored by an upload survives the next
    synchronisation: when the record had no root-level [pdfElementId], the
    upload that follows the reconciliation of the written record updates
    the element the first upload created instead of creating another. *)
Theorem upload_sync_upload
    parseDate env document_id s w options props d' record w' ws' :
  documentData w = Some (JObj props) ->
  (forall l, lookup "userData" props <> Some (JArr l)) ->
  lookup "pdfElementId" props = None ->
  written (uploadPDF w options) = Some d' ->
  reconcile parseDate env document_id s (Some d') = Ok record ->
  pdfFileExists w' = true ->
  jsonFile w' = Some (Parsed record) ->
  or_else (workspaceId options (Some record)) None = Some ws' ->
  exists ws result new_id,
    uploadPDF_request w (document options) ws = Ok result /\
    result_id result = Some new_id /\
    calls (uploadPDF w' options)
      = [UpdatePDF (document options) ws' (JStr new_id)] /\
    written (uploadPDF w' options) = None.
Proof.
  intros Hdata Harr Hroot Hw Hrec Hpdf' Hjson' Hws'.
  destruct (uploadPDF_written w options d' Hw)
    as (ws & result & new_id & d & _ & _ & _ & Hreq & Hid & Hne & Hd
        & Hstore & _).
  rewrite Hdata in Hd. injection Hd as <-.
  destruct (storeElementId_frame props new_id d' Hstore Harr)
    as (ud & -> & _).
  exists ws, result, new_id.
  split; [exact Hreq|]. split; [exact Hid|].
  assert (Hdata' : documentData w' = Some record).
  { unfold documentData. rewrite Hjson'. reflexivity. }
  apply uploadPDF_update; [exact Hpdf' | |]; rewrite Hdata';
    [exact Hws'|].
  unfold existingElementId. rewrite optChain_Some.
  rewrite (ReconcileProps.reconciled_pdfElementId _ _ _ _ _ _ Hrec).
  - cbn [optChain getProp].
    rewrite lookup_set, String.eqb_refl. cbn [optChain getProp].
    rewrite lookup_set, String.eqb_refl. unfold or_else. simpl.
    destruct (String.eqb_spec new_id "") as [E|_]; [contradiction|].
    simpl. destruct (String.eqb_spec new_id "") as [E|_]; [contradiction|].
    reflexivity.
  - cbn [entries]. rewrite lookup_set. exact Hroot.
Qed.

Lemma upload_sync_upload_witness :
  exists d' record,
    written (uploadPDF (Examples.uploadWorld Examples.neverUploaded)
               Examples.uploadOptions) = Some d' /\
    reconcile Examples.isoDates Examples.env "d1" Examples.snapshot
      (Some d') = Ok record /\
    calls (uploadPDF (Examples.uploadWorld record) Examples.uploadOptions)
      = [UpdatePDF "d1" (JStr "w1") (JStr "e2")].
Proof.
  eexists. eexists. split; [reflexivity|]. split; [reflexivity|].
  destruct (upload_sync_upload Examples.isoDates Examples.env "d1"
              Examples.snapshot
              (Examples.uploadWorld Examples.neverUploaded)
              Examples.uploadOptions
              [("documentId", JStr "d1");
               ("mainWorkspaceId", JStr "w1");
               ("userData", JObj [("labels", JArr [])])]
              _ _ (Examples.uploadWorld _) (JStr "w1")
              eq_refl (fun l H => ltac:(discriminate H)) eq_refl eq_refl
              eq_refl eq_refl eq_refl eq_refl)
    as (ws & result & new_id & Hreq & Hid & Hcalls & _).
  injection Hreq as <-. injection Hid as <-. exact Hcalls.
Defined.

End UploadMore.

(** ** [findDocumentById] and the file names of the commands *)
Module DocumentUtilsProps.
Import Sync DocumentUtils ObjectFacts Spec2.

Lemma carriesId_Parsed documentId jsonFile d :
  endsWith ".json" jsonFile = true ->
  carriesId documentId (jsonFile, Parsed d) =
    strictEqualsString (getProp d "documentId") documentId &&
    match filenameOf d with
    | Ok _ => true
    | Thrown _ => false
    end.
Proof. intros H. unfold carriesId. simpl. rewrite H. reflexivity. Qed.

Lemma strictEqualsString_true v s :
  strictEqualsString v s = true -> v = Some (JStr s).
Proof.
  destruct v as [[| | |x| |]|]; simpl; try discriminate.
  intros H. apply String.eqb_eq in H. subst x. reflexivity.
Qed.

Lemma filenameOf_Ok d name :
  filenameOf d = Ok name ->
  exists title,
    getProp d "title" = Some (JStr title) /\
    name = Slug.generateFilenameFromTitle title.
Proof.
  unfold filenameOf.
  destruct (getProp d "title") as [[| | |title| |]|]; try discriminate.
  intros [= <-]. exists title. split; reflexivity.
Qed.

(** One step of the scan, by whether the file can be returned. *)
Lemma scan_cons documentId jsonFile content rest :
  endsWith ".json" jsonFile = true ->
  scan documentId ((jsonFile, content) :: rest) =
    if carriesId documentId (jsonFile, content)
    then match content with
         | Parsed d =>
             match filenameOf d with
             | Ok name => Some {| data := d; jsonPath := jsonFile;
                                  filename := name |}
             | Thrown _ => None
             end
         | Unparseable => None
         end
    else scan documentId rest.
Proof.
  intros Hjson. destruct content as [d|].
  - rewrite (carriesId_Parsed _ _ _ Hjson). cbn [scan].
    destruct d; cbn [getMember getProp strictEqualsString andb];
      try reflexivity.
    destruct (strictEqualsString (lookup "documentId" _) documentId);
      cbn [andb]; [|reflexivity].
    destruct (filenameOf _); reflexivity.
  - unfold carriesId. simpl. rewrite andb_false_r. reflexivity.
Qed.

Lemma scan_spec documentId l :
  Forall (fun f => endsWith ".json" (fst f) = true) l ->
  match scan documentId l with
  | Some found =>
      exists before after title,
        l = before ++ (jsonPath found, Parsed (data found)) :: after /\
        forallb (fun f => negb (carriesId documentId f)) before = true /\
        getProp (data found) "documentId" = Some (JStr documentId) /\
        getProp (data found) "title" = Some (JStr title) /\
        filename found = Slug.generateFilenameFromTitle title
  | None => forallb (fun f => negb (carriesId documentId f)) l = true
  end.
Proof.
  induction l as [|[jsonFile content] rest IH]; intros Hall;
    [reflexivity|].
  inversion Hall as [|? ? Hjson Hrest]; subst. simpl in Hjson.
  rewrite (scan_cons _ _ _ _ Hjson).
  destruct (carriesId documentId (jsonFile, content)) eqn:Hc.
  - destruct content as [d|];
      [|unfold carriesId in Hc; simpl in Hc;
        rewrite andb_false_r in Hc; discriminate Hc].
    rewrite (carriesId_Parsed _ _ _ Hjson) in Hc.
    apply andb_true_iff in Hc as [Hid Hname].
    destruct (filenameOf d) as [name|] eqn:Ef; [|discriminate Hname].
    destruct (filenameOf_Ok _ _ Ef) as (title & Htitle & ->).
    exists [], rest, title. cbn [data jsonPath filename app forallb].
    repeat split; try assumption.
    exact (strictEqualsString_true _ _ Hid).
  - specialize (IH Hrest).
    destruct (scan documentId rest) as [found|].
    + destruct IH as (before & after & title & -> & Hb & Hrec).
      exists ((jsonFile, content) :: before), after, title.
      cbn [app forallb]. rewrite Hc, Hb. split; [reflexivity|].
      split; [reflexivity | exact Hrec].
    + cbn [forallb]. rewrite Hc, IH. reflexivity.
Qed.

Lemma jsonFiles_Forall (dir : list (string * FileContent)) :
  Forall (fun f => endsWith ".json" (fst f) = true)
    (filter (fun f => endsWith ".json" (fst f)) dir).
Proof.
  apply Forall_forall. intros f Hin. apply filter_In in Hin. apply Hin.
Qed.

(** X21. [findDocumentById] returns the first file of the listing whose
    name ends in [.json], that parses, whose [documentId] is the given
    string and whose [title] is a string, together with the slug of that
    title; files that do not parse, hold [null], carry another id or a
    title that is no string are passed over.  It returns nothing exactly
    when the directory is missing or holds no such file. *)
Theorem findDocumentById_spec dirExists dir documentId :
  (forall found,
     findDocumentById dirExists dir documentId = Some found ->
     dirExists = true /\
     exists before after title,
       filter (fun f => endsWith ".json" (fst f)) dir =
         before ++ (jsonPath found, Parsed (data found)) :: after /\
       forallb (fun f => negb (carriesId documentId f)) before = true /\
       getProp (data found) "documentId" = Some (JStr documentId) /\
       getProp (data found) "title" = Some (JStr title) /\
       filename found = Slug.generateFilenameFromTitle title) /\
  (findDocumentById dirExists dir documentId = None <->
   dirExists = false \/
   forallb (fun f => negb (carriesId documentId f)) dir = true).
Proof.
  unfold findDocumentById.
  pose proof (scan_spec documentId _ (jsonFiles_Forall dir)) as Hscan.
  destruct dirExists; cbn [negb].
  - destruct (scan documentId
                (filter (fun f => endsWith ".json" (fst f)) dir))
      as [found|].
    + split.
      * intros f [= <-]. split; [reflexivity | exact Hscan].
      * split; [discriminate|]. intros [H|H]; [discriminate H|].
        exfalso.
        destruct Hscan as (before & after & title & Hl & _ & Hid & Ht & Hn).
        assert (Hin : In (jsonPath found, Parsed (data found))
                        (filter (fun f => endsWith ".json" (fst f)) dir)).
        { rewrite Hl. apply in_elt. }
        apply filter_In in Hin as [Hin Hjson]. simpl in Hjson.
        rewrite forallb_forall in H. specialize (H _ Hin).
        rewrite (carriesId_Parsed _ _ _ Hjson), Hid in H.
        unfold filenameOf in H. rewrite Ht in H.
        cbn [strictEqualsString] in H. rewrite String.eqb_refl in H.
        discriminate H.
    + split; [discriminate|]. split; [|reflexivity].
      intros _. right. apply forallb_forall. intros f Hin.
      destruct (endsWith ".json" (fst f)) eqn:Hjson.
      * rewrite forallb_forall in Hscan. apply Hscan.
        apply filter_In. split; assumption.
      * unfold carriesId. rewrite Hjson. reflexivity.
  - split; [discriminate|]. split; [|reflexivity].
    intros _. left. reflexivity.
Qed.

Lemma findDocumentById_spec_witness :
  findDocumentById true Examples2.scanned "d3"
    = Some {| data := Examples2.third; jsonPath := "hinge.json";
              filename := "hinge" |} /\
  findDocumentById true Examples2.scanned "d9" = None.
Proof.
  split; [reflexivity|].
  apply (findDocumentById_spec true Examples2.scanned "d9").
  right. reflexivity.
Defined.

Lemma substring_skip (s t : string) (n : nat) :
  String.substring (String.length s) n (s ++ t) = String.substring 0 n t.
Proof. induction s as [|c rest IH]; simpl; [reflexivity | exact IH]. Qed.

Lemma substring_all (t : string) :
  String.substring 0 (String.length t) t = t.
Proof. induction t as [|c rest IH]; simpl; [|rewrite IH]; reflexivity. Qed.

Lemma length_append (s t : string) :
  String.length (s ++ t) = String.length s + String.length t.
Proof. induction s as [|c rest IH]; simpl; [|rewrite IH]; reflexivity. Qed.

Lemma endsWith_append (s t : string) : endsWith t (s ++ t) = true.
Proof.
  unfold endsWith. rewrite length_append.
  replace (String.length s + String.length t - String.length t)
    with (String.length s) by lia.
  rewrite substring_skip, substring_all, String.eqb_refl.
  rewrite andb_true_r. apply Nat.leb_le. lia.
Qed.

(** With distinct file names, the files after [o[k] = v]. *)
Lemma In_set {V : Type} k (v : V) o k' v' :
  NoDup (keys o) ->
  In (k', v') (set k v o) ->
  (k' = k /\ v' = v) \/ (k' <> k /\ In (k', v') o).
Proof.
  intros Hnd Hin.
  apply (In_lookup _ _ _ (NoDup_set k v o Hnd)) in Hin.
  rewrite lookup_set in Hin.
  destruct (String.eqb_spec k' k) as [->|Hne].
  - injection Hin as <-. left. split; reflexivity.
  - right. split; [exact Hne | exact (lookup_In _ _ _ Hin)].
Qed.

(** When one file only can be returned for the id, it is returned
    wherever it stands in the listing. *)
Lemma scan_unique documentId path record name l :
  Forall (fun f => endsWith ".json" (fst f) = true) l ->
  In (path, Parsed record) l ->
  strictEqualsString (getProp record "documentId") documentId = true ->
  filenameOf record = Ok name ->
  (forall f, In f l -> carriesId documentId f = true ->
     f = (path, Parsed record)) ->
  scan documentId l =
    Some {| data := record; jsonPath := path; filename := name |}.
Proof.
  intros Hall Hin Hid Hname Honly.
  induction l as [|[jsonFile content] rest IH]; [destruct Hin|].
  inversion Hall as [|? ? Hjson Hrest]; subst. simpl in Hjson.
  rewrite (scan_cons _ _ _ _ Hjson).
  destruct (carriesId documentId (jsonFile, content)) eqn:Hc.
  - pose proof (Honly _ (or_introl eq_refl) Hc) as E.
    injection E as -> ->. rewrite Hname. reflexivity.
  - apply IH; [exact Hrest | |].
    + destruct Hin as [E|Hin]; [|exact Hin].
      exfalso. injection E as -> ->.
      rewrite (carriesId_Parsed _ _ _ Hjson), Hid, Hname in Hc.
      discriminate Hc.
    + intros f Hf. apply Honly. right. exact Hf.
Qed.

Lemma record_documentId parseDate env document_id s existing api user :
  getProp (writtenRecord parseDate env document_id s existing api user)
    "documentId" = Some (JStr document_id).
Proof. unfold writtenRecord, apiData. simpl. reflexivity. Qed.

(** X22. After [syncDocuments] has returned for a document whose id no
    other record file of the directory carries, [findDocumentById] finds,
    in whatever order the directory is listed, the record just written, at
    the path it was written to, with the slug of the document name as file
    name: the path is that file name followed by [.json]. *)
Theorem find_after_sync
    parseDate client env store document_id document dir :
  getDocument client document_id = Ok document ->
  run_end (syncDocuments parseDate client env store document_id)
    = Returned ->
  NoDup (keys store) ->
  (forall name d,
     In (name, Parsed d) store -> name <> outputPath document ->
     getProp d "documentId" <> Some (JStr document_id)) ->
  (forall f,
     In f dir <->
     In f (run_store
             (syncDocuments parseDate client env store document_id))) ->
  exists record,
    lookup (outputPath document)
      (run_store (syncDocuments parseDate client env store document_id))
      = Some (Parsed record) /\
    findDocumentById true dir document_id =
      Some {| data := record;
              jsonPath := outputPath document;
              filename :=
                Slug.generateFilenameFromTitle (doc_name document) |} /\
    outputPath document =
      (Slug.generateFilenameFromTitle (doc_name document) ++ ".json")%string.
Proof.
  intros Hdoc Hend Hnd Hothers Hdir. revert Hend Hdir.
  unfold syncDocuments. rewrite Hdoc.
  destruct (documentData parseDate env document_id
              (fetchSnapshot client document_id document)
              (existingData (lookup (outputPath document) store)))
    as [record|] eqn:Hrec; cbn [run_end run_store]; [|discriminate].
  intros _ Hdir. exists record.
  split; [rewrite lookup_set, String.eqb_refl; reflexivity|].
  split; [|reflexivity].
  destruct (SyncFacts.documentData_Ok _ _ _ _ _ _ Hrec)
    as (api & user & _ & _ & Hwritten).
  assert (Hid : getProp record "documentId" = Some (JStr document_id)).
  { rewrite Hwritten. apply record_documentId. }
  assert (Htitle : getProp record "title" = Some (JStr (doc_name document))).
  { rewrite Hwritten. apply SyncFacts.record_title. }
  unfold findDocumentById. cbn [negb].
  apply scan_unique.
  - apply jsonFiles_Forall.
  - apply filter_In. split.
    + apply Hdir. apply lookup_In.
      rewrite lookup_set, String.eqb_refl. reflexivity.
    + apply endsWith_append.
  - rewrite Hid. simpl. apply String.eqb_refl.
  - unfold filenameOf. rewrite Htitle. reflexivity.
  - intros [name content] Hin Hc.
    apply filter_In in Hin as [Hin Hjson]. apply Hdir in Hin.
    destruct (In_set _ _ _ _ _ Hnd Hin) as [[-> ->]|[Hne Hold]];
      [reflexivity|].
    exfalso. destruct content as [d|];
      [|unfold carriesId in Hc; simpl in Hc;
        rewrite andb_false_r in Hc; discriminate Hc].
    simpl in Hjson. rewrite (carriesId_Parsed _ _ _ Hjson) in Hc.
    apply andb_true_iff in Hc as [Hc _].
    exact (Hothers name d Hold Hne (strictEqualsString_true _ _ Hc)).
Qed.

Lemma find_after_sync_witness :
  exists record,
    findDocumentById true
      (("notes.txt", Unparseable)
       :: run_store (syncDocuments Examples.isoDates Examples2.healthy
                       Examples.env [("notes.txt", Unparseable)] "d1"))
      "d1"
    = Some {| data := record; jsonPath := "widget-case.json";
              filename := "widget-case" |}.
Proof.
  destruct (find_after_sync Examples.isoDates Examples2.healthy
              Examples.env [("notes.txt", Unparseable)] "d1"
              Examples.widget
              (("notes.txt", Unparseable)
               :: run_store (syncDocuments Examples.isoDates
                               Examples2.healthy Examples.env
                               [("notes.txt", Unparseable)] "d1"))
              eq_refl eq_refl)
    as (record & _ & Hfind & _).
  - constructor; [intros [] | constructor].
  - intros name d [E|[]]. discriminate E.
  - intros f. split.
    + intros [<-|H]; [left; reflexivity | exact H].
    + intros H. right. exact H.
  - exists record. exact Hfind.
Defined.

(** *** File names *)

Lemma slugChar_plain c :
  Slug.isSlugChar c = true ->
  Slug.lowerChar c = c /\ Slug.isSpace c = false /\ c <> "."%char.
Proof.
  destruct c as [[] [] [] [] [] [] [] []]; intros H; vm_compute in H;
    try discriminate H; (split; [reflexivity|]; split;
                         [reflexivity | discriminate]).
Qed.

Lemma lowerChar_idempotent c :
  Slug.lowerChar (Slug.lowerChar c) = Slug.lowerChar c.
Proof. destruct c as [[] [] [] [] [] [] [] []]; reflexivity. Qed.

Lemma toLowerCase_idempotent s :
  Slug.toLowerCase (Slug.toLowerCase s) = Slug.toLowerCase s.
Proof.
  induction s as [|c rest IH]; simpl;
    [|rewrite lowerChar_idempotent, IH]; reflexivity.
Qed.

Lemma slug_fixed s :
  Slug.allChars Slug.isSlugChar s = true ->
  Slug.toLowerCase s = s /\
  Slug.replaceSpaces false s = s /\
  Slug.stripOthers s = s.
Proof.
  induction s as [|c rest IH]; [repeat split|].
  cbn [Slug.allChars]. intros H. apply andb_true_iff in H as [Hc Hrest].
  destruct (IH Hrest) as (Hl & Hr & Hs).
  destruct (slugChar_plain c Hc) as (Hlow & Hsp & _).
  cbn [Slug.toLowerCase Slug.replaceSpaces Slug.stripOthers].
  rewrite Hlow, Hsp, Hc, Hl, Hr, Hs. repeat split.
Qed.

Lemma toLowerCase_length s :
  String.length (Slug.toLowerCase s) = String.length s.
Proof. induction s as [|c rest IH]; simpl; [|rewrite IH]; reflexivity. Qed.

Lemma replaceSpaces_length s : forall inMatch,
  String.length (Slug.replaceSpaces inMatch s) <= String.length s.
Proof.
  induction s as [|c rest IH]; intros inMatch; simpl; [lia|].
  destruct (Slug.isSpace c); [destruct inMatch|]; simpl.
  - specialize (IH true). lia.
  - specialize (IH true). lia.
  - specialize (IH false). lia.
Qed.

Lemma stripOthers_length s :
  String.length (Slug.stripOthers s) <= String.length s.
Proof.
  induction s as [|c rest IH]; simpl; [lia|].
  destruct (Slug.isSlugChar c); simpl; lia.
Qed.

(** X23. A string of characters of [[a-z0-9-]] is its own file name, so
    [generateFilenameFromTitle] applied twice gives what it gives once;
    titles that differ in letter case only get one file name; and the file
    name is never longer than the title. *)
Theorem generateFilenameFromTitle_stable :
  (forall s, Slug.allChars Slug.isSlugChar s = true ->
     Slug.generateFilenameFromTitle s = s) /\
  (forall title,
     Slug.generateFilenameFromTitle (Slug.generateFilenameFromTitle title)
       = Slug.generateFilenameFromTitle title) /\
  (forall title other,
     Slug.toLowerCase title = Slug.toLowerCase other ->
     Slug.generateFilenameFromTitle title
       = Slug.generateFilenameFromTitle other) /\
  (forall title,
     Slug.generateFilenameFromTitle (Slug.toLowerCase title)
       = Slug.generateFilenameFromTitle title) /\
  (forall title,
     String.length (Slug.generateFilenameFromTitle title)
       <= String.length title).
Proof.
  assert (Hfixed : forall s, Slug.allChars Slug.isSlugChar s = true ->
            Slug.generateFilenameFromTitle s = s).
  { intros s H. destruct (slug_fixed s H) as (Hl & Hr & Hs).
    unfold Slug.generateFilenameFromTitle. rewrite Hl, Hr. exact Hs. }
  split; [exact Hfixed|]. split; [|split; [|split]].
  - intros title. apply Hfixed. apply SlugFacts.stripOthers_slug.
  - intros title other H. unfold Slug.generateFilenameFromTitle.
    rewrite H. reflexivity.
  - intros title. unfold Slug.generateFilenameFromTitle.
    rewrite toLowerCase_idempotent. reflexivity.
  - intros title. unfold Slug.generateFilenameFromTitle.
    pose proof (stripOthers_length
                  (Slug.replaceSpaces false (Slug.toLowerCase title))).
    pose proof (replaceSpaces_length (Slug.toLowerCase title) false).
    pose proof (toLowerCase_length title). lia.
Qed.

Lemma generateFilenameFromTitle_stable_witness :
  Slug.generateFilenameFromTitle "widget-case" = "widget-case"%string /\
  Slug.generateFilenameFromTitle "Widget Case"
    = Slug.generateFilenameFromTitle "WIDGET CASE".
Proof.
  destruct generateFilenameFromTitle_stable as (Hfixed & _ & Hcase & _).
  split; [apply Hfixed; reflexivity | apply Hcase; reflexivity].
Defined.

Lemma replaceFirst_extension s :
  Slug.allChars Slug.isSlugChar s = true ->
  BulkUpload.replaceFirst ".json" ".pdf" (s ++ ".json") = (s ++ ".pdf")%string.
Proof.
  induction s as [|c rest IH]; [reflexivity|].
  cbn [Slug.allChars]. intros H. apply andb_true_iff in H as [Hc Hrest].
  destruct (slugChar_plain c Hc) as (_ & _ & Hdot).
  cbn [append BulkUpload.replaceFirst String.prefix].
  destruct (ascii_dec "." c) as [E|_]; [exfalso; exact (Hdot (eq_sym E))|].
  rewrite (IH Hrest). reflexivity.
Qed.

(** X24. The PDF that [bulkUpload] looks for beside a record file written
    by [syncDocuments] has the name [getPdfPath] gives for the document's
    file name, the one under which PDFs are generated; the record file is
    one of the [.json] files the commands list, and the PDF name ends in
    [.pdf]. *)
Theorem record_file_pdf_name (document : RemoteDocument) :
  BulkUpload.replaceFirst ".json" ".pdf" (outputPath document) =
    getPdfPath (Slug.generateFilenameFromTitle (doc_name document)) /\
  endsWith ".json" (outputPath document) = true /\
  endsWith ".pdf"
    (BulkUpload.replaceFirst ".json" ".pdf" (outputPath document)) = true.
Proof.
  unfold outputPath, getPdfPath.
  pose proof (replaceFirst_extension
                (Slug.generateFilenameFromTitle (doc_name document))
                (SlugFacts.stripOthers_slug _)) as Hpdf.
  rewrite Hpdf.
  split; [reflexivity|]. split; apply endsWith_append.
Qed.

End DocumentUtilsProps.

(** ** [bulkGenerate] *)
Module BulkGenerateProps.
Import Sync Listing BulkGenerate.

Lemma started_app l1 l2 : started (l1 ++ l2) = started l1 ++ started l2.
Proof.
  induction l1 as [|x rest IH]; simpl; [reflexivity|].
  destruct x; simpl; rewrite ?IH; reflexivity.
Qed.

Lemma started_FromGenerate l : started (map FromGenerate l) = [].
Proof. induction l as [|x rest IH]; simpl; [reflexivity | exact IH]. Qed.

Lemma generateAll_prefix w options before rest :
  (forall d, In d before ->
     snd (Bulk.generatePDF w (ld_id d)
            (str_or (template options) "technical-documentation"))
     = Returned) ->
  snd (generateAll w options (before ++ rest))
    = snd (generateAll w options rest) /\
  started (fst (generateAll w options (before ++ rest)))
    = map ld_name before ++ started (fst (generateAll w options rest)).
Proof.
  induction before as [|d more IH]; intros Hall; [split; reflexivity|].
  destruct IH as [Hend Hstarted];
    [intros d' Hin; apply Hall; right; exact Hin|].
  cbn [app generateAll]. rewrite (Hall d (or_introl eq_refl)).
  cbn [fst snd]. split; [exact Hend|].
  cbn [started app map]. rewrite started_app, started_FromGenerate, Hstarted.
  reflexivity.
Qed.

(** X25. [bulkGenerate] generates the listed documents in listing order
    and stops at the first document whose generation exits the process:
    the documents listed after it are not started, although the loop has a
    handler for each document.  When every generation returns, every
    listed document is started and the command returns. *)
Theorem bulkGenerate_runs_until_failure w fuel options documents :
  findDocuments w fuel options = Some (Ok documents) ->
  exists run,
    bulkGenerate w fuel options = Some run /\
    ((forall d, In d documents ->
        snd (Bulk.generatePDF w (ld_id d)
               (str_or (template options) "technical-documentation"))
        = Returned) ->
     snd run = Returned /\
     started (fst run) = map ld_name documents) /\
    (forall before doc after code,
       documents = before ++ doc :: after ->
       (forall d, In d before ->
          snd (Bulk.generatePDF w (ld_id d)
                 (str_or (template options) "technical-documentation"))
          = Returned) ->
       snd (Bulk.generatePDF w (ld_id doc)
              (str_or (template options) "technical-documentation"))
         = Exited code ->
       snd run = Exited code /\
       started (fst run) = map ld_name before ++ [ld_name doc]).
Proof.
  intros Hfind. unfold bulkGenerate. rewrite Hfind.
  destruct documents as [|first others].
  - eexists. split; [reflexivity|]. split.
    + intros _. split; reflexivity.
    + intros [|? ?] doc after code E; discriminate E.
  - eexists. split; [reflexivity|]. split.
    + intros Hall.
      destruct (generateAll_prefix w options (first :: others) [] Hall)
        as [Hend Hstarted].
      rewrite app_nil_r in Hend, Hstarted.
      rewrite Hend, Hstarted. cbn [generateAll fst snd started].
      rewrite app_nil_r. split; reflexivity.
    + intros before doc after code -> Hall Hdoc.
      destruct (generateAll_prefix w options before (doc :: after) Hall)
        as [Hend Hstarted].
      rewrite Hend, Hstarted. cbn [generateAll]. rewrite Hdoc.
      cbn [fst snd started]. rewrite started_FromGenerate.
      split; reflexivity.
Qed.

Lemma bulkGenerate_runs_until_failure_witness :
  exists run,
    bulkGenerate Examples.batchWorld 5 Examples2.generateEverything
      = Some run /\
    snd run = Exited 1 /\
    started (fst run) = ["Alpha"; "Beta"].
Proof.
  destruct (bulkGenerate_runs_until_failure Examples.batchWorld 5
              Examples2.generateEverything
              [Examples.alpha; Examples.beta; Examples.gamma] eq_refl)
    as (run & Hrun & _ & Hstop).
  exists run. split; [exact Hrun|].
  apply (Hstop [Examples.alpha] Examples.beta [Examples.gamma] 1%Z eq_refl).
  - intros d [<-|[]]. reflexivity.
  - reflexivity.
Defined.

End BulkGenerateProps.

(** ** The paginated listing *)
Module ListingMore.
Import Listing.

(** More fuel does not change what the loop returns. *)
Lemma collectPages_more_fuel api options : forall fuel fuel' p acc r,
  fuel <= fuel' ->
  collectPages api options fuel p acc = Some r ->
  collectPages api options fuel' p acc = Some r.
Proof.
  induction fuel as [|fuel IH]; intros fuel' p acc r Hle H;
    [discriminate H|].
  destruct fuel' as [|fuel']; [lia|].
  cbn [collectPages] in *.
  destruct (items p) as [[|x l]|]; try exact H.
  destruct (next p) as [url|]; [|exact H].
  destruct (getDocuments api (nextOptions options url)) as [p'|e];
    [|exact H].
  apply (IH fuel'); [lia | exact H].
Qed.

Section Advancing.

Variable api : Endpoint.
Variable bound : nat.

Hypothesis advances : forall params page url,
  api params = Ok page -> next page = Some url ->
  exists n, next_offset url = Some n /\ p_offset params < n.

Hypothesis ends : forall params page,
  api params = Ok page -> bound <= p_offset params -> next page = None.

Lemma collectPages_returns options : forall fuel params p acc,
  api params = Ok p ->
  bound <= fuel + p_offset params ->
  exists r, collectPages api options (S fuel) p acc = Some r.
Proof.
  induction fuel as [|fuel IH]; intros params p acc Hp Hfuel;
    cbn [collectPages];
    (destruct (items p) as [[|x l]|]; try (eexists; reflexivity));
    (destruct (next p) as [url|] eqn:Hnext; [|eexists; reflexivity]).
  - rewrite (ends params p Hp) in Hnext by (simpl in Hfuel; lia).
    discriminate Hnext.
  - destruct (advances params p url Hp Hnext) as (n & Hn & Hlt).
    destruct (getDocuments api (nextOptions options url)) as [p'|e] eqn:Hget;
      [|eexists; reflexivity].
    apply (IH _ p' _ Hget).
    cbn [p_offset nextOptions o_offset]. rewrite Hn. cbn [orDefault]. lia.
Qed.

(** X26. When every continuation pointer names an offset beyond the offset
    of the request that returned it, and requests from some offset on
    return no pointer, [getAllDocuments] ends within that many rounds of
    its loop plus one, and allowing more rounds changes nothing. *)
Theorem getAllDocuments_terminates options :
  exists r, forall fuel,
    S bound <= fuel -> getAllDocuments api fuel options = Some r.
Proof.
  unfold getAllDocuments.
  destruct (getDocuments api
              {| o_filter := o_filter (withoutPaging options);
                 o_q := o_q (withoutPaging options);
                 o_label := o_label (withoutPaging options);
                 o_offset := None; o_limit := Some 20 |})
    as [first|e] eqn:Hfirst.
  - destruct (collectPages_returns (withoutPaging options) bound _
                first [] Hfirst) as [r Hr].
    + lia.
    + exists r. intros fuel Hle.
      exact (collectPages_more_fuel api _ _ _ _ _ _ Hle Hr).
  - exists (Thrown e). intros fuel _. reflexivity.
Qed.

End Advancing.

Lemma getAllDocuments_terminates_witness :
  exists r,
    getAllDocuments Examples.twoPages 2 (Spec.unfiltered CREATED) = Some r /\
    getAllDocuments Examples.twoPages 9 (Spec.unfiltered CREATED) = Some r.
Proof.
  destruct (getAllDocuments_terminates Examples.twoPages 1) with
    (options := Spec.unfiltered CREATED) as [r Hr].
  - intros params page url. unfold Examples.twoPages.
    destruct (Nat.eqb_spec (p_offset params) 0) as [E|_].
    + intros [= <-] [= <-]. exists 20. cbn [next_offset]. split;
        [reflexivity | lia].
    + intros [= <-]. discriminate.
  - intros params page. unfold Examples.twoPages.
    destruct (Nat.eqb_spec (p_offset params) 0) as [E|_].
    + intros _ Hle. lia.
    + intros [= <-] _. reflexivity.
  - exists r. split; apply Hr; lia.
Defined.

End ListingMore.

(** ** The forms of the gateway client *)
Module ClientFormsProps.
Import ClientForms.

Lemma substring_prefix (s t : string) :
  String.substring 0 (String.length s) (s ++ t) = s.
Proof.
  induction s as [|c rest IH]; simpl; [destruct t | rewrite IH];
    reflexivity.
Qed.

Lemma toLowerCase_substring n m s :
  Slug.toLowerCase (String.substring n m s)
    = String.substring n m (Slug.toLowerCase s).
Proof.
  revert n m. induction s as [|c rest IH]; intros n m.
  - destruct n, m; reflexivity.
  - destruct n as [|n]; [destruct m as [|m]|]; cbn; rewrite ?IH;
      reflexivity.
Qed.

Lemma stripPdfExtension_append (s ext : string) :
  Slug.toLowerCase ext = ".pdf"%string ->
  stripPdfExtension (s ++ ext) = s.
Proof.
  intros Hext.
  assert (Hlen : String.length ext = 4).
  { rewrite <- (DocumentUtilsProps.toLowerCase_length ext), Hext.
    reflexivity. }
  assert (Hsub : String.substring 0 4 ext = ext).
  { rewrite <- Hlen. apply DocumentUtilsProps.substring_all. }
  unfold stripPdfExtension.
  rewrite DocumentUtilsProps.length_append, Hlen.
  replace (String.length s + 4 - 4) with (String.length s) by lia.
  rewrite DocumentUtilsProps.substring_skip, Hsub, Hext.
  rewrite substring_prefix.
  replace (Nat.leb 4 (String.length s + 4)) with true
    by (symmetry; apply Nat.leb_le; lia).
  reflexivity.
Qed.

(** X27. The [encodedFilename] sent with a PDF, its tab name, is the
    display name with one [.pdf] at its end: a display name that already
    ends in [.pdf], in any letter case, gets no second extension but its
    extension in small letters, and encoding an encoded name changes
    nothing. *)
Theorem encodedFilename_one_extension :
  (forall name ext, Slug.toLowerCase ext = ".pdf"%string ->
     encodedFilename (name ++ ext) = (name ++ ".pdf")%string) /\
  (forall displayName,
     encodedFilename (encodedFilename displayName)
       = encodedFilename displayName) /\
  (forall displayName,
     DocumentUtils.endsWith ".pdf" (encodedFilename displayName) = true) /\
  (forall displayName,
     DocumentUtils.endsWith ".pdf" (Slug.toLowerCase displayName) = false ->
     encodedFilename displayName = (displayName ++ ".pdf")%string).
Proof.
  split; [|split; [|split]].
  - intros name ext Hext. unfold encodedFilename.
    rewrite (stripPdfExtension_append name ext Hext). reflexivity.
  - intros displayName. unfold encodedFilename at 1 3.
    fold (encodedFilename displayName). unfold encodedFilename at 1.
    rewrite (stripPdfExtension_append _ ".pdf" eq_refl). reflexivity.
  - intros displayName. apply DocumentUtilsProps.endsWith_append.
  - intros displayName Hno. unfold encodedFilename, stripPdfExtension.
    unfold DocumentUtils.endsWith in Hno.
    rewrite DocumentUtilsProps.toLowerCase_length in Hno.
    cbn [String.length] in Hno.
    rewrite toLowerCase_substring, Hno. reflexivity.
Qed.

Lemma encodedFilename_one_extension_witness :
  encodedFilename "Widget Case" = "Widget Case.pdf"%string /\
  encodedFilename "Widget Case.PDF" = "Widget Case.pdf"%string.
Proof.
  destruct encodedFilename_one_extension as (Hext & _ & _ & Hplain).
  split; [apply Hplain; reflexivity|].
  exact (Hext "Widget Case" ".PDF" eq_refl).
Defined.

End ClientFormsProps.

(** ** The table of the [list] command *)
Module ListCommandProps.
Import ListCommand.

Lemma spaces_length n : String.length (spaces n) = n.
Proof. induction n as [|n IH]; simpl; [|rewrite IH]; reflexivity. Qed.

Lemma padEnd_length s n :
  String.length s <= n -> String.length (padEnd s n) = n.
Proof.
  intros H. unfold padEnd.
  rewrite DocumentUtilsProps.length_append, spaces_length. lia.
Qed.

Lemma substring_length n (s : string) :
  n <= String.length s -> String.length (String.substring 0 n s) = n.
Proof.
  revert s. induction n as [|n IH]; intros s H.
  - destruct s; reflexivity.
  - destruct s as [|c rest]; simpl in *; [lia|].
    rewrite IH by lia. reflexivity.
Qed.

Lemma maxNameLength_bounds names :
  20 <= maxNameLength names <= 50.
Proof.
  unfold maxNameLength.
  assert (H : 20 <= fold_right Nat.max 20 (map String.length names)).
  { induction names as [|n rest IH]; simpl; lia. }
  lia.
Qed.

Lemma maxNameLength_covers names name :
  In name names ->
  String.length name <= fold_right Nat.max 20 (map String.length names).
Proof.
  induction names as [|n rest IH]; intros Hin; [destruct Hin|].
  simpl. destruct Hin as [->|Hin]; [lia|]. specialize (IH Hin). lia.
Qed.

(** X28. The name column of the table has one width for the header and
    for every row, between 20 and 50 characters: a listed name of at most
    50 characters is shown in full and padded with spaces, a longer one is
    cut to its first 47 characters followed by three dots. *)
Theorem name_column_aligned names name :
  In name names ->
  20 <= maxNameLength names <= 50 /\
  String.length (nameHeader (maxNameLength names)) = maxNameLength names /\
  String.length (nameCell (maxNameLength names) name)
    = maxNameLength names /\
  (String.length name <= 50 ->
   nameCell (maxNameLength names) name
     = (name ++ spaces (maxNameLength names - String.length name))%string) /\
  (50 < String.length name ->
   nameCell (maxNameLength names) name
     = (String.substring 0 47 name ++ "...")%string).
Proof.
  intros Hin.
  pose proof (maxNameLength_bounds names) as Hb.
  pose proof (maxNameLength_covers names name Hin) as Hc.
  split; [exact Hb|].
  split; [apply padEnd_length; simpl; lia|].
  unfold nameCell.
  destruct (Nat.ltb_spec (maxNameLength names) (String.length name))
    as [Hlong|Hshort].
  - assert (Hm : maxNameLength names = 50).
    { unfold maxNameLength in *. lia. }
    split; [|split].
    + rewrite DocumentUtilsProps.length_append, substring_length by lia.
      simpl. lia.
    + intros Hle. lia.
    + intros _. rewrite Hm. reflexivity.
  - split; [apply padEnd_length; exact Hshort|]. split.
    + intros _. reflexivity.
    + intros Hgt. lia.
Qed.

Lemma name_column_aligned_witness :
  nameCell (maxNameLength ["Widget Case"; "Antenna Mount"]) "Widget Case"
    = "Widget Case         "%string.
Proof.
  destruct (name_column_aligned ["Widget Case"; "Antenna Mount"]
              "Widget Case" (or_introl eq_refl))
    as (_ & _ & _ & Hfull & _).
  rewrite Hfull by (simpl; lia). reflexivity.
Defined.

End ListCommandProps.

(** ** The colour of a label badge *)
Module BadgeProps.
Import Badge.
Local Open Scope Z_scope.

Lemma toInt32_range z : -2147483648 <= toInt32 z < 2147483648.
Proof.
  unfold toInt32.
  pose proof (Z.mod_pos_bound (z + 2147483648) 4294967296 ltac:(lia)).
  lia.
Qed.

Lemma toInt32_shift z k : toInt32 (z + k * 4294967296) = toInt32 z.
Proof.
  unfold toInt32.
  replace (z + k * 4294967296 + 2147483648)
    with (z + 2147483648 + k * 4294967296) by lia.
  rewrite Z_mod_plus_full. reflexivity.
Qed.

Lemma toInt32_wraps z : exists k, toInt32 z = z + k * 4294967296.
Proof.
  exists (- ((z + 2147483648) / 4294967296)). unfold toInt32.
  pose proof (Z_div_mod_eq_full (z + 2147483648) 4294967296). lia.
Qed.

Lemma step_polynomial a char :
  step (toInt32 a) char = toInt32 (31 * a + char).
Proof.
  unfold step. cbv zeta. rewrite Z.land_diag, Z.shiftl_mul_pow2 by lia.
  change (2 ^ 5) with 32.
  destruct (toInt32_wraps a) as [k1 H1].
  destruct (toInt32_wraps (toInt32 a)) as [k0 H0].
  destruct (toInt32_wraps (toInt32 (toInt32 a) * 32)) as [k2 H2].
  rewrite H2, H0, H1.
  replace ((a + k1 * 4294967296 + k0 * 4294967296) * 32
           + k2 * 4294967296 - (a + k1 * 4294967296) + char)
    with (31 * a + char + (32 * k1 + 32 * k0 + k2 - k1) * 4294967296)
    by lia.
  apply toInt32_shift.
Qed.

Lemma hashFrom_polynomial str : forall a,
  hashFrom (toInt32 a) str = toInt32 (polynomial a str).
Proof.
  induction str as [|c rest IH]; intros a; [reflexivity|].
  cbn [hashFrom polynomial]. rewrite step_polynomial. apply IH.
Qed.

(** X29. The hash of a label is the absolute value of the 31-polynomial of
    its code units taken as a signed 32-bit integer; it lies between 0 and
    2^31, so the colour index lies between 0 and 6 and every label, the
    ones hashing to -2^31 included, gets one of the seven colour
    classes. *)
Theorem every_label_has_a_colour label :
  hashString label = Z.abs (toInt32 (polynomial 0 label)) /\
  0 <= hashString label <= 2147483648 /\
  0 <= colorIndex label < 7 /\
  exists class,
    colorClass label = Some class /\ In class colorVariants.
Proof.
  assert (Hpoly : hashString label = Z.abs (toInt32 (polynomial 0 label))).
  { unfold hashString. change 0 with (toInt32 0) at 1.
    rewrite hashFrom_polynomial. reflexivity. }
  assert (Hrange : 0 <= hashString label <= 2147483648).
  { rewrite Hpoly. pose proof (toInt32_range (polynomial 0 label)). lia. }
  assert (Hindex : 0 <= colorIndex label < 7).
  { unfold colorIndex. change (Z.of_nat (List.length colorVariants)) with 7.
    apply Z.mod_pos_bound. lia. }
  repeat split; try assumption; try apply Hrange; try apply Hindex.
  unfold colorClass.
  destruct (nth_error colorVariants (Z.to_nat (colorIndex label)))
    as [class|] eqn:E.
  - exists class. split; [reflexivity|]. exact (nth_error_In _ _ E).
  - apply nth_error_None in E. simpl in E. lia.
Qed.

End BadgeProps.

(** ** [uploadPDF] by document id *)
Module UploadByIdProps.
Import Sync UploadById.

Lemma scan_agrees document l : forall found acc,
  DocumentUtils.scan document l = Some found ->
  scan document l acc =
    (Some (DocumentUtils.data found, DocumentUtils.jsonPath found),
     Some (DocumentUtils.filename found)).
Proof.
  induction l as [|[jsonFile content] rest IH]; intros found acc H;
    [discriminate H|].
  cbn [DocumentUtils.scan scan] in *.
  destruct content as [data|]; [|exact (IH _ _ H)].
  destruct (getMember data "documentId") as [v|]; [|exact (IH _ _ H)].
  destruct (DocumentUtils.strictEqualsString v document);
    [|exact (IH _ _ H)].
  destruct (DocumentUtils.filenameOf data) as [name|];
    [|exact (IH _ _ H)].
  injection H as <-. reflexivity.
Qed.

Lemma scan_unset document l : forall acc,
  DocumentUtils.scan document l = None ->
  snd (scan document l acc) = None.
Proof.
  induction l as [|[jsonFile content] rest IH]; intros acc H;
    [reflexivity|].
  cbn [DocumentUtils.scan scan] in *.
  destruct content as [data|]; [|exact (IH _ H)].
  destruct (getMember data "documentId") as [v|]; [|exact (IH _ H)].
  destruct (DocumentUtils.strictEqualsString v document);
    [|exact (IH _ H)].
  destruct (DocumentUtils.filenameOf data) as [name|];
    [discriminate H | exact (IH _ H)].
Qed.

(** *** The record file the command by file looks for *)

Lemma slugChar_no_slash c : Slug.isSlugChar c = true -> c <> "/"%char.
Proof.
  destruct c as [[] [] [] [] [] [] [] []]; intros H; vm_compute in H;
    try discriminate H; discriminate.
Qed.

Lemma contains_slash_append dir name :
  BulkUpload.contains "/" (dir ++ String "/" name) = true.
Proof.
  induction dir as [|c rest IH].
  - cbn [append BulkUpload.contains String.prefix].
    destruct (ascii_dec "/" "/") as [_|Hne];
      [destruct name | exfalso; apply Hne]; reflexivity.
  - cbn [append BulkUpload.contains]. rewrite IH. apply orb_true_r.
Qed.

Lemma lastSegment_append dir name :
  BulkUpload.contains "/" name = false ->
  lastSegment (dir ++ String "/" name) = name.
Proof.
  intros Hname. induction dir as [|c rest IH].
  - cbn [append lastSegment]. rewrite Hname. reflexivity.
  - cbn [append lastSegment]. rewrite contains_slash_append. exact IH.
Qed.

Lemma slug_no_slash s ext :
  Slug.allChars Slug.isSlugChar s = true ->
  BulkUpload.contains "/" ext = false ->
  BulkUpload.contains "/" (s ++ ext) = false.
Proof.
  intros Hs Hext. induction s as [|c rest IH]; [exact Hext|].
  cbn [Slug.allChars] in Hs. apply andb_true_iff in Hs as [Hc Hrest].
  cbn [append BulkUpload.contains String.prefix].
  destruct (ascii_dec "/" c) as [E|_];
    [exfalso; exact (slugChar_no_slash c Hc (eq_sym E))|].
  exact (IH Hrest).
Qed.

Lemma replaceFirst_pdf s :
  Slug.allChars Slug.isSlugChar s = true ->
  BulkUpload.replaceFirst ".pdf" "" (s ++ ".pdf") = s.
Proof.
  induction s as [|c rest IH]; [reflexivity|].
  cbn [Slug.allChars]. intros H. apply andb_true_iff in H as [Hc Hrest].
  destruct (DocumentUtilsProps.slugChar_plain c Hc) as (_ & _ & Hdot).
  cbn [append BulkUpload.replaceFirst String.prefix].
  destruct (ascii_dec "." c) as [E|_]; [exfalso; exact (Hdot (eq_sym E))|].
  rewrite (IH Hrest). reflexivity.
Qed.

(** For a file name of [[a-z0-9-]], the command by file, given the PDF of
    that name, looks for the record file of that name. *)
Lemma pdfFileOf_names filename :
  Slug.allChars Slug.isSlugChar filename = true ->
  lastSegment (pdfFileOf filename) = (filename ++ ".pdf")%string /\
  pdfName (pdfFileOf filename) = filename.
Proof.
  intros Hslug.
  assert (Hlast : lastSegment (pdfFileOf filename)
                  = (filename ++ ".pdf")%string).
  { unfold pdfFileOf, DocumentUtils.getPdfPath.
    change ("public/pdf/" ++ (filename ++ ".pdf"))%string
      with ("public/pdf" ++ String "/" (filename ++ ".pdf"))%string.
    apply lastSegment_append. apply slug_no_slash; [exact Hslug|].
    reflexivity. }
  split; [exact Hlast|].
  unfold pdfName. rewrite Hlast. apply replaceFirst_pdf. exact Hslug.
Qed.

(** X30. When the record files have distinct names and [findDocumentById]
    finds, for the document, a record in the file named after the slug of
    its title, the upload by document id does what the upload by file does
    when it is given the PDF of that name in the same directories: the
    same requests, the same end, and the same record written, to the found
    path.  When [findDocumentById] finds none, the upload by document id
    sends no request unless a file [undefined.pdf] exists. *)
Theorem uploadById_agrees w options :
  (forall found,
     documentsDirExists w = true ->
     NoDup (keys (dir w)) ->
     DocumentUtils.findDocumentById true (dir w) (document options)
       = Some found ->
     DocumentUtils.jsonPath found
       = (DocumentUtils.filename found ++ ".json")%string ->
     calls (uploadPDF w options) =
       Upload.calls
         (Upload.uploadPDF
            (asFileUpload w (pdfFileOf (DocumentUtils.filename found)))
            (asFileOptions options
               (pdfFileOf (DocumentUtils.filename found)))) /\
     finished (uploadPDF w options) =
       Upload.finished
         (Upload.uploadPDF
            (asFileUpload w (pdfFileOf (DocumentUtils.filename found)))
            (asFileOptions options
               (pdfFileOf (DocumentUtils.filename found)))) /\
     written (uploadPDF w options) =
       option_map (pair (DocumentUtils.jsonPath found))
         (Upload.written
            (Upload.uploadPDF
               (asFileUpload w (pdfFileOf (DocumentUtils.filename found)))
               (asFileOptions options
                  (pdfFileOf (DocumentUtils.filename found)))))) /\
  (DocumentUtils.findDocumentById (documentsDirExists w) (dir w)
     (document options) = None ->
   pdfExists w "undefined.pdf" = false ->
   calls (uploadPDF w options) = [] /\
   written (uploadPDF w options) = None /\
   finished (uploadPDF w options) = Exited 1).
Proof.
  split.
  - intros found Hdir Hnames Hfind Hpath.
    unfold DocumentUtils.findDocumentById in Hfind. cbn [negb] in Hfind.
    pose proof (DocumentUtilsProps.scan_spec (document options) _
                  (DocumentUtilsProps.jsonFiles_Forall (dir w))) as Hspec.
    rewrite Hfind in Hspec.
    destruct Hspec as (before & after & title & Hl & _ & Hid & _ & Hname).
    assert (Hin : In (DocumentUtils.jsonPath found,
                      Parsed (DocumentUtils.data found)) (dir w)).
    { assert (H : In (DocumentUtils.jsonPath found,
                      Parsed (DocumentUtils.data found))
                    (filter
                       (fun f => DocumentUtils.endsWith ".json" (fst f))
                       (dir w))) by (rewrite Hl; apply in_elt).
      apply filter_In in H. apply H. }
    pose proof (ObjectFacts.In_lookup _ _ _ Hnames Hin) as Hlookup.
    assert (Hslug : Slug.allChars Slug.isSlugChar
                      (DocumentUtils.filename found) = true)
      by (rewrite Hname; apply SlugFacts.stripOthers_slug).
    destruct (pdfFileOf_names _ Hslug) as [Hlast Hpdfname].
    destruct found as [data jsonPath filename].
    cbn [DocumentUtils.data DocumentUtils.jsonPath DocumentUtils.filename]
      in *.
    subst jsonPath.
    destruct data as [| | | | |props]; try discriminate Hid.
    unfold uploadPDF. rewrite Hdir, (scan_agrees _ _ _ None Hfind).
    cbn [negb DocumentUtils.data DocumentUtils.jsonPath
         DocumentUtils.filename pdfFileName].
    unfold Upload.uploadPDF, asFileUpload, asFileOptions.
    rewrite Hlast, Hpdfname, Hlookup.
    unfold Upload.documentData.
    cbn [Upload.pdfFileExists Upload.jsonFile].
    destruct (pdfExists w (filename ++ ".pdf")); cbn [negb];
      [|repeat split].
    change (Upload.workspaceId _ (Some (JObj props)))
      with (workspaceId options (JObj props)).
    destruct (or_else (workspaceId options (JObj props)) None) as [ws|];
      [|repeat split].
    destruct (or_else (Upload.existingElementId (Some (JObj props))) None)
      as [element|].
    + unfold updateElement, Upload.updateElement, failed, Upload.failed.
      cbn [Upload.document Upload.updatePDF].
      destruct (updatePDF w (document options) ws element); repeat split.
    + unfold createElement, Upload.createElement, failed, Upload.failed.
      cbn [Upload.document Upload.uploadPDF_request].
      destruct (uploadPDF_request w (document options) ws) as [result|];
        [|repeat split].
      cbn [calls written finished Upload.calls Upload.written
           Upload.finished].
      split; [reflexivity|]. split; [reflexivity|].
      destruct (Upload.result_id result) as [new_id|]; [|reflexivity].
      cbn [truthy negb]. rewrite orb_false_r.
      destruct (String.eqb new_id ""); reflexivity.
  - intros Hfind Hpdf. unfold uploadPDF.
    unfold DocumentUtils.findDocumentById in Hfind.
    destruct (documentsDirExists w); cbn [negb] in *; [|repeat split].
    pose proof (scan_unset (document options) _ None Hfind) as Hunset.
    destruct (scan (document options)
                (filter (fun f => DocumentUtils.endsWith ".json" (fst f))
                   (dir w)) None) as [[[documentData jsonPath]|] filename];
      [|repeat split].
    cbn [snd] in Hunset. subst filename. cbn [pdfFileName].
    rewrite Hpdf. repeat split.
Qed.

(** The two commands on a record file named after its title, and on the
    same record under another file name, where they part. *)
Lemma uploadById_agrees_witness :
  calls (uploadPDF Examples2.hingeWorld Examples2.byId)
    = [Upload.UploadPDF "d3" (JStr "w1")] /\
  DocumentUtils.findDocumentById true
    (dir Examples2.untitledOnly) "d3" = None /\
  calls (uploadPDF Examples2.untitledOnly Examples2.byId)
    = [Upload.UploadPDF "d3" (JStr "w1")] /\
  calls (uploadPDF Examples2.renamedWorld Examples2.byId)
    = [Upload.UploadPDF "d3" (JStr "w1")] /\
  Upload.calls
    (Upload.uploadPDF
       (asFileUpload Examples2.renamedWorld (pdfFileOf "hinge"))
       (asFileOptions Examples2.byId (pdfFileOf "hinge"))) = [].
Proof.
  destruct (uploadById_agrees Examples2.hingeWorld Examples2.byId)
    as [Hfound _].
  destruct (Hfound
              {| DocumentUtils.data :=
                   JObj [("documentId", JStr "d3"); ("title", JStr "Hinge");
                         ("mainWorkspaceId", JStr "w1")];
                 DocumentUtils.jsonPath := "hinge.json";
                 DocumentUtils.filename := "hinge" |} eq_refl)
    as (Hcalls & _).
  - constructor; [intros [E|[]]; discriminate E|].
    constructor; [intros []|constructor].
  - reflexivity.
  - reflexivity.
  - split; [rewrite Hcalls; reflexivity|]. repeat split.
Defined.

End UploadByIdProps.
